(** * Timetable generator: the CSP solver and the genetic solver

    A shallow embedding of [extras/timetable_csp_hard.py] (class
    [TimetableCSP]) and of [genetic_algorithm.py] (class
    [GeneticAlgorithmCPUOptimized]), and the properties of the scheduling
    engine stated over it.

    Conventions of the embedding.
    - Database rows are records; the columns the solvers read are fields.
    - Python [int] is [Z]; list positions are [nat].
    - Python [float] is read as an exact rational ([Q]): weights, penalties
      and fitness values are computed without rounding.
    - A Python [dict] is an association list in insertion order, with the
      update rule of Python (an existing key keeps its position).
    - A raised exception is the [Raise] case of [result].
    - The [random] module is a tape of natural numbers that the GA consumes;
      every statement about the GA is for an arbitrary tape.
    - Progress callbacks, wall-clock time and the process pool are left out:
      the sequential branch of every parallel helper is the one embedded. *)

From Stdlib Require Import String ZArith QArith Bool Arith Lia Lqa List Permutation Sorted.
Import ListNotations.
Close Scope Q_scope.
Local Open Scope string_scope.
Local Open Scope list_scope.

Set Implicit Arguments.

(* ================================================================== *)
(** * Python values and containers *)
(* ================================================================== *)

(** Python's [==] on the key types the solvers use. *)
Class Eqb (A : Type) : Type := eqb : A -> A -> bool.

#[export] Instance Eqb_Z : Eqb Z := Z.eqb.
#[export] Instance Eqb_nat : Eqb nat := Nat.eqb.
#[export] Instance Eqb_string : Eqb string := String.eqb.
#[export] Instance Eqb_pair (A B : Type) `{Eqb A} `{Eqb B} : Eqb (A * B) :=
  fun x y => eqb (fst x) (fst y) && eqb (snd x) (snd y).

(** Exceptions the two solvers can raise.  [ValueErrorIds] is the f-string
    site of [_load_data], whose message embeds the selected batch ids. *)
Inductive exn : Type :=
| ValueError (msg : string)
| ValueErrorIds (msg : string) (ids : list Z)
| ValueErrorNotInList (x : string)
| IndexError (msg : string)
| KeyError (key : Z)
| KeyErrorStr (key : string)
| ZeroDivisionError.

Inductive result (A : Type) : Type :=
| Ok (a : A)
| Raise (e : exn).
Arguments Ok {A} a.
Arguments Raise {A} e.

(** A list comprehension whose body may raise. *)
Fixpoint mapM {A B} (f : A -> result B) (l : list A) : result (list B) :=
  match l with
  | [] => Ok []
  | x :: l' =>
    match f x with
    | Raise e => Raise e
    | Ok y =>
      match mapM f l' with
      | Raise e => Raise e
      | Ok ys => Ok (y :: ys)
      end
    end
  end.

(** A loop that keeps the elements passing a test that may raise. *)
Fixpoint filterM {A} (f : A -> result bool) (l : list A) : result (list A) :=
  match l with
  | [] => Ok []
  | x :: l' =>
    match f x with
    | Raise e => Raise e
    | Ok b =>
      match filterM f l' with
      | Raise e => Raise e
      | Ok ys => Ok (if b then x :: ys else ys)
      end
    end
  end.

Module Py.

(** [x in l]. *)
Definition mem {A} `{Eqb A} (x : A) (l : list A) : bool :=
  existsb (fun y => eqb y x) l.

(** [l.index(x)]: the first position holding [x]; [None] stands for the
    [ValueError] that the caller either catches or lets through. *)
Fixpoint index {A} `{Eqb A} (x : A) (l : list A) : option nat :=
  match l with
  | [] => None
  | y :: l' => if eqb y x then Some 0%nat else option_map S (index x l')
  end.

(** [range(n)] for a Python int. *)
Definition range (n : Z) : list nat := seq 0 (Z.to_nat n).

(** [l[:k]] for a Python int [k] (a negative [k] counts from the end). *)
Definition slice_to {A} (k : Z) (l : list A) : list A :=
  if (k <? 0)%Z then firstn (Z.to_nat (Z.of_nat (length l) + k)) l
  else firstn (Z.to_nat k) l.

(** Dictionaries: insertion-ordered association lists. *)
Definition dict (K V : Type) : Type := list (K * V).

Fixpoint get {K V} `{Eqb K} (d : dict K V) (k : K) : option V :=
  match d with
  | [] => None
  | (k', v) :: d' => if eqb k' k then Some v else get d' k
  end.

(** [d[k] = v]. *)
Fixpoint set {K V} `{Eqb K} (d : dict K V) (k : K) (v : V) : dict K V :=
  match d with
  | [] => [(k, v)]
  | (k', v') :: d' => if eqb k' k then (k', v) :: d' else (k', v') :: set d' k v
  end.

(** [{key(x): val(x) for x in l}]. *)
Definition comprehension {A K V} `{Eqb K} (key : A -> K) (val : A -> V)
    (l : list A) : dict K V :=
  fold_left (fun d x => set d (key x) (val x)) l [].

Definition values {K V} (d : dict K V) : list V := map snd d.

(** [s.add(x)] on a set kept as a duplicate-free list. *)
Definition set_add {A} `{Eqb A} (s : list A) (x : A) : list A :=
  if mem x s then s else s ++ [x].

(** The stable sort behind [sorted] and [list.sort]: [leb x y] is
    [key x <= key y] (or [key y <= key x] under [reverse=True]); among
    elements with equal keys the original order is kept. *)
Fixpoint insert_by {A} (leb : A -> A -> bool) (x : A) (l : list A) : list A :=
  match l with
  | [] => [x]
  | y :: l' => if leb x y then x :: l else y :: insert_by leb x l'
  end.

Definition sorted {A} (leb : A -> A -> bool) (l : list A) : list A :=
  fold_right (insert_by leb) [] l.


(** Tuple comparison [<=] on pairs. *)
Definition lex_leb {A B} (lt_a : A -> A -> bool) (eq_a : A -> A -> bool)
    (le_b : B -> B -> bool) (x y : A * B) : bool :=
  lt_a (fst x) (fst y) || (eq_a (fst x) (fst y) && le_b (snd x) (snd y)).

Definition nat_pair_leb : nat * nat -> nat * nat -> bool :=
  lex_leb Nat.ltb Nat.eqb Nat.leb.

Definition Z_pair_leb : Z * Z -> Z * Z -> bool :=
  lex_leb Z.ltb Z.eqb Z.leb.

(** [sum] of floats, and [max] of a non-empty list of floats. *)
Definition qsum (l : list Q) : Q := fold_left Qplus l (0%Q).

Definition qmax2 (a b : Q) : Q := if Qle_bool a b then b else a.

Definition qmax (x : Q) (l : list Q) : Q := fold_left qmax2 l x.

End Py.

(* ================================================================== *)
(** * The catalogue *)
(* ================================================================== *)

(** The row of table [college], after [json.loads] of its two columns. *)
Record College : Type := {
  college_working_days : list string;
  college_time_slots : list string
}.

Record Batch : Type := {
  b_id : Z;
  number_of_students : Z
}.

Record Subject : Type := {
  s_id : Z;
  subject_type : string;
  credits : Z;
  theory_hours : Z;
  lab_hours : Z
}.

(** A row of [classrooms] has column [capacity], a row of [computer_labs]
    has [computer_capacity]; the code reads both with [dict.get]. *)
Record Room : Type := {
  r_id : Z;
  capacity : option Z;
  computer_capacity : option Z
}.

Module Alloc.
Record t : Type := {
  batch_id : Z;
  subject_id : Z;
  faculty_id : Z
}.
End Alloc.

Module Fixed.
Record t : Type := {
  batch_id : Z; day : string; time_slot : string;
  subject_id : Z; faculty_id : Z; room_id : Z; room_type : string
}.
End Fixed.

Record ConstraintRow : Type := {
  constraint_name : string;
  constraint_type : string;
  is_enabled : bool;
  weight : Q
}.

Record Database : Type := {
  college : list College;
  tbl_batches : list Batch;
  tbl_subject_allocation : list Alloc.t;
  tbl_subjects : list Subject;
  tbl_faculty : list Z;
  tbl_classrooms : list Room;
  tbl_computer_labs : list Room;
  tbl_fixed_slots : list Fixed.t;
  get_constraints : list ConstraintRow
}.

(** An entry of a timetable: a scheduled slot of the CSP, a gene of the GA. *)
Record Entry : Type := {
  batch_id : Z;
  day : string;
  time_slot : string;
  subject_id : Z;
  faculty_id : Z;
  room_id : Z;
  room_type : string;
  is_fixed : bool
}.

(** The entry both solvers build from a fixed slot. *)
Definition entry_of_fixed (fixed : Fixed.t) : Entry :=
  {| batch_id := Fixed.batch_id fixed;
     day := Fixed.day fixed;
     time_slot := Fixed.time_slot fixed;
     subject_id := Fixed.subject_id fixed;
     faculty_id := Fixed.faculty_id fixed;
     room_id := Fixed.room_id fixed;
     room_type := Fixed.room_type fixed;
     is_fixed := true |}.

(* ================================================================== *)
(** * The CSP solver: [class TimetableCSP] *)
(* ================================================================== *)

Module TimetableCSP.

(** [assignment['type']]. *)
Inductive Kind : Type := theory | lab.

Definition kind_eqb (a b : Kind) : bool :=
  match a, b with
  | theory, theory => true
  | lab, lab => true
  | _, _ => false
  end.

(** An element of [self.assignments]. *)
Module Asg.
Record t : Type := {
  batch_id : Z;
  subject_id : Z;
  faculty_id : Z;
  type : Kind;
  duration : Z;
  index : nat;
  priority : Z
}.
End Asg.

(** A value of [self.constraint_config]. *)
Record Config : Type := {
  enabled : bool;
  cfg_weight : Q;
  cfg_type : string
}.

(** The attributes of a solver object. *)
Record t : Type := {
  selected_batches : list Z;
  use_fixed_slots : bool;
  max_iterations : Z;
  use_min_conflicts : bool;
  working_days : list string;
  time_slots : list string;
  batches : Py.dict Z Batch;
  allocations : list Alloc.t;
  subjects : Py.dict Z Subject;
  faculty : list Z;
  classrooms : list Room;
  labs : list Room;
  fixed_slots : list Fixed.t;
  constraint_config : Py.dict string Config;
  slot_divisions : Py.dict string (list nat);
  slots : list (string * string);
  assignments : list Asg.t;
  fixed_assignments_set : list (Z * Z * Z)
}.

Definition set_slot_divisions (self : t) (v : Py.dict string (list nat)) : t :=
  {| selected_batches := selected_batches self;
     use_fixed_slots := use_fixed_slots self;
     max_iterations := max_iterations self;
     use_min_conflicts := use_min_conflicts self;
     working_days := working_days self; time_slots := time_slots self;
     batches := batches self; allocations := allocations self;
     subjects := subjects self; faculty := faculty self;
     classrooms := classrooms self; labs := labs self;
     fixed_slots := fixed_slots self;
     constraint_config := constraint_config self;
     slot_divisions := v;
     slots := slots self; assignments := assignments self;
     fixed_assignments_set := fixed_assignments_set self |}.

Definition set_slots (self : t) (v : list (string * string)) : t :=
  {| selected_batches := selected_batches self;
     use_fixed_slots := use_fixed_slots self;
     max_iterations := max_iterations self;
     use_min_conflicts := use_min_conflicts self;
     working_days := working_days self; time_slots := time_slots self;
     batches := batches self; allocations := allocations self;
     subjects := subjects self; faculty := faculty self;
     classrooms := classrooms self; labs := labs self;
     fixed_slots := fixed_slots self;
     constraint_config := constraint_config self;
     slot_divisions := slot_divisions self;
     slots := v; assignments := assignments self;
     fixed_assignments_set := fixed_assignments_set self |}.

Definition set_assignments (self : t) (v : list Asg.t)
    (fx : list (Z * Z * Z)) : t :=
  {| selected_batches := selected_batches self;
     use_fixed_slots := use_fixed_slots self;
     max_iterations := max_iterations self;
     use_min_conflicts := use_min_conflicts self;
     working_days := working_days self; time_slots := time_slots self;
     batches := batches self; allocations := allocations self;
     subjects := subjects self; faculty := faculty self;
     classrooms := classrooms self; labs := labs self;
     fixed_slots := fixed_slots self;
     constraint_config := constraint_config self;
     slot_divisions := slot_divisions self;
     slots := slots self; assignments := v;
     fixed_assignments_set := fx |}.

(** [_load_data]: the catalogue read, with its four checks. *)
Definition _load_data (db : Database) (selected : list Z) (use_fixed : bool)
    (max_iter : Z) (min_conflicts : bool) : result t :=
  match college db with
  | [] => Raise (ValueError "No college information found.")
  | college_info :: _ =>
    let batches :=
      Py.comprehension b_id (fun b => b)
        (filter (fun b => Py.mem (b_id b) selected) (tbl_batches db)) in
    match batches with
    | [] => Raise (ValueErrorIds "No batches found for IDs: " selected)
    | _ :: _ =>
      let allocations :=
        filter (fun a => Py.mem (Alloc.batch_id a) selected)
               (tbl_subject_allocation db) in
      match allocations with
      | [] => Raise (ValueError "No subject allocations found for selected batches.")
      | _ :: _ =>
        match tbl_classrooms db with
        | [] => Raise (ValueError "No classrooms found.")
        | _ :: _ =>
          Ok {| selected_batches := selected;
                use_fixed_slots := use_fixed;
                max_iterations := max_iter;
                use_min_conflicts := min_conflicts;
                working_days := college_working_days college_info;
                time_slots := college_time_slots college_info;
                batches := batches;
                allocations := allocations;
                subjects := Py.comprehension s_id (fun s => s) (tbl_subjects db);
                faculty := tbl_faculty db;
                classrooms := tbl_classrooms db;
                labs := tbl_computer_labs db;
                fixed_slots :=
                  if use_fixed
                  then filter (fun fs => Py.mem (Fixed.batch_id fs) selected)
                              (tbl_fixed_slots db)
                  else [];
                constraint_config :=
                  Py.comprehension constraint_name
                    (fun c => {| enabled := is_enabled c;
                                 cfg_weight := weight c;
                                 cfg_type := constraint_type c |})
                    (get_constraints db);
                slot_divisions := [];
                slots := [];
                assignments := [];
                fixed_assignments_set := [] |}
        end
      end
    end
  end.

(** [self.constraint_config.get(name, {}).get('enabled', True)]. *)
Definition config_enabled (self : t) (name : string) : bool :=
  match Py.get (constraint_config self) name with
  | Some c => enabled c
  | None => true
  end.

(** [self.constraint_config.get(name, {}).get('weight', default)]. *)
Definition config_weight (self : t) (name : string) (default : Q) : Q :=
  match Py.get (constraint_config self) name with
  | Some c => cfg_weight c
  | None => default
  end.

(** [list(range(a, b))] on positions. *)
Definition range2 (a b : nat) : list nat := seq a (b - a).

(** [_define_day_slots]. *)
Definition _define_day_slots (self : t) : t :=
  let num_periods := length (time_slots self) in
  let morning_end := (num_periods / 3)%nat in
  let noon_end := ((num_periods * 2) / 3)%nat in
  set_slot_divisions self
    [ ("morning", range2 0 morning_end);
      ("noon", range2 morning_end noon_end);
      ("late_noon", range2 noon_end num_periods) ].

(** [_get_time_slot_division]. *)
Definition _get_time_slot_division (self : t) (time_slot : string) : string :=
  match Py.index time_slot (time_slots self) with
  | Some time_idx =>
    match find (fun kv => Py.mem time_idx (snd kv)) (slot_divisions self) with
    | Some (division, _) => division
    | None => "unknown"
    end
  | None => "unknown"
  end.

(** The sort key of [_prepare_slots]. *)
Definition slot_key (self : t) (x : string * string) : nat * nat :=
  let day_order :=
    Py.comprehension snd fst
      (combine (seq 0 (length (working_days self))) (working_days self)) in
  ( match Py.get day_order (fst x) with Some i => i | None => 999%nat end,
    match Py.index (snd x) (time_slots self) with
    | Some i => i
    | None => 999%nat
    end ).

(** [_prepare_slots]. *)
Definition _prepare_slots (self : t) : t :=
  let generated :=
    flat_map (fun day => map (fun time => (day, time)) (time_slots self))
             (working_days self) in
  set_slots self
    (Py.sorted (fun x y => Py.nat_pair_leb (slot_key self x) (slot_key self y))
               generated).

(** The test [is_fixed] of [_prepare_assignments]: some fixed slot carries
    the triple of the allocation. *)
Definition alloc_is_fixed (self : t) (alloc : Alloc.t) : bool :=
  existsb (fun fs =>
             Z.eqb (Fixed.batch_id fs) (Alloc.batch_id alloc)
             && Z.eqb (Fixed.subject_id fs) (Alloc.subject_id alloc)
             && Z.eqb (Fixed.faculty_id fs) (Alloc.faculty_id alloc))
          (fixed_slots self).

(** What one iteration of the allocation loop appends to
    [temp_assignments]. *)
Definition expand_allocation (self : t) (alloc : Alloc.t) : list Asg.t :=
  match Py.get (subjects self) (Alloc.subject_id alloc) with
  | None => []
  | Some subject =>
    match Py.get (batches self) (Alloc.batch_id alloc) with
    | None => []
    | Some _ =>
      if alloc_is_fixed self alloc then []
      else
        map (fun i =>
               {| Asg.batch_id := Alloc.batch_id alloc;
                  Asg.subject_id := Alloc.subject_id alloc;
                  Asg.faculty_id := Alloc.faculty_id alloc;
                  Asg.type := theory;
                  Asg.duration := 1%Z;
                  Asg.index := i;
                  Asg.priority := credits subject |})
            (Py.range (theory_hours subject))
        ++ (if (lab_hours subject >? 0)%Z
            then [ {| Asg.batch_id := Alloc.batch_id alloc;
                      Asg.subject_id := Alloc.subject_id alloc;
                      Asg.faculty_id := Alloc.faculty_id alloc;
                      Asg.type := lab;
                      Asg.duration := lab_hours subject;
                      Asg.index := 0%nat;
                      Asg.priority := (credits subject + 2)%Z |} ]
            else [])
    end
  end.

(** What one iteration adds to [self.fixed_assignments_set]. *)
Definition fixed_triple (self : t) (alloc : Alloc.t) : list (Z * Z * Z) :=
  match Py.get (subjects self) (Alloc.subject_id alloc),
        Py.get (batches self) (Alloc.batch_id alloc) with
  | Some _, Some _ =>
    if alloc_is_fixed self alloc
    then [(Alloc.batch_id alloc, Alloc.subject_id alloc, Alloc.faculty_id alloc)]
    else []
  | _, _ => []
  end.

(** The sort key [(-priority, -duration)]. *)
Definition assignment_key (a : Asg.t) : Z * Z :=
  ((- Asg.priority a)%Z, (- Asg.duration a)%Z).

(** [_prepare_assignments]. *)
Definition _prepare_assignments (self : t) : t :=
  let temp_assignments := flat_map (expand_allocation self) (allocations self) in
  set_assignments self
    (Py.sorted (fun x y => Py.Z_pair_leb (assignment_key x) (assignment_key y))
               temp_assignments)
    (fold_left Py.set_add (flat_map (fixed_triple self) (allocations self)) []).

(** [__init__]. *)
Definition init (db : Database) (selected : list Z) (use_fixed : bool)
    (max_iter : Z) (min_conflicts : bool) : result t :=
  match _load_data db selected use_fixed max_iter min_conflicts with
  | Raise e => Raise e
  | Ok self => Ok (_prepare_assignments (_prepare_slots (_define_day_slots self)))
  end.

(** [dict.get(key, 999)] on a room column. *)
Definition column_or (c : option Z) (default : Z) : Z :=
  match c with Some v => v | None => default end.

(** [_get_available_rooms]. *)
Definition _get_available_rooms (self : t) (slot_type : Kind) (batch_size : Z)
    : list Room :=
  let rooms :=
    match slot_type with
    | lab => match labs self with [] => classrooms self | _ :: _ => labs self end
    | theory => classrooms self
    end in
  if config_enabled self "room_capacity"
  then filter (fun r => (column_or (capacity r) 999 >=? batch_size)%Z
                        || (column_or (computer_capacity r) 999 >=? batch_size)%Z)
              rooms
  else rooms.

(** The loop of [_find_consecutive_slots]: [None] is the early
    [return []]. *)
Fixpoint consecutive_from (self : t) (start_day : string) (time_idx : nat)
    (steps : list nat) : option (list (string * string)) :=
  match steps with
  | [] => Some []
  | i :: steps' =>
    match nth_error (time_slots self) (time_idx + i) with
    | Some label =>
      option_map (cons (start_day, label))
                 (consecutive_from self start_day time_idx steps')
    | None => None
    end
  end.

(** [_find_consecutive_slots]. *)
Definition _find_consecutive_slots (self : t) (start_day start_time : string)
    (duration : Z) : list (string * string) :=
  match Py.index start_day (working_days self),
        Py.index start_time (time_slots self) with
  | Some _, Some time_idx =>
    match consecutive_from self start_day time_idx (Py.range duration) with
    | Some consecutive => consecutive
    | None => []
    end
  | _, _ => []
  end.

(** [self.subjects.get(id, {}).get('subject_type')]. *)
Definition subject_type_get (self : t) (id : Z) : option string :=
  option_map subject_type (Py.get (subjects self) id).

(** [_check_slot_type_constraint]. *)
Definition _check_slot_type_constraint (self : t) (assignment : Asg.t)
    (slot : string * string) (current_solution : list Entry) : bool :=
  let '(day0, time) := slot in
  let division := _get_time_slot_division self time in
  existsb
    (fun entry =>
       Z.eqb (batch_id entry) (Asg.batch_id assignment)
       && String.eqb (day entry) day0
       && String.eqb (_get_time_slot_division self (time_slot entry)) division
       && (let entry_type :=
             match subject_type_get self (subject_id entry) with
             | Some ty => ty
             | None => "theory"
             end in
           match Asg.type assignment with
           | theory => String.eqb entry_type "practical"
           | lab => String.eqb entry_type "theory"
           end))
    current_solution.

(** The gap scan of [_check_consecutive_free_period] over the sorted
    period indices. *)
Fixpoint has_gap (all_times : list nat) : bool :=
  match all_times with
  | a :: (b :: _) as rest => (Z.of_nat b - Z.of_nat a >? 1)%Z || has_gap rest
  | _ => false
  end.

(** [_check_consecutive_free_period]. *)
Definition _check_consecutive_free_period (self : t) (assignment : Asg.t)
    (slot : string * string) (current_solution : list Entry) : bool :=
  let '(day0, time) := slot in
  match Py.index time (time_slots self) with
  | None => false
  | Some time_idx =>
    let batch_day_times :=
      flat_map
        (fun entry =>
           if Z.eqb (batch_id entry) (Asg.batch_id assignment)
              && String.eqb (day entry) day0
           then match Py.index (time_slot entry) (time_slots self) with
                | Some t_idx => [t_idx]
                | None => []
                end
           else [])
        current_solution in
    match batch_day_times with
    | [] => false
    | _ :: _ =>
      let batch_day_times := Py.sorted Nat.leb batch_day_times in
      let all_times := Py.sorted Nat.leb (batch_day_times ++ [time_idx]) in
      has_gap all_times
    end
  end.

(** Why [_check_hard_constraints] returns [True]: one constructor per
    [return True] of the method, in the order of its text. *)
Inductive Reason : Type :=
| NoConsecutiveSlots
| FacultyConflict
| BatchConflict
| RoomConflict
| RoomCapacity
| SlotType
| FreePeriod.

(** The loop of [_check_hard_constraints] over the existing solution. *)
Fixpoint overlap_reason (self : t) (assignment : Asg.t) (room_id0 : Z)
    (occupied_slots : list (string * string)) (current_solution : list Entry)
    : option Reason :=
  match current_solution with
  | [] => None
  | entry :: rest =>
    if Py.mem (day entry, time_slot entry) occupied_slots then
      if config_enabled self "no_faculty_conflict"
         && Z.eqb (Asg.faculty_id assignment) (faculty_id entry)
      then Some FacultyConflict
      else if config_enabled self "no_batch_conflict"
              && Z.eqb (Asg.batch_id assignment) (batch_id entry)
      then Some BatchConflict
      else if config_enabled self "no_room_conflict"
              && Z.eqb room_id0 (room_id entry)
      then Some RoomConflict
      else overlap_reason self assignment room_id0 occupied_slots rest
    else overlap_reason self assignment room_id0 occupied_slots rest
  end.

(** The room-capacity test of [_check_hard_constraints]. *)
Definition capacity_reason (self : t) (room_id0 batch_size : Z) : option Reason :=
  if config_enabled self "room_capacity" then
    match find (fun r => Z.eqb (r_id r) room_id0) (classrooms self ++ labs self) with
    | Some room =>
      let capacity0 :=
        match capacity room with
        | Some c => c
        | None => column_or (computer_capacity room) 0
        end in
      if (capacity0 <? batch_size)%Z then Some RoomCapacity else None
    | None => None
    end
  else None.

(** The body of [_check_hard_constraints] once the batch row is found. *)
Definition hard_reason (self : t) (batch_size : Z) (assignment : Asg.t)
    (slot : string * string) (room_id0 : Z) (current_solution : list Entry)
    : option Reason :=
  let occupied_slots :=
    if Z.eqb (Asg.duration assignment) 1 then [slot]
    else _find_consecutive_slots self (fst slot) (snd slot)
                                 (Asg.duration assignment) in
  match occupied_slots with
  | [] => Some NoConsecutiveSlots
  | _ :: _ =>
    match overlap_reason self assignment room_id0 occupied_slots
                         current_solution with
    | Some r => Some r
    | None =>
      match capacity_reason self room_id0 batch_size with
      | Some r => Some r
      | None =>
        if _check_slot_type_constraint self assignment slot current_solution
        then Some SlotType
        else if _check_consecutive_free_period self assignment slot
                                               current_solution
        then Some FreePeriod
        else None
      end
    end
  end.

(** [_check_hard_constraints], with the reason of a rejection;
    [self.batches[batch_id]] raises [KeyError] on an unknown batch. *)
Definition check_hard_constraints_reason (self : t) (assignment : Asg.t)
    (slot : string * string) (room_id0 : Z) (current_solution : list Entry)
    : result (option Reason) :=
  match Py.get (batches self) (Asg.batch_id assignment) with
  | None => Raise (KeyError (Asg.batch_id assignment))
  | Some b =>
    Ok (hard_reason self (number_of_students b) assignment slot room_id0
                    current_solution)
  end.

(** [_check_hard_constraints]: [True] when some hard constraint rejects. *)
Definition _check_hard_constraints (self : t) (assignment : Asg.t)
    (slot : string * string) (room_id0 : Z) (current_solution : list Entry)
    : result bool :=
  match check_hard_constraints_reason self assignment slot room_id0
                                      current_solution with
  | Raise e => Raise e
  | Ok (Some _) => Ok true
  | Ok None => Ok false
  end.

(** [self.time_slots.index(e['time_slot'])] outside any [try]. *)
Definition index_or_raise (self : t) (label : string) : result nat :=
  match Py.index label (time_slots self) with
  | Some i => Ok i
  | None => Raise (ValueErrorNotInList label)
  end.

(** The faculty-gap term: [(gap - 1) * weight * 0.5] for every same-day
    slot of the faculty more than one period away. *)
Definition faculty_gap_term (w : Q) (time_idx t_idx : nat) : Q :=
  let gap := Z.abs (Z.of_nat time_idx - Z.of_nat t_idx) in
  if (gap >? 1)%Z then (inject_Z (gap - 1) * w * (1 # 2))%Q else 0%Q.

(** [_calculate_soft_constraint_penalty]. *)
Definition _calculate_soft_constraint_penalty (self : t) (assignment : Asg.t)
    (slot : string * string) (current_solution : list Entry) : result Q :=
  let '(day0, time) := slot in
  let time_idx :=
    match Py.index time (time_slots self) with Some i => i | None => 0%nat end in
  (* 1. priority bias *)
  let p1 :=
    if config_enabled self "priority_bias_scheduling" then
      let credits0 :=
        match Py.get (subjects self) (Asg.subject_id assignment) with
        | Some s => credits s
        | None => 3%Z
        end in
      if (credits0 >=? 4)%Z
         && String.eqb (_get_time_slot_division self time) "late_noon"
      then config_weight self "priority_bias_scheduling" 3%Q
      else 0%Q
    else 0%Q in
  (* 2. lab alternation *)
  let p2 :=
    if config_enabled self "lab_alternation" then
      match Asg.type assignment with
      | lab =>
        let lab_count_today :=
          length
            (filter
               (fun e =>
                  String.eqb (day e) day0
                  && Z.eqb (batch_id e) (Asg.batch_id assignment)
                  && match subject_type_get self (subject_id e) with
                     | Some ty => String.eqb ty "practical"
                     | None => false
                     end)
               current_solution) in
        if (0 <? lab_count_today)%nat
        then (inject_Z (Z.of_nat lab_count_today)
              * config_weight self "lab_alternation" 3%Q)%Q
        else 0%Q
      | theory => 0%Q
      end
    else 0%Q in
  (* 3. faculty gaps; the index lookup of an unknown label raises *)
  match
    (if config_enabled self "minimize_faculty_gaps" then
       let faculty_day_schedule :=
         filter (fun e => String.eqb (day e) day0
                          && Z.eqb (faculty_id e) (Asg.faculty_id assignment))
                current_solution in
       match mapM (fun e => index_or_raise self (time_slot e))
                  faculty_day_schedule with
       | Raise e => Raise e
       | Ok time_indices =>
         Ok (fold_left
               (fun acc t_idx =>
                  (acc + faculty_gap_term
                           (config_weight self "minimize_faculty_gaps" 2%Q)
                           time_idx t_idx)%Q)
               time_indices 0%Q)
       end
     else Ok 0%Q)
  with
  | Raise e => Raise e
  | Ok p3 =>
    (* 4. same-day theory repetition *)
    let p4 :=
      match Asg.type assignment with
      | theory =>
        let same_day_theory_count :=
          length
            (filter
               (fun e =>
                  Z.eqb (batch_id e) (Asg.batch_id assignment)
                  && String.eqb (day e) day0
                  && Z.eqb (subject_id e) (Asg.subject_id assignment)
                  && String.eqb (room_type e) "classroom")
               current_solution) in
        if (0 <? same_day_theory_count)%nat
        then (50 * inject_Z (Z.of_nat same_day_theory_count))%Q
        else 0%Q
      | lab => 0%Q
      end in
    (* 5. earlier slots first *)
    Ok (0 + p1 + p2 + p3 + p4 + inject_Z (Z.of_nat time_idx) * (1 # 10))%Q
  end.

(** The key comparison of [slot_scores.sort(key=lambda x: x[0])]. *)
Definition score_leb {A} (x y : Q * A) : bool := Qle_bool (fst x) (fst y).

(** [_select_best_slot_lcv]; [None] is the pair [(None, None)]. *)
Definition _select_best_slot_lcv (self : t) (assignment : Asg.t)
    (valid_slots : list ((string * string) * Room))
    (current_solution : list Entry)
    : result (option ((string * string) * Room)) :=
  match valid_slots with
  | [] => Ok None
  | _ :: _ =>
    match mapM (fun sr =>
                  match _calculate_soft_constraint_penalty
                          self assignment (fst sr) current_solution with
                  | Raise e => Raise e
                  | Ok penalty => Ok (penalty, sr)
                  end)
               valid_slots with
    | Raise e => Raise e
    | Ok slot_scores => Ok (option_map snd (hd_error (Py.sorted score_leb slot_scores)))
    end
  end.

(** The entry [_assign_slot] builds for one occupied period. *)
Definition assigned_entry (assignment : Asg.t) (room : Room)
    (slot : string * string) : Entry :=
  {| batch_id := Asg.batch_id assignment;
     day := fst slot;
     time_slot := snd slot;
     subject_id := Asg.subject_id assignment;
     faculty_id := Asg.faculty_id assignment;
     room_id := r_id room;
     room_type := match Asg.type assignment with
                  | lab => "lab"
                  | theory => "classroom"
                  end;
     is_fixed := false |}.

(** [_assign_slot]. *)
Definition _assign_slot (self : t) (assignment : Asg.t)
    (slot : string * string) (room : Room) : list Entry :=
  if Z.eqb (Asg.duration assignment) 1
  then [assigned_entry assignment room slot]
  else map (assigned_entry assignment room)
           (_find_consecutive_slots self (fst slot) (snd slot)
                                    (Asg.duration assignment)).

(** [_apply_fixed_slots]. *)
Definition _apply_fixed_slots (self : t) : list Entry :=
  map entry_of_fixed (fixed_slots self).

(** The candidate scan of [_smart_solve]: every (slot, room), slots in the
    outer loop, that the hard constraints do not reject. *)
Definition valid_combinations (self : t) (assignment : Asg.t)
    (rooms : list Room) (solution : list Entry)
    : result (list ((string * string) * Room)) :=
  filterM (fun sr =>
             match _check_hard_constraints self assignment (fst sr)
                                           (r_id (snd sr)) solution with
             | Raise e => Raise e
             | Ok blocked => Ok (negb blocked)
             end)
          (list_prod (slots self) rooms).

(** One iteration of the loop of [_smart_solve]: the entries to append,
    or [None] for [return None]. *)
Definition solve_step (self : t) (assignment : Asg.t) (solution : list Entry)
    : result (option (list Entry)) :=
  match Py.get (batches self) (Asg.batch_id assignment) with
  | None => Raise (KeyError (Asg.batch_id assignment))
  | Some b =>
    let batch_size := number_of_students b in
    let rooms := _get_available_rooms self (Asg.type assignment) batch_size in
    match valid_combinations self assignment rooms solution with
    | Raise e => Raise e
    | Ok [] => Ok None
    | Ok (c :: cs) =>
      match _select_best_slot_lcv self assignment (c :: cs) solution with
      | Raise e => Raise e
      | Ok (Some (best_slot, best_room)) =>
        Ok (Some (_assign_slot self assignment best_slot best_room))
      | Ok None => Ok None
      end
    end
  end.

(** The loop of [_smart_solve] from a given solution. *)
Fixpoint solve_from (self : t) (todo : list Asg.t) (solution : list Entry)
    : result (option (list Entry)) :=
  match todo with
  | [] => Ok (Some solution)
  | assignment :: todo' =>
    match solve_step self assignment solution with
    | Raise e => Raise e
    | Ok None => Ok None
    | Ok (Some new_entries) => solve_from self todo' (solution ++ new_entries)
    end
  end.

(** [_smart_solve]. *)
Definition _smart_solve (self : t) : result (option (list Entry)) :=
  solve_from self (assignments self) (_apply_fixed_slots self).

(** The single record of the CSP trace (its [time] field is wall-clock
    and is left out). *)
Record History : Type := {
  iteration : Z;
  conflicts : Z;
  method : string
}.

(** [run]. *)
Definition run (self : t) : result (list Entry * list History) :=
  match _smart_solve self with
  | Raise e => Raise e
  | Ok None =>
    Raise (ValueError "Failed to find valid timetable. Try relaxing constraints.")
  | Ok (Some solution) =>
    Ok (solution,
        [ {| iteration := 0; conflicts := 0;
             method := "Enhanced CSP with Soft Subject Distribution" |} ])
  end.

End TimetableCSP.

(* ================================================================== *)
(** * The [random] module *)
(* ================================================================== *)

Module Random.

(** The generator: an infinite tape of draws, read from position 0. *)
Definition tape : Type := nat -> Z.

(** Code that draws from the tape and may raise. *)
Definition M (A : Type) : Type := tape -> result (A * tape).

Definition ret {A} (a : A) : M A := fun g => Ok (a, g).

Definition raise {A} (e : exn) : M A := fun _ => Raise e.

Definition mbind {A B} (m : M A) (k : A -> M B) : M B :=
  fun g => match m g with
           | Ok (a, g') => k a g'
           | Raise e => Raise e
           end.

Definition lift {A} (r : result A) : M A :=
  fun g => match r with
           | Ok a => Ok (a, g)
           | Raise e => Raise e
           end.


(** One raw draw. *)
Definition draw : M Z := fun g => Ok (g 0%nat, fun n => g (S n)).

(** A uniform position below [n] (for [n > 0]). *)
Definition randbelow (n : nat) : M nat :=
  mbind draw (fun d => ret (Z.to_nat (d mod Z.of_nat n))).

(** [random.random()]: a multiple of 2^-53 in [0, 1). *)
Definition random : M Q :=
  mbind draw (fun d => ret (Qmake (d mod 2 ^ 53) (2 ^ 53))).

(** [random.choice(seq)]. *)
Definition choice {A} (l : list A) : M A :=
  match l with
  | [] => raise (IndexError "Cannot choose from an empty sequence")
  | x :: _ => mbind (randbelow (length l)) (fun i => ret (nth i l x))
  end.

(** [random.randint(a, b)]. *)
Definition randint (a b : Z) : M Z :=
  if (b <? a)%Z then raise (ValueError "empty range for randrange()")
  else mbind (randbelow (Z.to_nat (b - a + 1)))
             (fun i => ret (a + Z.of_nat i)%Z).

(** Removal of the element at a position. *)
Fixpoint remove_nth {A} (i : nat) (l : list A) : list A :=
  match l, i with
  | [], _ => []
  | _ :: l', O => l'
  | x :: l', S i' => x :: remove_nth i' l'
  end.

(** [k] draws without replacement. *)
Fixpoint sample_loop {A} (k : nat) (pool : list A) : M (list A) :=
  match k with
  | O => ret []
  | S k' =>
    match pool with
    | [] => ret []
    | x :: _ =>
      mbind (randbelow (length pool)) (fun i =>
      mbind (sample_loop k' (remove_nth i pool)) (fun rest =>
      ret (nth i pool x :: rest)))
    end
  end.

(** [random.sample(population, k)]. *)
Definition sample {A} (population : list A) (k : Z) : M (list A) :=
  if ((k <? 0) || (Z.of_nat (length population) <? k))%Z
  then raise (ValueError "Sample larger than population or is negative")
  else sample_loop (Z.to_nat k) population.

(** A loop whose body draws: [for x in l: acc = body(acc, x)]. *)
Fixpoint foldM {A S} (body : S -> A -> M S) (l : list A) (acc : S) : M S :=
  match l with
  | [] => ret acc
  | x :: l' => mbind (body acc x) (fun acc' => foldM body l' acc')
  end.

End Random.

Declare Scope random_scope.
Delimit Scope random_scope with random.
Notation "x <~ m ;; k" := (Random.mbind m (fun x => k))
  (at level 61, m at next level, right associativity) : random_scope.
Notation "' pat <~ m ;; k" :=
  (Random.mbind m (fun x => match x with pat => k end))
  (at level 61, pat pattern, m at next level, right associativity) : random_scope.

(* ================================================================== *)
(** * The genetic solver: [class GeneticAlgorithmCPUOptimized] *)
(* ================================================================== *)

Module GeneticAlgorithmCPUOptimized.

Local Open Scope random_scope.

(** An element of [self.slot_requirements]: the dict with [type] =
    ['theory'], or with [type] = ['practical'] and a [duration]. *)
Inductive Requirement : Type :=
| TheoryReq (batch_id0 subject_id0 faculty_id0 : Z)
| PracticalReq (batch_id0 subject_id0 faculty_id0 : Z) (duration : Z).

(** The attributes of a solver object ([n_workers], [chunk_size] and the
    lookup tables that [_calculate_fitness] never reads are left out). *)
Record t : Type := {
  selected_batches : list Z;
  use_fixed_slots : bool;
  population_size : Z;
  max_generations : Z;
  crossover_rate : Q;
  mutation_rate : Q;
  elite_size : Z;
  tournament_size : Z;
  working_days : list string;
  time_slots : list string;
  batches : Py.dict Z Batch;
  allocations : list Alloc.t;
  subjects : Py.dict Z Subject;
  faculty : list Z;
  classrooms : list Room;
  labs : list Room;
  fixed_slots : list Fixed.t;
  slot_requirements : list Requirement;
  constraints : Py.dict string ConstraintRow;
  time_indices : Py.dict string nat
}.

(** The GA parameters of [__init__]. *)
Record Params : Type := {
  p_population_size : Z;
  p_max_generations : Z;
  p_crossover_rate : Q;
  p_mutation_rate : Q;
  p_elite_size : Z;
  p_tournament_size : Z
}.

(** What one allocation adds to [self.slot_requirements]. *)
Definition expand_allocation (subjects0 : Py.dict Z Subject)
    (batches0 : Py.dict Z Batch) (alloc : Alloc.t) : list Requirement :=
  match Py.get subjects0 (Alloc.subject_id alloc),
        Py.get batches0 (Alloc.batch_id alloc) with
  | Some subject, Some _ =>
    map (fun _ => TheoryReq (Alloc.batch_id alloc) (Alloc.subject_id alloc)
                            (Alloc.faculty_id alloc))
        (Py.range (theory_hours subject))
    ++ (if (lab_hours subject >? 0)%Z
        then [PracticalReq (Alloc.batch_id alloc) (Alloc.subject_id alloc)
                           (Alloc.faculty_id alloc) (lab_hours subject)]
        else [])
  | _, _ => []
  end.

(** [__init__]: [_load_data], [_load_constraints] and the part of
    [_precompute_static_data] that reads the room columns. *)
Definition init (db : Database) (selected : list Z) (use_fixed : bool)
    (params : Params) : result t :=
  match college db with
  | [] => Raise (ValueError "No college information found.")
  | college_info :: _ =>
    let batches0 :=
      Py.comprehension b_id (fun b => b)
        (filter (fun b => Py.mem (b_id b) selected) (tbl_batches db)) in
    match batches0 with
    | [] => Raise (ValueErrorIds "No batches found for selected batch IDs: " selected)
    | _ :: _ =>
      let allocations0 :=
        filter (fun a => Py.mem (Alloc.batch_id a) selected)
               (tbl_subject_allocation db) in
      match allocations0 with
      | [] => Raise (ValueError "No subject allocations found for selected batches.")
      | _ :: _ =>
        match tbl_classrooms db with
        | [] => Raise (ValueError "No classrooms found.")
        | _ :: _ =>
          let subjects0 := Py.comprehension s_id (fun s => s) (tbl_subjects db) in
          let slot_requirements0 :=
            flat_map (expand_allocation subjects0 batches0) allocations0 in
          match slot_requirements0 with
          | [] => Raise (ValueError "No slot requirements generated.")
          | _ :: _ =>
            if forallb (fun r => match capacity r with
                                 | Some _ => true
                                 | None => false
                                 end) (tbl_classrooms db)
            then
              if forallb (fun r => match computer_capacity r with
                                   | Some _ => true
                                   | None => false
                                   end) (tbl_computer_labs db)
              then
                Ok {| selected_batches := selected;
                      use_fixed_slots := use_fixed;
                      population_size := p_population_size params;
                      max_generations := p_max_generations params;
                      crossover_rate := p_crossover_rate params;
                      mutation_rate := p_mutation_rate params;
                      elite_size := p_elite_size params;
                      tournament_size := p_tournament_size params;
                      working_days := college_working_days college_info;
                      time_slots := college_time_slots college_info;
                      batches := batches0;
                      allocations := allocations0;
                      subjects := subjects0;
                      faculty := tbl_faculty db;
                      classrooms := tbl_classrooms db;
                      labs := tbl_computer_labs db;
                      fixed_slots :=
                        if use_fixed
                        then filter (fun fs => Py.mem (Fixed.batch_id fs) selected)
                                    (tbl_fixed_slots db)
                        else [];
                      slot_requirements := slot_requirements0;
                      constraints :=
                        Py.comprehension constraint_name (fun c => c)
                          (filter is_enabled (get_constraints db));
                      time_indices :=
                        Py.comprehension snd fst
                          (combine
                             (seq 0 (length (college_time_slots college_info)))
                             (college_time_slots college_info)) |}
              else Raise (KeyErrorStr "computer_capacity")
            else Raise (KeyErrorStr "capacity")
          end
        end
      end
    end
  end.

(** A non-fixed gene. *)
Definition gene (b : Z) (d t : string) (s f r : Z) (rt : string) : Entry :=
  {| batch_id := b; day := d; time_slot := t; subject_id := s;
     faculty_id := f; room_id := r; room_type := rt; is_fixed := false |}.

(** The genes [_create_random_timetable] appends for one requirement. *)
Definition random_genes (self : t) (req : Requirement) : Random.M (list Entry) :=
  match req with
  | TheoryReq b s f =>
    day0 <~ Random.choice (working_days self) ;;
    time_slot0 <~ Random.choice (time_slots self) ;;
    room <~ Random.choice (classrooms self) ;;
    Random.ret [gene b day0 time_slot0 s f (r_id room) "classroom"]
  | PracticalReq b s f duration =>
    day0 <~ Random.choice (working_days self) ;;
    start <~ Random.randint 0
               (Z.max 0 (Z.of_nat (length (time_slots self)) - duration)) ;;
    ' (room_id0, room_type0) <~
      match labs self with
      | _ :: _ => lab <~ Random.choice (labs self) ;; Random.ret (r_id lab, "lab")
      | [] => room <~ Random.choice (classrooms self) ;;
              Random.ret (r_id room, "classroom")
      end ;;
    Random.ret
      (flat_map
         (fun i =>
            match nth_error (time_slots self) (Z.to_nat start + i) with
            | Some label => [gene b day0 label s f room_id0 room_type0]
            | None => []
            end)
         (Py.range duration))
  end.

(** [_create_random_timetable]. *)
Definition _create_random_timetable (self : t) : Random.M (list Entry) :=
  Random.foldM
    (fun timetable req =>
       genes <~ random_genes self req ;; Random.ret (timetable ++ genes))
    (slot_requirements self)
    (map entry_of_fixed (fixed_slots self)).

(** [_initialize_population_parallel]. *)
Definition _initialize_population_parallel (self : t)
    : Random.M (list (list Entry)) :=
  Random.foldM
    (fun population _ =>
       individual <~ _create_random_timetable self ;;
       Random.ret (population ++ [individual]))
    (Py.range (population_size self))
    [].

(** The grouping loops of [_calculate_fitness]:
    [if key not in d: d[key] = []] then [d[key].append(slot)]. *)
Definition group_by {K} `{Eqb K} (key : Entry -> K) (timetable : list Entry)
    : Py.dict K (list Entry) :=
  fold_left
    (fun d slot =>
       match Py.get d (key slot) with
       | None => Py.set d (key slot) [slot]
       | Some g => Py.set d (key slot) (g ++ [slot])
       end)
    timetable [].

(** The counting loops: [d[k] = d.get(k, 0) + 1]. *)
Definition count_by {A K} `{Eqb K} (key : A -> K) (l : list A) : Py.dict K Z :=
  fold_left
    (fun d x =>
       Py.set d (key x)
              (match Py.get d (key x) with Some c => c | None => 0%Z end + 1)%Z)
    l [].

(** One of the three conflict sections: for every (day, time) group and
    every id counted more than once, [penalty += weight * (count - 1)]. *)
Definition conflict_section (w : Q) (id_of : Entry -> Z)
    (slots_by_day_time : Py.dict (string * string) (list Entry)) (penalty : Q) : Q :=
  fold_left
    (fun pen slots =>
       fold_left
         (fun pen count =>
            if (count >? 1)%Z then (pen + w * inject_Z (count - 1))%Q else pen)
         (Py.values (count_by id_of slots)) pen)
    (Py.values slots_by_day_time) penalty.

(** [self.time_indices.get(label, 0)]. *)
Definition time_index (self : t) (label : string) : nat :=
  match Py.get (time_indices self) label with Some i => i | None => 0%nat end.

(** The scan over chronologically adjacent slots of one group:
    [penalty += weight * gap * 0.5] where [gap = idx2 - idx1 - 1 > 0]. *)
Fixpoint adjacent_gaps (w : Q) (indices : list nat) (penalty : Q) : Q :=
  match indices with
  | idx1 :: (idx2 :: _) as rest =>
    let gap := (Z.of_nat idx2 - Z.of_nat idx1 - 1)%Z in
    adjacent_gaps w rest
      (if (gap >? 0)%Z then (penalty + w * inject_Z gap * (1 # 2))%Q else penalty)
  | _ => penalty
  end.

(** One of the two gap sections, grouped by (id, day). *)
Definition gap_section (self : t) (w : Q) (id_of : Entry -> Z)
    (timetable : list Entry) (penalty : Q) : Q :=
  fold_left
    (fun pen slots =>
       if (1 <? length slots)%nat then
         let sorted_slots :=
           Py.sorted (fun x y => Nat.leb (time_index self (time_slot x))
                                         (time_index self (time_slot y)))
                     slots in
         adjacent_gaps w (map (fun s => time_index self (time_slot s)) sorted_slots)
                       pen
       else pen)
    (Py.values (group_by (fun slot => (id_of slot, day slot)) timetable))
    penalty.

(** [set(s['faculty_id'] for s in timetable)], in order of first
    occurrence. *)
Definition faculty_ids (timetable : list Entry) : list Z :=
  fold_left Py.set_add (map faculty_id timetable) [].

(** The variance of the daily loads of one faculty. *)
Definition load_variance (daily_loads : list Z) : Q :=
  let n := inject_Z (Z.of_nat (length daily_loads)) in
  let avg_load := (Py.qsum (map inject_Z daily_loads) / n)%Q in
  (Py.qsum (map (fun load => (inject_Z load - avg_load) * (inject_Z load - avg_load))%Q
                daily_loads) / n)%Q.

(** The balanced-load section. *)
Definition load_section (self : t) (w : Q) (timetable : list Entry)
    (penalty : Q) : Q :=
  let faculty_daily_load :=
    count_by (fun slot => (faculty_id slot, day slot)) timetable in
  fold_left
    (fun pen fid =>
       let daily_loads :=
         map (fun day0 =>
                match Py.get faculty_daily_load (fid, day0) with
                | Some c => c
                | None => 0%Z
                end)
             (working_days self) in
       match daily_loads with
       | [] => pen
       | l0 :: ls =>
         if (fold_left Z.max ls l0 >? 0)%Z
         then (pen + w * load_variance daily_loads * (3 # 10))%Q
         else pen
       end)
    (faculty_ids timetable) penalty.

(** A section guarded by [if name in self.constraints]. *)
Definition when_enabled (self : t) (name : string) (section : Q -> Q -> Q)
    (penalty : Q) : Q :=
  match Py.get (constraints self) name with
  | Some c => section (weight c) penalty
  | None => penalty
  end.

(** The accumulated [penalty] of [_calculate_fitness]. *)
Definition penalty_of (self : t) (timetable : list Entry) : Q :=
  let slots_by_day_time :=
    group_by (fun slot => (day slot, time_slot slot)) timetable in
  let p0 := 0%Q in
  let p1 := when_enabled self "no_faculty_conflict"
              (fun w => conflict_section w faculty_id slots_by_day_time) p0 in
  let p2 := when_enabled self "no_batch_conflict"
              (fun w => conflict_section w batch_id slots_by_day_time) p1 in
  let p3 := when_enabled self "no_room_conflict"
              (fun w => conflict_section w room_id slots_by_day_time) p2 in
  let p4 := when_enabled self "minimize_faculty_gaps"
              (fun w => gap_section self w faculty_id timetable) p3 in
  let p5 := when_enabled self "minimize_batch_gaps"
              (fun w => gap_section self w batch_id timetable) p4 in
  when_enabled self "balanced_faculty_load"
    (fun w => load_section self w timetable) p5.

(** [_calculate_fitness]; a float division by zero raises. *)
Definition _calculate_fitness (self : t) (timetable : list Entry) : result Q :=
  let penalty := penalty_of self timetable in
  if Qeq_bool (1 + penalty) 0 then Raise ZeroDivisionError
  else Ok (1000 / (1 + penalty))%Q.

(** [_calculate_fitness_batch_optimized]. *)
Definition _calculate_fitness_batch_optimized (self : t)
    (timetables : list (list Entry)) : result (list Q) :=
  mapM (_calculate_fitness self) timetables.

(** [l[i]] on a list that may be too short. *)
Definition item {A} (l : list A) (i : nat) : Random.M A :=
  match nth_error l i with
  | Some x => Random.ret x
  | None => Random.raise (IndexError "list index out of range")
  end.

(** [l.index(max(l))] for a list of floats; an empty list makes [max]
    raise. *)
Definition index_of_max (l : list Q) : Random.M nat :=
  match l with
  | [] => Random.raise (ValueError "max() arg is an empty sequence")
  | x :: xs =>
    let m := Py.qmax x xs in
    match find (fun i => Qeq_bool (nth i l 0%Q) m) (seq 0 (length l)) with
    | Some i => Random.ret i
    | None => Random.raise (ValueError "is not in list")
    end
  end.

(** [_tournament_selection]. *)
Definition _tournament_selection (self : t) (population : list (list Entry))
    (fitnesses : list Q) : Random.M (list Entry) :=
  tournament_indices <~
    Random.sample (seq 0 (length population)) (tournament_size self) ;;
  tournament_fitnesses <~
    Random.foldM (fun acc i => f <~ item fitnesses i ;; Random.ret (acc ++ [f]))
                 tournament_indices [] ;;
  k <~ index_of_max tournament_fitnesses ;;
  winner_idx <~ item tournament_indices k ;;
  item population winner_idx.

(** [s.get('is_fixed', False)] and its negation, the two filters of
    [_crossover]. *)
Definition fixed_genes (timetable : list Entry) : list Entry :=
  filter is_fixed timetable.

Definition nonfixed_genes (timetable : list Entry) : list Entry :=
  filter (fun s => negb (is_fixed s)) timetable.

(** The coin loop of [_crossover] over the first [min_len] positions. *)
Definition crossover_mix (pairs : list (Entry * Entry))
    (children : list Entry * list Entry)
    : Random.M (list Entry * list Entry) :=
  Random.foldM
    (fun (acc : list Entry * list Entry) (g : Entry * Entry) =>
       u <~ Random.random ;;
       if negb (Qle_bool (1 # 2) u)
       then Random.ret (fst acc ++ [fst g], snd acc ++ [snd g])
       else Random.ret (fst acc ++ [snd g], snd acc ++ [fst g]))
    pairs children.

(** [_crossover]. *)
Definition _crossover (self : t) (parent1 parent2 : list Entry)
    : Random.M (list Entry * list Entry) :=
  u <~ Random.random ;;
  if negb (Qle_bool u (crossover_rate self))
  then Random.ret (parent1, parent2)
  else
    let fixed_slots0 := fixed_genes parent1 in
    let parent1_nonfixed := nonfixed_genes parent1 in
    let parent2_nonfixed := nonfixed_genes parent2 in
    let min_len := Nat.min (length parent1_nonfixed) (length parent2_nonfixed) in
    ' (child1, child2) <~
      crossover_mix (combine parent1_nonfixed parent2_nonfixed)
                    (fixed_slots0, fixed_slots0) ;;
    Random.ret (child1 ++ skipn min_len parent1_nonfixed,
                child2 ++ skipn min_len parent2_nonfixed).

(** [int(x)] on a float: truncation toward zero. *)
Definition py_int (x : Q) : Z := Z.quot (Qnum x) (Zpos (Qden x)).

(** A gene with the (day, time_slot) of another. *)
Definition with_day_time (g : Entry) (d t : string) : Entry :=
  {| batch_id := batch_id g; day := d; time_slot := t;
     subject_id := subject_id g; faculty_id := faculty_id g;
     room_id := room_id g; room_type := room_type g; is_fixed := is_fixed g |}.

(** [l[i] = x] at a position inside the list. *)
Fixpoint update {A} (l : list A) (i : nat) (x : A) : list A :=
  match l, i with
  | [], _ => []
  | _ :: l', O => x :: l'
  | y :: l', S i' => y :: update l' i' x
  end.

(** The two tuple assignments of [_mutate]: the genes at [idx1] and [idx2]
    exchange their [day], then their [time_slot]. *)
Definition swap_day_time (mutated : list Entry) (idx1 idx2 : nat) : list Entry :=
  match nth_error mutated idx1, nth_error mutated idx2 with
  | Some g1, Some g2 =>
    update (update mutated idx1 (with_day_time g1 (day g2) (time_slot g2)))
           idx2 (with_day_time g2 (day g1) (time_slot g1))
  | _, _ => mutated
  end.

(** [[i for i, s in enumerate(mutated) if not s.get('is_fixed', False)]]. *)
Definition non_fixed_indices (mutated : list Entry) : list nat :=
  map fst (filter (fun p => negb (is_fixed (snd p)))
                  (combine (seq 0 (length mutated)) mutated)).

(** [_mutate]. *)
Definition _mutate (self : t) (timetable : list Entry) : Random.M (list Entry) :=
  let indices := non_fixed_indices timetable in
  if (length indices <? 2)%nat then Random.ret timetable
  else
    Random.foldM
      (fun mutated _ =>
         u <~ Random.random ;;
         if negb (Qle_bool (mutation_rate self) u) then
           picked <~ Random.sample indices 2 ;;
           match picked with
           | [idx1; idx2] => Random.ret (swap_day_time mutated idx1 idx2)
           | _ => Random.raise (ValueError "not enough values to unpack")
           end
         else Random.ret mutated)
      (Py.range
         (py_int (inject_Z (Z.of_nat (length indices)) * mutation_rate self) + 1))
      timetable.

(** [_parallel_crossover_mutation], sequential branch. *)
Definition _parallel_crossover_mutation (self : t)
    (parents : list (list Entry * list Entry)) : Random.M (list (list Entry)) :=
  Random.foldM
    (fun children (pair : list Entry * list Entry) =>
       ' (child1, child2) <~ _crossover self (fst pair) (snd pair) ;;
       m1 <~ _mutate self child1 ;;
       let children := children ++ [m1] in
       if (length children <? length parents * 2)%nat
       then m2 <~ _mutate self child2 ;; Random.ret (children ++ [m2])
       else Random.ret children)
    parents [].

(** An element of [fitness_history]. *)
Record History : Type := {
  generation : nat;
  best : Q;
  average : Q
}.

(** The [while] loop of [run] that fills [parent_pairs]; every pass adds a
    pair, so [fuel] = [population_size] passes are never used up (lemma
    [select_parents_total]). *)
Fixpoint select_parents (self : t) (fuel : nat) (population : list (list Entry))
    (fitnesses : list Q) (n_new : nat)
    (parent_pairs : list (list Entry * list Entry))
    : Random.M (list (list Entry * list Entry)) :=
  if (Z.of_nat n_new + Z.of_nat (length parent_pairs) * 2 <? population_size self)%Z
  then
    match fuel with
    | O => Random.ret parent_pairs
    | S fuel' =>
      parent1 <~ _tournament_selection self population fitnesses ;;
      parent2 <~ _tournament_selection self population fitnesses ;;
      select_parents self fuel' population fitnesses n_new
                     (parent_pairs ++ [(parent1, parent2)])
    end
  else Random.ret parent_pairs.

(** [sorted(range(len(fitnesses)), key=lambda i: fitnesses[i],
    reverse=True)[:self.elite_size]]. *)
Definition elite_indices (self : t) (fitnesses : list Q) : list nat :=
  Py.slice_to (elite_size self)
    (Py.sorted (fun i j => Qle_bool (nth j fitnesses 0%Q) (nth i fitnesses 0%Q))
               (seq 0 (length fitnesses))).

(** The part of the loop body of [run] after the early-stop test: the next
    population. *)
Definition next_generation (self : t) (population : list (list Entry))
    (fitnesses : list Q) : Random.M (list (list Entry)) :=
  new_population <~
    Random.foldM (fun acc idx => ind <~ item population idx ;;
                                 Random.ret (acc ++ [ind]))
                 (elite_indices self fitnesses) [] ;;
  parent_pairs <~
    select_parents self (Z.to_nat (population_size self)) population fitnesses
                   (length new_population) [] ;;
  children <~ _parallel_crossover_mutation self parent_pairs ;;
  Random.ret
    (new_population
     ++ Py.slice_to (population_size self - Z.of_nat (length new_population))
                    children).

(** The loop state of [run]. *)
Record RunState : Type := {
  fitness_history : list History;
  best_overall_fitness : Q;
  best_overall_timetable : option (list Entry)
}.

(** The loop of [run] over the remaining generation numbers. *)
Fixpoint generations (self : t) (gens : list nat)
    (population : list (list Entry)) (st : RunState)
    : Random.M (option (list Entry) * list History) :=
  match gens with
  | [] => Random.ret (best_overall_timetable st, fitness_history st)
  | generation0 :: gens' =>
    fitnesses <~ Random.lift (_calculate_fitness_batch_optimized self population) ;;
    match fitnesses with
    | [] => Random.raise (ValueError "max() arg is an empty sequence")
    | f0 :: fs =>
      let best_fitness := Py.qmax f0 fs in
      let avg_fitness :=
        (Py.qsum fitnesses / inject_Z (Z.of_nat (length fitnesses)))%Q in
      best_idx <~ index_of_max fitnesses ;;
      let history :=
        fitness_history st
        ++ [ {| generation := generation0; best := best_fitness;
                average := avg_fitness |} ] in
      st' <~
        (if negb (Qle_bool best_fitness (best_overall_fitness st))
         then best_ind <~ item population best_idx ;;
              Random.ret {| fitness_history := history;
                            best_overall_fitness := best_fitness;
                            best_overall_timetable := Some best_ind |}
         else Random.ret {| fitness_history := history;
                            best_overall_fitness := best_overall_fitness st;
                            best_overall_timetable := best_overall_timetable st |}) ;;
      if Qle_bool 999 best_fitness
      then Random.ret (best_overall_timetable st', fitness_history st')
      else
        new_population <~ next_generation self population fitnesses ;;
        generations self gens' new_population st'
    end
  end.

(** [run]. *)
Definition run (self : t) : Random.M (option (list Entry) * list History) :=
  population <~ _initialize_population_parallel self ;;
  generations self (Py.range (max_generations self)) population
    {| fitness_history := [];
       best_overall_fitness := 0%Q;
       best_overall_timetable := None |}.

End GeneticAlgorithmCPUOptimized.

(* ================================================================== *)
(** * Vocabulary of the statements, and concrete catalogues *)
(* ================================================================== *)

Module CSPSpec.
Import TimetableCSP.

(** The [ConstraintSpec] name that [_check_hard_constraints] looks up
    before a rejection for the given reason; [None] where the method
    looks up no name. *)
Definition flag_of (r : Reason) : option string :=
  match r with
  | FacultyConflict => Some "no_faculty_conflict"
  | BatchConflict => Some "no_batch_conflict"
  | RoomConflict => Some "no_room_conflict"
  | RoomCapacity => Some "room_capacity"
  | NoConsecutiveSlots | SlotType | FreePeriod => None
  end.

(** The same solver with every constraint weight rewritten by [f]. *)
Definition reweigh (f : string -> Q -> Q) (self : t) : t :=
  {| selected_batches := selected_batches self;
     use_fixed_slots := use_fixed_slots self;
     max_iterations := max_iterations self;
     use_min_conflicts := use_min_conflicts self;
     working_days := working_days self; time_slots := time_slots self;
     batches := batches self; allocations := allocations self;
     subjects := subjects self; faculty := faculty self;
     classrooms := classrooms self; labs := labs self;
     fixed_slots := fixed_slots self;
     constraint_config :=
       map (fun kv => (fst kv, {| enabled := enabled (snd kv);
                                  cfg_weight := f (fst kv) (cfg_weight (snd kv));
                                  cfg_type := cfg_type (snd kv) |}))
           (constraint_config self);
     slot_divisions := slot_divisions self;
     slots := slots self; assignments := assignments self;
     fixed_assignments_set := fixed_assignments_set self |}.

(** The sixteen constraint names of [initialize_default_constraints]. *)
Definition default_constraint_names : list (string * string) :=
  [ ("no_faculty_conflict", "hard"); ("no_batch_conflict", "hard");
    ("no_room_conflict", "hard"); ("respect_fixed_slots", "hard");
    ("room_capacity", "hard"); ("weekly_hours_met", "soft");
    ("balanced_faculty_load", "soft"); ("minimize_faculty_gaps", "soft");
    ("minimize_batch_gaps", "soft"); ("consecutive_lab_hours", "soft");
    ("lab_alternation", "soft"); ("no_morning_gaps", "soft");
    ("avoid_consecutive_same_type", "soft");
    ("interest_based_scheduling", "soft");
    ("priority_bias_scheduling", "soft"); ("minimize_gaps", "soft") ].

(** A constraint table with every row at the same flag and weight. *)
Definition uniform_constraints (flag : bool) (w : Q) : list ConstraintRow :=
  map (fun nt => {| constraint_name := fst nt; constraint_type := snd nt;
                    is_enabled := flag; weight := w |})
      default_constraint_names.

Definition classroom (id cap : Z) : Room :=
  {| r_id := id; capacity := Some cap; computer_capacity := None |}.

(** One day of three periods, one batch, a theory subject (1) with one
    weekly hour and a practical subject (2) pinned at the first period;
    every constraint of the table is switched off. *)
Definition db_all_off : Database :=
  {| college := [ {| college_working_days := ["Mon"];
                     college_time_slots := ["P1"; "P2"; "P3"] |} ];
     tbl_batches := [ {| b_id := 1; number_of_students := 30 |} ];
     tbl_subject_allocation :=
       [ {| Alloc.batch_id := 1; Alloc.subject_id := 1; Alloc.faculty_id := 1 |} ];
     tbl_subjects :=
       [ {| s_id := 1; subject_type := "theory"; credits := 3;
            theory_hours := 1; lab_hours := 0 |};
         {| s_id := 2; subject_type := "practical"; credits := 3;
            theory_hours := 0; lab_hours := 1 |} ];
     tbl_faculty := [1; 2]%Z;
     tbl_classrooms := [classroom 1 40];
     tbl_computer_labs := [];
     tbl_fixed_slots :=
       [ {| Fixed.batch_id := 1; Fixed.day := "Mon"; Fixed.time_slot := "P1";
            Fixed.subject_id := 2; Fixed.faculty_id := 2; Fixed.room_id := 1;
            Fixed.room_type := "lab" |} ];
     get_constraints := uniform_constraints false 10%Q |}.





(** Five days of four periods, one batch, one subject with three weekly
    theory hours, one classroom, every constraint on, nothing pinned. *)
Definition db_three_hours : Database :=
  {| college := [ {| college_working_days := ["Mon"; "Tue"; "Wed"; "Thu"; "Fri"];
                     college_time_slots := ["P1"; "P2"; "P3"; "P4"] |} ];
     tbl_batches := [ {| b_id := 1; number_of_students := 30 |} ];
     tbl_subject_allocation :=
       [ {| Alloc.batch_id := 1; Alloc.subject_id := 1; Alloc.faculty_id := 1 |} ];
     tbl_subjects :=
       [ {| s_id := 1; subject_type := "theory"; credits := 3;
            theory_hours := 3; lab_hours := 0 |} ];
     tbl_faculty := [1]%Z;
     tbl_classrooms := [classroom 1 40];
     tbl_computer_labs := [];
     tbl_fixed_slots := [];
     get_constraints := uniform_constraints true 10%Q |}.


Definition csp_history : list History :=
  [ {| iteration := 0; conflicts := 0;
       method := "Enhanced CSP with Soft Subject Distribution" |} ].




(** A solver object with nothing loaded. *)
Definition empty_solver : t :=
  {| selected_batches := []; use_fixed_slots := true;
     max_iterations := 10000; use_min_conflicts := false;
     working_days := []; time_slots := []; batches := []; allocations := [];
     subjects := []; faculty := []; classrooms := []; labs := [];
     fixed_slots := []; constraint_config := []; slot_divisions := [];
     slots := []; assignments := []; fixed_assignments_set := [] |}.

(** [TimetableCSP(db, selected_batches)] with the default arguments, for a
    catalogue the constructor accepts. *)
Definition built (db : Database) (selected : list Z) : t :=
  match init db selected true 10000 false with
  | Ok self => self
  | Raise _ => empty_solver
  end.

(** The one requirement of [db_all_off]: a theory hour of subject 1. *)
Definition theory_hour_1 : Asg.t :=
  {| Asg.batch_id := 1; Asg.subject_id := 1; Asg.faculty_id := 1;
     Asg.type := theory; Asg.duration := 1; Asg.index := 0; Asg.priority := 3 |}.

(** One day of one period, pinned for batch 1; batch 1 also needs one
    theory hour of subject 1 with faculty 1. *)
Definition db_infeasible_theory : Database :=
  {| college := [ {| college_working_days := ["Mon"];
                     college_time_slots := ["P1"] |} ];
     tbl_batches := [ {| b_id := 1; number_of_students := 30 |} ];
     tbl_subject_allocation :=
       [ {| Alloc.batch_id := 1; Alloc.subject_id := 1; Alloc.faculty_id := 1 |} ];
     tbl_subjects :=
       [ {| s_id := 1; subject_type := "theory"; credits := 3;
            theory_hours := 1; lab_hours := 0 |} ];
     tbl_faculty := [1; 9]%Z;
     tbl_classrooms := [classroom 1 40];
     tbl_computer_labs := [];
     tbl_fixed_slots :=
       [ {| Fixed.batch_id := 1; Fixed.day := "Mon"; Fixed.time_slot := "P1";
            Fixed.subject_id := 9; Fixed.faculty_id := 9; Fixed.room_id := 1;
            Fixed.room_type := "classroom" |} ];
     get_constraints := uniform_constraints true 10%Q |}.

(** The same calendar, pinned for batch 2; batch 2 also needs a lab block
    of subject 2 with faculty 2. *)
Definition db_infeasible_lab : Database :=
  {| college := [ {| college_working_days := ["Mon"];
                     college_time_slots := ["P1"] |} ];
     tbl_batches := [ {| b_id := 2; number_of_students := 30 |} ];
     tbl_subject_allocation :=
       [ {| Alloc.batch_id := 2; Alloc.subject_id := 2; Alloc.faculty_id := 2 |} ];
     tbl_subjects :=
       [ {| s_id := 2; subject_type := "practical"; credits := 3;
            theory_hours := 0; lab_hours := 1 |} ];
     tbl_faculty := [2; 9]%Z;
     tbl_classrooms := [classroom 1 40];
     tbl_computer_labs := [];
     tbl_fixed_slots :=
       [ {| Fixed.batch_id := 2; Fixed.day := "Mon"; Fixed.time_slot := "P1";
            Fixed.subject_id := 9; Fixed.faculty_id := 9; Fixed.room_id := 1;
            Fixed.room_type := "classroom" |} ];
     get_constraints := uniform_constraints true 10%Q |}.

Definition lab_block_2 : Asg.t :=
  {| Asg.batch_id := 2; Asg.subject_id := 2; Asg.faculty_id := 2;
     Asg.type := lab; Asg.duration := 1; Asg.index := 0; Asg.priority := 5 |}.

(** The message of the [ValueError] that [run] raises. *)
Definition failed_message : string :=
  "Failed to find valid timetable. Try relaxing constraints.".

(** An allocation exists for the selected batch, but its subject has no
    theory hour and no lab hour. *)
Definition db_zero_hours : Database :=
  {| college := [ {| college_working_days := ["Mon"; "Tue"];
                     college_time_slots := ["P1"; "P2"; "P3"] |} ];
     tbl_batches := [ {| b_id := 1; number_of_students := 30 |} ];
     tbl_subject_allocation :=
       [ {| Alloc.batch_id := 1; Alloc.subject_id := 1; Alloc.faculty_id := 1 |} ];
     tbl_subjects :=
       [ {| s_id := 1; subject_type := "theory"; credits := 3;
            theory_hours := 0; lab_hours := 0 |} ];
     tbl_faculty := [1]%Z;
     tbl_classrooms := [classroom 1 40];
     tbl_computer_labs := [];
     tbl_fixed_slots := [];
     get_constraints := uniform_constraints true 10%Q |}.

End CSPSpec.

Module RandomSpec.

(** Whatever the tape, a value the code returns satisfies [P]. *)
Definition returns {A} (m : Random.M A) (P : A -> Prop) : Prop :=
  forall g a g', m g = Ok (a, g') -> P a.

(** Whatever the tape, the code returns, and its value satisfies [P]. *)
Definition total {A} (m : Random.M A) (P : A -> Prop) : Prop :=
  forall g, exists a g', m g = Ok (a, g') /\ P a.

End RandomSpec.

Module GASpec.
Import GeneticAlgorithmCPUOptimized.

(** The fields of a gene that say which requirement it stands for. *)
Definition same_identity (g g' : Entry) : Prop :=
  batch_id g = batch_id g'
  /\ subject_id g = subject_id g'
  /\ faculty_id g = faculty_id g'
  /\ room_id g = room_id g'
  /\ room_type g = room_type g'
  /\ is_fixed g = is_fixed g'.

(** The placement of a gene. *)
Definition day_time (g : Entry) : string * string := (day g, time_slot g).

(** The gene a child receives at a position comes from one of the two
    parents at that position. *)
Definition pick (pr : Entry * Entry) (x : Entry) : Prop :=
  x = fst pr \/ x = snd pr.

(** Both individuals of a pair of parents satisfy [P]. *)
Definition both (P : list Entry -> Prop) (pr : list Entry * list Entry) : Prop :=
  P (fst pr) /\ P (snd pr).

(** [m] is [tt] after swap mutations: the same length; position by
    position the same identity, and the same gene where it is fixed; the
    placements of the non-fixed genes are those of [tt], rearranged. *)
Definition mutation_of (tt m : list Entry) : Prop :=
  length m = length tt
  /\ Forall2 same_identity tt m
  /\ Forall2 (fun g g' => is_fixed g = true -> g' = g) tt m
  /\ Permutation (map day_time (nonfixed_genes tt))
                 (map day_time (nonfixed_genes m)).

(** The default arguments of [__init__]. *)
Definition default_params : Params :=
  {| p_population_size := 100; p_max_generations := 100;
     p_crossover_rate := 8 # 10; p_mutation_rate := 1 # 100;
     p_elite_size := 5; p_tournament_size := 5 |}.

(** A solver object with nothing loaded. *)
Definition empty_solver : t :=
  {| selected_batches := []; use_fixed_slots := true;
     population_size := 0; max_generations := 0; crossover_rate := 0;
     mutation_rate := 0; elite_size := 0; tournament_size := 0;
     working_days := []; time_slots := []; batches := []; allocations := [];
     subjects := []; faculty := []; classrooms := []; labs := [];
     fixed_slots := []; slot_requirements := []; constraints := [];
     time_indices := [] |}.

(** [GeneticAlgorithmCPUOptimized(db, selected_batches, ...)], for a
    catalogue the constructor accepts. *)
Definition built (db : Database) (selected : list Z) (params : Params) : t :=
  match init db selected true params with
  | Ok self => self
  | Raise _ => empty_solver
  end.

(** The fixed slot of [CSPSpec.db_all_off]. *)
Definition pinned_slot : Fixed.t :=
  {| Fixed.batch_id := 1; Fixed.day := "Mon"; Fixed.time_slot := "P1";
     Fixed.subject_id := 2; Fixed.faculty_id := 2; Fixed.room_id := 1;
     Fixed.room_type := "lab" |}.

(** Two individuals of [CSPSpec.db_all_off]: the pinned gene, then the
    theory hour at the second or at the third period. *)
Definition parent_a : list Entry :=
  [entry_of_fixed pinned_slot; gene 1 "Mon" "P2" 1 1 1 "classroom"].

Definition parent_b : list Entry :=
  [entry_of_fixed pinned_slot; gene 1 "Mon" "P3" 1 1 1 "classroom"].

(** One day of one period and one classroom; batches 1 and 2 each need
    one theory hour of subject 1 from the same faculty 1; every constraint
    on with weight 10. *)
Definition db_overbooked : Database :=
  {| college := [ {| college_working_days := ["Mon"];
                     college_time_slots := ["P1"] |} ];
     tbl_batches := [ {| b_id := 1; number_of_students := 30 |};
                      {| b_id := 2; number_of_students := 30 |} ];
     tbl_subject_allocation :=
       [ {| Alloc.batch_id := 1; Alloc.subject_id := 1; Alloc.faculty_id := 1 |};
         {| Alloc.batch_id := 2; Alloc.subject_id := 1; Alloc.faculty_id := 1 |} ];
     tbl_subjects :=
       [ {| s_id := 1; subject_type := "theory"; credits := 3;
            theory_hours := 1; lab_hours := 0 |} ];
     tbl_faculty := [1]%Z;
     tbl_classrooms := [CSPSpec.classroom 1 40];
     tbl_computer_labs := [];
     tbl_fixed_slots := [];
     get_constraints := CSPSpec.uniform_constraints true 10%Q |}.




Definition params_small : Params :=
  {| p_population_size := 4; p_max_generations := 3;
     p_crossover_rate := 8 # 10; p_mutation_rate := 1 # 100;
     p_elite_size := 1; p_tournament_size := 2 |}.

(** The only individual of [db_overbooked]: both hours in the one slot. *)
Definition overbooked_timetable : list Entry :=
  [ gene 1 "Mon" "P1" 1 1 1 "classroom"; gene 2 "Mon" "P1" 1 1 1 "classroom" ].






(** Two days of two periods, one classroom and one lab room; batch 1 has a
    lab block of two periods (subject 1, faculty 1) and two theory hours
    (subject 2, faculty 2); every constraint on with weight 10. *)
Definition db_lab : Database :=
  {| college := [ {| college_working_days := ["Mon"; "Tue"];
                     college_time_slots := ["P1"; "P2"] |} ];
     tbl_batches := [ {| b_id := 1; number_of_students := 30 |} ];
     tbl_subject_allocation :=
       [ {| Alloc.batch_id := 1; Alloc.subject_id := 1; Alloc.faculty_id := 1 |};
         {| Alloc.batch_id := 1; Alloc.subject_id := 2; Alloc.faculty_id := 2 |} ];
     tbl_subjects :=
       [ {| s_id := 1; subject_type := "practical"; credits := 3;
            theory_hours := 0; lab_hours := 2 |};
         {| s_id := 2; subject_type := "theory"; credits := 3;
            theory_hours := 2; lab_hours := 0 |} ];
     tbl_faculty := [1; 2]%Z;
     tbl_classrooms := [CSPSpec.classroom 1 40];
     tbl_computer_labs :=
       [ {| r_id := 7; capacity := None; computer_capacity := Some 40%Z |} ];
     tbl_fixed_slots := [];
     get_constraints := CSPSpec.uniform_constraints true 10%Q |}.

Definition params_lab : Params :=
  {| p_population_size := 1; p_max_generations := 2;
     p_crossover_rate := 8 # 10; p_mutation_rate := 2 # 10;
     p_elite_size := 0; p_tournament_size := 1 |}.






End GASpec.

Module CSPTerms.
Import TimetableCSP CSPSpec.

(** The division of the period at position [i] of a day of [n] periods. *)
Definition division_of_index (n i : nat) : string :=
  if (i <? n / 3)%nat then "morning"
  else if (i <? (n * 2) / 3)%nat then "noon"
  else "late_noon".

(** Two entries share a period and a faculty member, a batch or a room
    whose conflict rule is switched on. *)
Definition double_booked (self : t) (e1 e2 : Entry) : Prop :=
  day e1 = day e2 /\ time_slot e1 = time_slot e2
  /\ ((config_enabled self "no_faculty_conflict" = true
       /\ faculty_id e1 = faculty_id e2)
      \/ (config_enabled self "no_batch_conflict" = true
          /\ batch_id e1 = batch_id e2)
      \/ (config_enabled self "no_room_conflict" = true
          /\ room_id e1 = room_id e2)).

(** No two entries of the timetable are double booked. *)
Definition clash_free (self : t) (sol : list Entry) : Prop :=
  ForallOrdPairs (fun e1 e2 => ~ double_booked self e1 e2) sol.

(** Two days of four periods; batches 1 (30 students) and 2 (25 students);
    a two-hour theory subject 1, a practical subject 2 with a two-hour lab
    and a one-hour theory subject 3; faculty 1 teaches subject 1 to both
    batches and subject 3 to batch 2; one classroom, one computer lab;
    subject 1 of batch 2 is pinned at the first period of Monday; every
    constraint on. *)
Definition db_two_batches : Database :=
  {| college := [ {| college_working_days := ["Mon"; "Tue"];
                     college_time_slots := ["P1"; "P2"; "P3"; "P4"] |} ];
     tbl_batches := [ {| b_id := 1; number_of_students := 30 |};
                      {| b_id := 2; number_of_students := 25 |} ];
     tbl_subject_allocation :=
       [ {| Alloc.batch_id := 1; Alloc.subject_id := 1; Alloc.faculty_id := 1 |};
         {| Alloc.batch_id := 2; Alloc.subject_id := 3; Alloc.faculty_id := 1 |};
         {| Alloc.batch_id := 1; Alloc.subject_id := 2; Alloc.faculty_id := 2 |};
         {| Alloc.batch_id := 2; Alloc.subject_id := 1; Alloc.faculty_id := 1 |} ];
     tbl_subjects :=
       [ {| s_id := 1; subject_type := "theory"; credits := 3;
            theory_hours := 2; lab_hours := 0 |};
         {| s_id := 2; subject_type := "practical"; credits := 2;
            theory_hours := 0; lab_hours := 2 |};
         {| s_id := 3; subject_type := "theory"; credits := 4;
            theory_hours := 1; lab_hours := 0 |} ];
     tbl_faculty := [1; 2]%Z;
     tbl_classrooms := [classroom 1 40];
     tbl_computer_labs :=
       [ {| r_id := 2; capacity := None; computer_capacity := Some 30%Z |} ];
     tbl_fixed_slots :=
       [ {| Fixed.batch_id := 2; Fixed.day := "Mon"; Fixed.time_slot := "P1";
            Fixed.subject_id := 1; Fixed.faculty_id := 1; Fixed.room_id := 1;
            Fixed.room_type := "classroom" |} ];
     get_constraints := uniform_constraints true 10%Q |}.

Definition two_batches : t := built db_two_batches [1%Z; 2%Z].

(** The schedule the solver returns for [db_two_batches]. *)
Definition two_batches_schedule : list Entry :=
  [ {| batch_id := 2; day := "Mon"; time_slot := "P1"; subject_id := 1;
       faculty_id := 1; room_id := 1; room_type := "classroom";
       is_fixed := true |};
    {| batch_id := 1; day := "Mon"; time_slot := "P1"; subject_id := 2;
       faculty_id := 2; room_id := 2; room_type := "lab"; is_fixed := false |};
    {| batch_id := 1; day := "Mon"; time_slot := "P2"; subject_id := 2;
       faculty_id := 2; room_id := 2; room_type := "lab"; is_fixed := false |};
    {| batch_id := 2; day := "Tue"; time_slot := "P1"; subject_id := 3;
       faculty_id := 1; room_id := 1; room_type := "classroom";
       is_fixed := false |};
    {| batch_id := 1; day := "Tue"; time_slot := "P2"; subject_id := 1;
       faculty_id := 1; room_id := 1; room_type := "classroom";
       is_fixed := false |};
    {| batch_id := 1; day := "Mon"; time_slot := "P3"; subject_id := 1;
       faculty_id := 1; room_id := 1; room_type := "classroom";
       is_fixed := false |} ].

(** [room.get('capacity', room.get('computer_capacity', 0))]. *)
Definition seats (room : Room) : Z :=
  match capacity room with
  | Some c => c
  | None => column_or (computer_capacity room) 0
  end.

(** The row the capacity test of [_check_hard_constraints] looks up for a
    room id: the first of [self.classrooms + self.labs] that carries it. *)
Definition room_of_id (self : t) (id : Z) : option Room :=
  find (fun r => Z.eqb (r_id r) id) (classrooms self ++ labs self).

(** The fixed slot pins the (batch, subject, faculty) triple of the entry. *)
Definition pins (fs : Fixed.t) (e : Entry) : Prop :=
  Fixed.batch_id fs = batch_id e
  /\ Fixed.subject_id fs = subject_id e
  /\ Fixed.faculty_id fs = faculty_id e.

(** Requirement [a] is not scheduled after [b]: higher priority first and,
    at equal priority, the longer block first. *)
Definition scheduled_before (a b : Asg.t) : Prop :=
  (Asg.priority b < Asg.priority a)%Z
  \/ (Asg.priority a = Asg.priority b /\ (Asg.duration b <= Asg.duration a)%Z).

(** The period positions batch [b] occupies on day [d], collected as
    [_check_consecutive_free_period] collects them: entries whose label is
    not a period of the calendar are skipped. *)
Definition batch_day_times (self : t) (b : Z) (d : string) (sol : list Entry)
    : list nat :=
  flat_map
    (fun entry =>
       if Z.eqb (batch_id entry) b && String.eqb (day entry) d
       then match Py.index (time_slot entry) (time_slots self) with
            | Some t_idx => [t_idx]
            | None => []
            end
       else [])
    sol.

(** No free period: every position between two occupied ones is occupied. *)
Definition no_free_period (times : list nat) : Prop :=
  forall i j k, In i times -> In j times -> (i <= k <= j)%nat -> In k times.

(** Every entry carries a period label of the calendar. *)
Definition known_periods (self : t) (sol : list Entry) : Prop :=
  Forall (fun e => In (time_slot e) (time_slots self)) sol.

(** The exceptions of a failed lookup: [self.batches[id]] on an unknown
    batch, [self.time_slots.index(label)] on an unknown label. *)
Definition lookup_error (e : exn) : Prop :=
  match e with
  | KeyError _ | ValueErrorNotInList _ => True
  | _ => False
  end.

(** [TimetableCSP(db, selected, use_fixed, max_iter, min_conflicts).run()]. *)
Definition build_and_run (db : Database) (selected : list Z) (use_fixed : bool)
    (max_iter : Z) (min_conflicts : bool) : result (list Entry * list History) :=
  match init db selected use_fixed max_iter min_conflicts with
  | Raise e => Raise e
  | Ok self => run self
  end.

(** The solver object with other values of the two tuning attributes. *)
Definition with_options (max_iter : Z) (min_conflicts : bool) (self : t) : t :=
  {| selected_batches := selected_batches self;
     use_fixed_slots := use_fixed_slots self;
     max_iterations := max_iter;
     use_min_conflicts := min_conflicts;
     working_days := working_days self; time_slots := time_slots self;
     batches := batches self; allocations := allocations self;
     subjects := subjects self; faculty := faculty self;
     classrooms := classrooms self; labs := labs self;
     fixed_slots := fixed_slots self;
     constraint_config := constraint_config self;
     slot_divisions := slot_divisions self;
     slots := slots self; assignments := assignments self;
     fixed_assignments_set := fixed_assignments_set self |}.

End CSPTerms.

Module GATerms.
Import GeneticAlgorithmCPUOptimized.

Import GeneticAlgorithmCPUOptimized.

(** The genes a fresh individual holds for one requirement: a theory hour
    on a day, at a period and in a classroom of the catalogue; or a lab
    block of consecutive periods of one day, from a start position on, in
    one computer lab (in one classroom when the catalogue has no lab). *)
Definition requirement_genes (self : t) (req : Requirement)
    (genes : list Entry) : Prop :=
  match req with
  | TheoryReq b s f =>
    exists d label room,
      In d (working_days self) /\ In label (time_slots self)
      /\ In room (classrooms self)
      /\ genes = [gene b d label s f (r_id room) "classroom"]
  | PracticalReq b s f duration =>
    exists d start room_id0 room_type0,
      In d (working_days self)
      /\ ((exists room, In room (labs self)
                        /\ room_id0 = r_id room /\ room_type0 = "lab")
          \/ (labs self = []
              /\ exists room, In room (classrooms self)
                              /\ room_id0 = r_id room
                              /\ room_type0 = "classroom"))
      /\ genes = map (fun label => gene b d label s f room_id0 room_type0)
                     (firstn (Z.to_nat duration) (skipn start (time_slots self)))
      /\ length genes = Nat.min (Z.to_nat duration) (length (time_slots self))
  end.

(** A fresh individual: the fixed slots, then the genes of the
    requirements, in their order. *)
Definition fresh_individual (self : t) (timetable : list Entry) : Prop :=
  exists groups,
    timetable = map entry_of_fixed (fixed_slots self) ++ concat groups
    /\ Forall2 (requirement_genes self) (slot_requirements self) groups.







End GATerms.

(* ================================================================== *)
(** * Properties *)
(* ================================================================== *)

(** ** Python containers *)

Module PyFacts.

Section StableSort.

Variable A : Type.
Variable leb : A -> A -> bool.
Hypothesis leb_total : forall x y, leb x y = true \/ leb y x = true.
Hypothesis leb_trans : forall x y z, leb x y = true -> leb y z = true -> leb x z = true.

Lemma in_insert_by (x y : A) (l : list A) :
  In y (Py.insert_by leb x l) <-> y = x \/ In y l.
Proof using Type.
  induction l as [|z l IH]; simpl.
  - intuition.
  - destruct (leb x z); simpl; [intuition|].
    rewrite IH. intuition.
Qed.

Lemma in_sorted (y : A) (l : list A) : In y (Py.sorted leb l) <-> In y l.
Proof using Type.
  induction l as [|x l IH]; simpl; [reflexivity|].
  rewrite in_insert_by, IH. intuition.
Qed.

Lemma length_insert_by (x : A) (l : list A) :
  length (Py.insert_by leb x l) = S (length l).
Proof using Type.
  induction l as [|z l IH]; simpl; [reflexivity|].
  destruct (leb x z); simpl; [reflexivity|]. rewrite IH. reflexivity.
Qed.

Lemma length_sorted (l : list A) : length (Py.sorted leb l) = length l.
Proof using Type.
  induction l as [|x l IH]; simpl; [reflexivity|].
  rewrite length_insert_by, IH. reflexivity.
Qed.

Lemma insert_by_sorted (x : A) (l : list A) :
  StronglySorted (fun a b => leb a b = true) l ->
  StronglySorted (fun a b => leb a b = true) (Py.insert_by leb x l).
Proof using leb_total leb_trans.
  induction l as [|z l IH]; intros S; simpl.
  - repeat constructor.
  - inversion S as [|? ? Sl Fz]; subst.
    destruct (leb x z) eqn:E.
    + constructor; [exact S|]. constructor; [exact E|].
      eapply Forall_impl; [|exact Fz]. intros a Ha. eauto.
    + constructor; [apply IH; exact Sl|].
      apply Forall_forall. intros a Ha. apply in_insert_by in Ha.
      destruct Ha as [->|Ha].
      * destruct (leb_total x z) as [H|H]; congruence.
      * rewrite Forall_forall in Fz. auto.
Qed.

(** The output of the sort is in key order. *)
Lemma sorted_is_sorted (l : list A) :
  StronglySorted (fun a b => leb a b = true) (Py.sorted leb l).
Proof using leb_total leb_trans.
  induction l as [|x l IH]; simpl; [constructor|].
  apply insert_by_sorted. exact IH.
Qed.

Lemma leb_refl (x : A) : leb x x = true.
Proof using leb_total. destruct (leb_total x x); assumption. Qed.


End StableSort.

Lemma mapM_Forall2 (A B : Type) (f : A -> result B) (l : list A) (l' : list B) :
  mapM f l = Ok l' -> Forall2 (fun x y => f x = Ok y) l l'.
Proof.
  revert l'. induction l as [|x l IH]; intros l'; simpl.
  - intros E; inversion E; constructor.
  - destruct (f x) eqn:Ex; [|discriminate].
    destruct (mapM f l); [|discriminate].
    intros E; inversion E; subst. constructor; auto.
Qed.

(** A filter loop that did not raise kept, in order, the elements that
    passed. *)
Lemma filterM_filter (A : Type) (f : A -> result bool) (l l' : list A) :
  filterM f l = Ok l' ->
  l' = filter (fun x => match f x with Ok true => true | _ => false end) l.
Proof.
  revert l'. induction l as [|x l IH]; intros l'; simpl.
  - intros E; inversion E; reflexivity.
  - destruct (f x) as [b|] eqn:Ex; [|discriminate].
    destruct (filterM f l) as [ys|]; [|discriminate].
    intros E; inversion E; subst. rewrite (IH ys eq_refl).
    destruct b; reflexivity.
Qed.







Lemma score_leb_total (A : Type) (x y : Q * A) :
  Qle_bool (fst x) (fst y) = true \/ Qle_bool (fst y) (fst x) = true.
Proof.
  rewrite !Qle_bool_iff.
  destruct (Qlt_le_dec (fst y) (fst x)) as [H|H]; [right|left]; auto.
  apply Qlt_le_weak. exact H.
Qed.

End PyFacts.

Module CSPFacts.
Import TimetableCSP CSPSpec.

(** *** Hard constraints and their flags *)

Lemma get_reweigh (f : string -> Q -> Q) (d : Py.dict string Config) (name : string) :
  Py.get (map (fun kv => (fst kv, {| enabled := enabled (snd kv);
                                     cfg_weight := f (fst kv) (cfg_weight (snd kv));
                                     cfg_type := cfg_type (snd kv) |})) d) name
  = option_map (fun c => {| enabled := enabled c;
                            cfg_weight := f name (cfg_weight c);
                            cfg_type := cfg_type c |})
               (Py.get d name).
Proof.
  induction d as [|[k c] d IH]; simpl; [reflexivity|].
  destruct (eqb k name) eqn:E.
  - apply String.eqb_eq in E. subst k. reflexivity.
  - exact IH.
Qed.

Lemma config_enabled_reweigh f self name :
  config_enabled (reweigh f self) name = config_enabled self name.
Proof.
  unfold config_enabled, reweigh; simpl.
  rewrite get_reweigh. destruct (Py.get (constraint_config self) name); reflexivity.
Qed.

Lemma overlap_reason_reweigh f self a room occ sol :
  overlap_reason (reweigh f self) a room occ sol = overlap_reason self a room occ sol.
Proof.
  induction sol as [|e sol IH]; simpl; [reflexivity|].
  rewrite !config_enabled_reweigh, IH. reflexivity.
Qed.

Lemma consecutive_from_reweigh f self d i steps :
  consecutive_from (reweigh f self) d i steps = consecutive_from self d i steps.
Proof.
  induction steps as [|k steps IH]; simpl; [reflexivity|].
  rewrite IH. reflexivity.
Qed.

Lemma find_consecutive_slots_reweigh f self d t n :
  _find_consecutive_slots (reweigh f self) d t n = _find_consecutive_slots self d t n.
Proof.
  unfold _find_consecutive_slots. simpl.
  destruct (Py.index d (working_days self)); [|reflexivity].
  destruct (Py.index t (time_slots self)); [|reflexivity].
  rewrite consecutive_from_reweigh. reflexivity.
Qed.

Lemma hard_reason_reweigh f self size a slot room sol :
  hard_reason (reweigh f self) size a slot room sol
  = hard_reason self size a slot room sol.
Proof.
  unfold hard_reason.
  rewrite find_consecutive_slots_reweigh, overlap_reason_reweigh.
  unfold capacity_reason. rewrite config_enabled_reweigh.
  reflexivity.
Qed.

Lemma overlap_reason_flag self a room occ sol r :
  overlap_reason self a room occ sol = Some r ->
  exists name, flag_of r = Some name /\ config_enabled self name = true.
Proof.
  induction sol as [|e sol IH]; simpl; [discriminate|].
  destruct (Py.mem (day e, time_slot e) occ); [|exact IH].
  destruct (config_enabled self "no_faculty_conflict") eqn:Ef; simpl.
  - destruct (Z.eqb (Asg.faculty_id a) (faculty_id e)).
    + intros E; inversion E; subst. exists "no_faculty_conflict". auto.
    + destruct (config_enabled self "no_batch_conflict") eqn:Eb; simpl.
      * destruct (Z.eqb (Asg.batch_id a) (batch_id e)).
        -- intros E; inversion E; subst. exists "no_batch_conflict". auto.
        -- destruct (config_enabled self "no_room_conflict") eqn:Er; simpl.
           ++ destruct (Z.eqb room (room_id e)).
              ** intros E; inversion E; subst. exists "no_room_conflict". auto.
              ** exact IH.
           ++ exact IH.
      * destruct (config_enabled self "no_room_conflict") eqn:Er; simpl.
        -- destruct (Z.eqb room (room_id e)).
           ++ intros E; inversion E; subst. exists "no_room_conflict". auto.
           ++ exact IH.
        -- exact IH.
  - destruct (config_enabled self "no_batch_conflict") eqn:Eb; simpl.
    + destruct (Z.eqb (Asg.batch_id a) (batch_id e)).
      * intros E; inversion E; subst. exists "no_batch_conflict". auto.
      * destruct (config_enabled self "no_room_conflict") eqn:Er; simpl.
        -- destruct (Z.eqb room (room_id e)).
           ++ intros E; inversion E; subst. exists "no_room_conflict". auto.
           ++ exact IH.
        -- exact IH.
    + destruct (config_enabled self "no_room_conflict") eqn:Er; simpl.
      * destruct (Z.eqb room (room_id e)).
        -- intros E; inversion E; subst. exists "no_room_conflict". auto.
        -- exact IH.
      * exact IH.
Qed.

Lemma capacity_reason_flag self room size r :
  capacity_reason self room size = Some r ->
  flag_of r = Some "room_capacity" /\ config_enabled self "room_capacity" = true.
Proof.
  unfold capacity_reason.
  destruct (config_enabled self "room_capacity"); [|discriminate].
  destruct (find _ _); [|discriminate].
  destruct (_ <? _)%Z; [|discriminate].
  intros E; inversion E; auto.
Qed.

Lemma hard_reason_flag self size a slot room sol r name :
  hard_reason self size a slot room sol = Some r ->
  flag_of r = Some name ->
  config_enabled self name = true.
Proof.
  unfold hard_reason.
  destruct (if Z.eqb (Asg.duration a) 1 then _ else _) as [|o occ] eqn:Eo.
  - intros E; inversion E; subst; discriminate.
  - destruct (overlap_reason self a room (o :: occ) sol) as [r'|] eqn:Ov.
    + intros E Hf; inversion E; subst r'.
      destruct (overlap_reason_flag _ _ _ _ _ Ov) as (n & Hn & He). congruence.
    + destruct (capacity_reason self room size) as [r'|] eqn:Ec.
      * intros E Hf; inversion E; subst r'.
        destruct (capacity_reason_flag _ _ _ Ec) as (Hn & He). congruence.
      * destruct (_check_slot_type_constraint self a slot sol).
        -- intros E; inversion E; subst; discriminate.
        -- destruct (_check_consecutive_free_period self a slot sol);
             [intros E; inversion E; subst; discriminate | discriminate].
Qed.

(** With every [ConstraintSpec] flag off, a candidate of the single
    requirement of [db_all_off] is still rejected by the no-gap rule (third
    period, the pinned class being in the first) and by division-type
    exclusivity (first period, next to the pinned practical). *)
Lemma all_flags_off_still_rejects :
  init db_all_off [1%Z] true 10000 false = Ok (built db_all_off [1%Z])
  /\ assignments (built db_all_off [1%Z]) = [theory_hour_1]
  /\ Forall (fun kv => enabled (snd kv) = false)
            (constraint_config (built db_all_off [1%Z]))
  /\ check_hard_constraints_reason (built db_all_off [1%Z]) theory_hour_1
       ("Mon", "P3") 1 (_apply_fixed_slots (built db_all_off [1%Z]))
     = Ok (Some FreePeriod)
  /\ _check_hard_constraints (built db_all_off [1%Z]) theory_hour_1
       ("Mon", "P3") 1 (_apply_fixed_slots (built db_all_off [1%Z]))
     = Ok true
  /\ check_hard_constraints_reason (built db_all_off [1%Z]) theory_hour_1
       ("Mon", "P1") 1 (_apply_fixed_slots (built db_all_off [1%Z]))
     = Ok (Some SlotType)
  /\ _check_hard_constraints (built db_all_off [1%Z]) theory_hour_1
       ("Mon", "P1") 1 (_apply_fixed_slots (built db_all_off [1%Z]))
     = Ok true.
Proof.
  repeat split; try reflexivity.
  vm_compute. repeat constructor.
Qed.

(** C4 (amended).  Faculty conflict, batch conflict, room conflict and room
    capacity are the hard constraints that [_check_hard_constraints] reads a
    flag for: with that flag off the check never rejects a candidate for
    that reason; and rewriting the weights of the configuration never
    changes the verdict of the check. *)
Theorem disabled_flag_never_rejects
    (self : t) (a : Asg.t) (slot : string * string) (room : Z)
    (sol : list Entry) (r : Reason) (name : string) (f : string -> Q -> Q) :
  flag_of r = Some name ->
  config_enabled self name = false ->
  check_hard_constraints_reason self a slot room sol <> Ok (Some r)
  /\ _check_hard_constraints (reweigh f self) a slot room sol
     = _check_hard_constraints self a slot room sol.
Proof.
  intros Hflag Hoff. split.
  - unfold check_hard_constraints_reason.
    destruct (Py.get (batches self) (Asg.batch_id a)) as [b|]; [|discriminate].
    intros E. inversion E as [E'].
    pose proof (hard_reason_flag _ _ _ _ _ _ E' Hflag) as Hon.
    congruence.
  - unfold _check_hard_constraints, check_hard_constraints_reason.
    change (batches (reweigh f self)) with (batches self).
    destruct (Py.get (batches self) (Asg.batch_id a)) as [b|]; [|reflexivity].
    rewrite hard_reason_reweigh. reflexivity.
Qed.

Lemma disabled_flag_never_rejects_witness :
  flag_of FacultyConflict = Some "no_faculty_conflict"
  /\ config_enabled (built db_all_off [1%Z]) "no_faculty_conflict" = false
  /\ (check_hard_constraints_reason (built db_all_off [1%Z]) theory_hour_1
        ("Mon", "P1") 1 (_apply_fixed_slots (built db_all_off [1%Z]))
      <> Ok (Some FacultyConflict)
      /\ _check_hard_constraints
           (reweigh (fun _ _ => 0%Q) (built db_all_off [1%Z])) theory_hour_1
           ("Mon", "P1") 1 (_apply_fixed_slots (built db_all_off [1%Z]))
         = _check_hard_constraints (built db_all_off [1%Z]) theory_hour_1
             ("Mon", "P1") 1 (_apply_fixed_slots (built db_all_off [1%Z]))).
Proof.
  split; [reflexivity|]. split; [reflexivity|].
  apply (@disabled_flag_never_rejects (built db_all_off [1%Z]) theory_hour_1
           ("Mon", "P1") 1%Z (_apply_fixed_slots (built db_all_off [1%Z]))
           FacultyConflict "no_faculty_conflict" (fun _ _ => 0%Q));
    reflexivity.
Defined.

(** *** What a solved requirement contributes *)

Lemma skipn_nth_error (A : Type) (l : list A) (i : nat) (x : A) :
  nth_error l i = Some x -> skipn i l = x :: skipn (S i) l.
Proof.
  revert i. induction l as [|y l IH]; intros [|i]; simpl; try discriminate.
  - intros E; inversion E; reflexivity.
  - intros E. rewrite (IH i E). reflexivity.
Qed.

Lemma consecutive_from_spec self d k n s l :
  consecutive_from self d k (seq s n) = Some l ->
  length l = n
  /\ Forall (fun p => fst p = d) l
  /\ map snd l = firstn n (skipn (k + s) (time_slots self))
  /\ (k + s + n <= length (time_slots self) \/ n = 0)%nat.
Proof.
  revert s l. induction n as [|n IH]; intros s l; simpl.
  - intros E; inversion E; subst. simpl. repeat split; auto.
  - destruct (nth_error (time_slots self) (k + s)) as [label|] eqn:En; [|discriminate].
    destruct (consecutive_from self d k (seq (S s) n)) as [l'|] eqn:El; [|discriminate].
    simpl. intros E; inversion E; subst.
    destruct (IH _ _ El) as (L & F & M & B).
    rewrite (skipn_nth_error _ _ En). simpl.
    replace (k + S s)%nat with (S (k + s)) in M by lia.
    repeat split.
    + f_equal. exact L.
    + constructor; [reflexivity|exact F].
    + f_equal. exact M.
    + left. assert (k + s < length (time_slots self))%nat
        by (apply nth_error_Some; congruence).
      destruct B as [B| ->]; lia.
Qed.

Lemma find_consecutive_slots_spec self d t n :
  _find_consecutive_slots self d t n <> [] ->
  Z.of_nat (length (_find_consecutive_slots self d t n)) = n
  /\ Forall (fun p => fst p = d) (_find_consecutive_slots self d t n)
  /\ exists k,
       (k + length (_find_consecutive_slots self d t n)
        <= length (time_slots self))%nat
       /\ map snd (_find_consecutive_slots self d t n)
          = firstn (length (_find_consecutive_slots self d t n))
                   (skipn k (time_slots self)).
Proof.
  unfold _find_consecutive_slots.
  destruct (Py.index d (working_days self)); [|congruence].
  destruct (Py.index t (time_slots self)) as [k|]; [|congruence].
  unfold Py.range.
  destruct (consecutive_from self d k (seq 0 (Z.to_nat n))) as [l|] eqn:E;
    [|congruence].
  intros Hne. destruct (consecutive_from_spec _ _ _ _ _ E) as (L & F & M & B).
  assert (Z.to_nat n <> 0%nat) as Hn.
  { intros Z0. rewrite Z0 in L. destruct l; [congruence|discriminate]. }
  repeat split.
  - rewrite L. lia.
  - exact F.
  - exists k. rewrite Nat.add_0_r in M, B. rewrite L. split; [lia|exact M].
Qed.

Lemma hd_error_In (A : Type) (l : list A) (x : A) : hd_error l = Some x -> In x l.
Proof. destruct l; simpl; [discriminate|]. intros E; inversion E; auto. Qed.

Lemma select_best_In self a valid sol best :
  _select_best_slot_lcv self a valid sol = Ok (Some best) -> In best valid.
Proof.
  unfold _select_best_slot_lcv. destruct valid as [|c cs]; [discriminate|].
  destruct (mapM _ (c :: cs)) as [scores|] eqn:Em; [|discriminate].
  intros E. inversion E as [E']. clear E.
  destruct (hd_error (Py.sorted score_leb scores)) as [[p sr]|] eqn:Eh;
    [|discriminate].
  simpl in E'. inversion E'; subst sr.
  apply hd_error_In, PyFacts.in_sorted in Eh.
  apply PyFacts.mapM_Forall2 in Em.
  clear - Em Eh. induction Em as [|x y l l' Hxy _ IH]; [contradiction|].
  destruct Eh as [->|Hin]; [|right; auto].
  left. destruct (_calculate_soft_constraint_penalty self a (fst x) sol);
    [|discriminate].
  inversion Hxy; reflexivity.
Qed.

Lemma valid_combinations_In self a rooms sol valid slot room :
  valid_combinations self a rooms sol = Ok valid ->
  In (slot, room) valid ->
  In slot (slots self) /\ In room rooms
  /\ _check_hard_constraints self a slot (r_id room) sol = Ok false.
Proof.
  unfold valid_combinations. intros E Hin.
  apply PyFacts.filterM_filter in E. subst valid.
  apply filter_In in Hin. destruct Hin as [Hp Hf]. simpl in Hf.
  apply in_prod_iff in Hp. destruct Hp as [Hs Hr].
  repeat split; auto.
  destruct (_check_hard_constraints self a slot (r_id room) sol) as [[|]|];
    simpl in Hf; congruence.
Qed.

(** A step that succeeded placed the requirement at a calendar slot that
    the hard constraints accept. *)
Lemma solve_step_assigned self a sol new :
  solve_step self a sol = Ok (Some new) ->
  exists slot room b,
    In slot (slots self)
    /\ Py.get (batches self) (Asg.batch_id a) = Some b
    /\ hard_reason self (number_of_students b) a slot (r_id room) sol = None
    /\ new = _assign_slot self a slot room.
Proof.
  unfold solve_step.
  destruct (Py.get (batches self) (Asg.batch_id a)) as [b|] eqn:Eb; [|discriminate].
  destruct (valid_combinations _ _ _ _) as [[|c cs]|] eqn:Ev; try discriminate.
  destruct (_select_best_slot_lcv _ _ _ _) as [[[slot room]|]|] eqn:Es;
    try discriminate.
  intros E; inversion E; subst new.
  apply select_best_In in Es.
  destruct (valid_combinations_In _ _ _ _ _ _ Ev Es) as (Hs & _ & Hc).
  exists slot, room, b. repeat split; auto.
  unfold _check_hard_constraints, check_hard_constraints_reason in Hc.
  rewrite Eb in Hc.
  destruct (hard_reason _ _ _ _ _ _); [discriminate|reflexivity].
Qed.




Lemma prepare_slots_calendar self slot :
  In slot (slots (_prepare_slots self)) -> In (snd slot) (time_slots self).
Proof.
  unfold _prepare_slots. simpl. intros H. apply PyFacts.in_sorted in H.
  apply in_flat_map in H. destruct H as (d & _ & H).
  apply in_map_iff in H. destruct H as (t & <- & Ht). exact Ht.
Qed.





(** *** The choice among candidates *)





Lemma solve_from_extends self todo :
  forall s sol, solve_from self todo s = Ok (Some sol) -> exists rest, sol = s ++ rest.
Proof.
  induction todo as [|a todo IH]; intros s sol; simpl.
  - intros E; inversion E; subst. exists []. rewrite app_nil_r. reflexivity.
  - destruct (solve_step self a s) as [[new|]|]; try discriminate.
    intros E. destruct (IH _ _ E) as (rest & ->).
    exists (new ++ rest). rewrite app_assoc. reflexivity.
Qed.

(** The schedule [run] returns starts with the fixed entries. *)
Lemma run_keeps_fixed self sol hist fx :
  In fx (fixed_slots self) -> run self = Ok (sol, hist) ->
  In (entry_of_fixed fx) sol.
Proof.
  intros Hin Hrun. unfold run, _smart_solve in Hrun.
  destruct (solve_from _ _ _) as [[sol'|]|] eqn:E; try discriminate.
  inversion Hrun; subst sol'. destruct (solve_from_extends _ _ _ E) as (rest & ->).
  apply in_or_app. left. unfold _apply_fixed_slots. apply in_map. exact Hin.
Qed.

(** *** Failure of the solve *)

Lemma solve_from_app self xs ys s :
  solve_from self (xs ++ ys) s
  = match solve_from self xs s with
    | Ok (Some s') => solve_from self ys s'
    | other => other
    end.
Proof.
  revert s. induction xs as [|x xs IH]; intros s; simpl; [reflexivity|].
  destruct (solve_step self x s) as [[new|]|e]; try reflexivity.
  apply IH.
Qed.

(** Two catalogues whose only requirement has no surviving (slot, room):
    the requirements differ in batch, subject, faculty and kind, and [run]
    raises one and the same [ValueError]. *)
Lemma infeasible_error_is_anonymous :
  init db_infeasible_theory [1%Z] true 10000 false
    = Ok (built db_infeasible_theory [1%Z])
  /\ init db_infeasible_lab [2%Z] true 10000 false
    = Ok (built db_infeasible_lab [2%Z])
  /\ assignments (built db_infeasible_theory [1%Z]) = [theory_hour_1]
  /\ assignments (built db_infeasible_lab [2%Z]) = [lab_block_2]
  /\ valid_combinations (built db_infeasible_theory [1%Z]) theory_hour_1
       (_get_available_rooms (built db_infeasible_theory [1%Z]) theory 30)
       (_apply_fixed_slots (built db_infeasible_theory [1%Z])) = Ok []
  /\ valid_combinations (built db_infeasible_lab [2%Z]) lab_block_2
       (_get_available_rooms (built db_infeasible_lab [2%Z]) lab 30)
       (_apply_fixed_slots (built db_infeasible_lab [2%Z])) = Ok []
  /\ Asg.batch_id theory_hour_1 <> Asg.batch_id lab_block_2
  /\ Asg.subject_id theory_hour_1 <> Asg.subject_id lab_block_2
  /\ Asg.faculty_id theory_hour_1 <> Asg.faculty_id lab_block_2
  /\ Asg.type theory_hour_1 <> Asg.type lab_block_2
  /\ run (built db_infeasible_theory [1%Z]) = Raise (ValueError failed_message)
  /\ run (built db_infeasible_lab [2%Z]) = Raise (ValueError failed_message).
Proof.
  repeat split; try reflexivity; discriminate.
Qed.

(** C5 (amended).  When the requirements before [a] have been placed and
    [a] has no surviving (slot, room) combination, [run] raises the
    [ValueError] with the fixed message [failed_message], whatever the
    requirements after [a] are: nothing is retried and no partial schedule
    is returned.  The error does not name the requirement. *)
Theorem infeasible_requirement_fails_run
    (self : t) (done rest : list Asg.t) (a : Asg.t) (sol : list Entry) (b : Batch) :
  assignments self = done ++ a :: rest ->
  solve_from self done (_apply_fixed_slots self) = Ok (Some sol) ->
  Py.get (batches self) (Asg.batch_id a) = Some b ->
  valid_combinations self a
    (_get_available_rooms self (Asg.type a) (number_of_students b)) sol = Ok [] ->
  run self = Raise (ValueError failed_message).
Proof.
  intros Hasg Hdone Hb Hnone.
  unfold run, _smart_solve. rewrite Hasg, solve_from_app, Hdone. simpl.
  unfold solve_step. rewrite Hb, Hnone. reflexivity.
Qed.

Lemma infeasible_requirement_fails_run_witness :
  assignments (built db_infeasible_theory [1%Z]) = [] ++ theory_hour_1 :: []
  /\ solve_from (built db_infeasible_theory [1%Z]) []
       (_apply_fixed_slots (built db_infeasible_theory [1%Z]))
     = Ok (Some (_apply_fixed_slots (built db_infeasible_theory [1%Z])))
  /\ Py.get (batches (built db_infeasible_theory [1%Z])) (Asg.batch_id theory_hour_1)
     = Some {| b_id := 1; number_of_students := 30 |}
  /\ valid_combinations (built db_infeasible_theory [1%Z]) theory_hour_1
       (_get_available_rooms (built db_infeasible_theory [1%Z])
          (Asg.type theory_hour_1)
          (number_of_students {| b_id := 1; number_of_students := 30 |}))
       (_apply_fixed_slots (built db_infeasible_theory [1%Z])) = Ok []
  /\ run (built db_infeasible_theory [1%Z]) = Raise (ValueError failed_message).
Proof.
  split; [reflexivity|]. split; [reflexivity|].
  split; [reflexivity|]. split; [reflexivity|].
  apply (@infeasible_requirement_fails_run (built db_infeasible_theory [1%Z])
           [] [] theory_hour_1
           (_apply_fixed_slots (built db_infeasible_theory [1%Z]))
           {| b_id := 1; number_of_students := 30 |});
    reflexivity.
Defined.

End CSPFacts.

(** ** Code that draws from the tape *)

Module RandomFacts.
Import RandomSpec.

Lemma total_returns (A : Type) (m : Random.M A) (P : A -> Prop) :
  total m P -> returns m P.
Proof.
  intros T g a g' E. destruct (T g) as (a' & g'' & E' & HP).
  rewrite E in E'. inversion E'; subst. exact HP.
Qed.

Lemma returns_weaken (A : Type) (m : Random.M A) (P Q : A -> Prop) :
  (forall a, P a -> Q a) -> returns m P -> returns m Q.
Proof. intros H R g a g' E. apply H. eapply R; eauto. Qed.

Lemma total_weaken (A : Type) (m : Random.M A) (P Q : A -> Prop) :
  (forall a, P a -> Q a) -> total m P -> total m Q.
Proof.
  intros H T g. destruct (T g) as (a & g' & E & HP). exists a, g'. auto.
Qed.

Lemma returns_ret (A : Type) (a : A) (P : A -> Prop) :
  P a -> returns (Random.ret a) P.
Proof. intros H g a' g' E. inversion E; subst. exact H. Qed.

Lemma total_ret (A : Type) (a : A) (P : A -> Prop) :
  P a -> total (Random.ret a) P.
Proof. intros H g. exists a, g. split; [reflexivity|exact H]. Qed.

Lemma returns_raise (A : Type) (e : exn) (P : A -> Prop) :
  returns (Random.raise e) P.
Proof. intros g a g' E. discriminate. Qed.

Lemma returns_bind (A B : Type) (m : Random.M A) (k : A -> Random.M B)
    (P : A -> Prop) (Q : B -> Prop) :
  returns m P -> (forall a, P a -> returns (k a) Q) ->
  returns (Random.mbind m k) Q.
Proof.
  intros Rm Rk g b g' E. unfold Random.mbind in E.
  destruct (m g) as [[a g1]|] eqn:Em; [|discriminate].
  eapply Rk; eauto.
Qed.

Lemma total_bind (A B : Type) (m : Random.M A) (k : A -> Random.M B)
    (P : A -> Prop) (Q : B -> Prop) :
  total m P -> (forall a, P a -> total (k a) Q) ->
  total (Random.mbind m k) Q.
Proof.
  intros Tm Tk g. destruct (Tm g) as (a & g1 & Em & HP).
  destruct (Tk a HP g1) as (b & g2 & Ek & HQ).
  exists b, g2. split; [|exact HQ].
  unfold Random.mbind. rewrite Em. exact Ek.
Qed.

(** The loop rule: [Inv done acc] relates the prefix already processed to
    the accumulator. *)
Lemma returns_foldM (A S : Type) (body : S -> A -> Random.M S)
    (Inv : list A -> S -> Prop) (l : list A) (acc : S) :
  Inv [] acc ->
  (forall done x acc, In x l -> Inv done acc ->
                      returns (body acc x) (Inv (done ++ [x]))) ->
  returns (Random.foldM body l acc) (Inv l).
Proof.
  intros H0 Hstep.
  assert (forall rest done acc, incl rest l -> Inv done acc ->
            returns (Random.foldM body rest acc) (Inv (done ++ rest))) as G.
  { induction rest as [|x rest IH]; intros done acc0 Hin Hi; simpl.
    - rewrite app_nil_r. apply returns_ret. exact Hi.
    - eapply returns_bind; [apply Hstep; [apply Hin; left; reflexivity|exact Hi]|].
      intros acc' Hi'. replace (done ++ x :: rest) with ((done ++ [x]) ++ rest)
        by (rewrite <- app_assoc; reflexivity).
      apply IH; [|exact Hi']. intros y Hy. apply Hin. right. exact Hy. }
  exact (G l [] acc (incl_refl l) H0).
Qed.

Lemma total_foldM (A S : Type) (body : S -> A -> Random.M S)
    (Inv : list A -> S -> Prop) (l : list A) (acc : S) :
  Inv [] acc ->
  (forall done x acc, In x l -> Inv done acc ->
                      total (body acc x) (Inv (done ++ [x]))) ->
  total (Random.foldM body l acc) (Inv l).
Proof.
  intros H0 Hstep.
  assert (forall rest done acc, incl rest l -> Inv done acc ->
            total (Random.foldM body rest acc) (Inv (done ++ rest))) as G.
  { induction rest as [|x rest IH]; intros done acc0 Hin Hi; simpl.
    - rewrite app_nil_r. apply total_ret. exact Hi.
    - eapply total_bind; [apply Hstep; [apply Hin; left; reflexivity|exact Hi]|].
      intros acc' Hi'. replace (done ++ x :: rest) with ((done ++ [x]) ++ rest)
        by (rewrite <- app_assoc; reflexivity).
      apply IH; [|exact Hi']. intros y Hy. apply Hin. right. exact Hy. }
  exact (G l [] acc (incl_refl l) H0).
Qed.

(** The same rule, with the position of the current element. *)
Lemma total_foldM_split (A S : Type) (body : S -> A -> Random.M S)
    (Inv : list A -> S -> Prop) (l : list A) (acc : S) :
  Inv [] acc ->
  (forall done x rest acc, l = done ++ x :: rest -> Inv done acc ->
                           total (body acc x) (Inv (done ++ [x]))) ->
  total (Random.foldM body l acc) (Inv l).
Proof.
  intros H0 Hstep.
  assert (forall rest done acc, l = done ++ rest -> Inv done acc ->
            total (Random.foldM body rest acc) (Inv l)) as G.
  { induction rest as [|x rest IH]; intros done acc0 El Hi; simpl.
    - rewrite app_nil_r in El. subst done. apply total_ret. exact Hi.
    - eapply total_bind; [eapply Hstep; [exact El|exact Hi]|].
      intros acc' Hi'. apply (IH (done ++ [x])); [|exact Hi'].
      rewrite <- app_assoc. exact El. }
  exact (G l [] acc eq_refl H0).
Qed.


Lemma total_draw : total Random.draw (fun _ => True).
Proof. intros g. eexists _, _. split; [reflexivity|exact I]. Qed.

Lemma total_random : total Random.random (fun _ => True).
Proof.
  unfold Random.random. eapply total_bind; [apply total_draw|].
  intros d _. apply total_ret. exact I.
Qed.

Lemma total_randbelow (n : nat) :
  (0 < n)%nat -> total (Random.randbelow n) (fun i => (i < n)%nat).
Proof.
  intros Hn. unfold Random.randbelow. eapply total_bind; [apply total_draw|].
  intros d _. apply total_ret.
  pose proof (Z.mod_pos_bound d (Z.of_nat n) ltac:(lia)). lia.
Qed.

Lemma total_choice (A : Type) (l : list A) :
  l <> [] -> total (Random.choice l) (fun x => In x l).
Proof.
  intros Hne. destruct l as [|x l]; [congruence|]. unfold Random.choice.
  eapply total_bind; [apply total_randbelow; simpl; lia|].
  intros i Hi. apply total_ret. apply nth_In. exact Hi.
Qed.


Lemma in_remove_nth (A : Type) (i : nat) (l : list A) (x : A) :
  In x (Random.remove_nth i l) -> In x l.
Proof.
  revert i. induction l as [|y l IH]; intros [|i]; simpl; auto.
  intros [->|H]; eauto.
Qed.

Lemma length_remove_nth (A : Type) (i : nat) (l : list A) :
  (i < length l)%nat -> length (Random.remove_nth i l) = pred (length l).
Proof.
  revert i. induction l as [|y l IH]; intros [|i]; simpl; try lia.
  intros H. rewrite IH by lia. destruct l; simpl in *; lia.
Qed.

Lemma total_sample_loop (A : Type) (k : nat) (pool : list A) :
  (k <= length pool)%nat ->
  total (Random.sample_loop k pool)
        (fun picked => length picked = k /\ Forall (fun x => In x pool) picked).
Proof.
  revert pool. induction k as [|k IH]; intros pool Hk; simpl.
  - apply total_ret. auto.
  - destruct pool as [|x pool]; [simpl in Hk; lia|].
    eapply total_bind; [apply total_randbelow; simpl; lia|].
    intros i Hi. eapply total_bind.
    + apply IH. rewrite length_remove_nth by exact Hi. simpl in *. lia.
    + intros rest [Hl Hf]. apply total_ret. split; [simpl; congruence|].
      constructor; [apply nth_In; exact Hi|].
      eapply Forall_impl; [|exact Hf]. intros y. apply in_remove_nth.
Qed.

Lemma total_sample (A : Type) (population : list A) (k : Z) :
  (0 <= k <= Z.of_nat (length population))%Z ->
  total (Random.sample population k)
        (fun picked => length picked = Z.to_nat k
                       /\ Forall (fun x => In x population) picked).
Proof.
  intros Hk. unfold Random.sample.
  destruct (k <? 0)%Z eqn:E1; [lia|].
  destruct (Z.of_nat (length population) <? k)%Z eqn:E2; [lia|]. simpl.
  apply total_sample_loop. lia.
Qed.


Lemma total_and_returns (A : Type) (m : Random.M A) (P Q : A -> Prop) :
  total m P -> returns m Q -> total m (fun a => P a /\ Q a).
Proof.
  intros T R g. destruct (T g) as (a & g' & E & HP).
  exists a, g'. split; [exact E|]. split; [exact HP|]. eapply R; eauto.
Qed.

Lemma total_randint (a b : Z) :
  (a <= b)%Z -> total (Random.randint a b) (fun x => (a <= x <= b)%Z).
Proof.
  intros H. unfold Random.randint. destruct (b <? a)%Z eqn:E; [lia|].
  eapply total_bind; [apply total_randbelow; lia|].
  intros i Hi. apply total_ret. cbv beta in *. lia.
Qed.

End RandomFacts.

Module GAFacts.
Import GeneticAlgorithmCPUOptimized GASpec RandomSpec RandomFacts.

(** *** Lists updated in place *)

Lemma update_app_r (A : Type) (l1 l2 : list A) (k : nat) (x : A) :
  update (l1 ++ l2) (length l1 + k) x = l1 ++ update l2 k x.
Proof.
  induction l1 as [|y l1 IH]; simpl; [reflexivity|]. rewrite IH. reflexivity.
Qed.

Lemma update_comm (A : Type) (l : list A) (i j : nat) (x y : A) :
  i <> j -> update (update l i x) j y = update (update l j y) i x.
Proof.
  revert i j. induction l as [|z l IH]; intros [|i] [|j] H; simpl;
    try reflexivity; try congruence.
  rewrite IH by congruence. reflexivity.
Qed.

Lemma update_same (A : Type) (l : list A) (i : nat) (x : A) :
  nth_error l i = Some x -> update l i x = l.
Proof.
  revert i. induction l as [|z l IH]; intros [|i]; simpl; try discriminate.
  - intros E; inversion E; reflexivity.
  - intros E. rewrite IH by exact E. reflexivity.
Qed.

Lemma update_twice (A : Type) (l : list A) (i : nat) (x y : A) :
  update (update l i x) i y = update l i y.
Proof.
  revert i. induction l as [|z l IH]; intros [|i]; simpl; try reflexivity.
  rewrite IH. reflexivity.
Qed.

(** Two positions in increasing order split the list in three. *)
Lemma two_positions (A : Type) (l : list A) (i j : nat) (a b : A) :
  (i < j)%nat -> nth_error l i = Some a -> nth_error l j = Some b ->
  exists l1 l2 l3,
    l = l1 ++ a :: l2 ++ b :: l3
    /\ forall x y, update (update l i x) j y = l1 ++ x :: l2 ++ y :: l3.
Proof.
  intros Hij Ha Hb.
  destruct (nth_error_split _ _ Ha) as (l1 & r & -> & L1).
  assert (nth_error r (j - i - 1) = Some b) as Hr.
  { rewrite nth_error_app2 in Hb by lia. rewrite L1 in Hb.
    replace (j - i)%nat with (S (j - i - 1)) in Hb by lia. exact Hb. }
  destruct (nth_error_split _ _ Hr) as (l2 & l3 & -> & L2).
  exists l1, l2, l3. split; [reflexivity|]. intros x y.
  replace i with (length l1 + 0)%nat by lia. rewrite update_app_r. simpl.
  replace j with (length (l1 ++ [x]) + length l2)%nat
    by (rewrite length_app; simpl; lia).
  replace (l1 ++ x :: l2 ++ b :: l3) with ((l1 ++ [x]) ++ l2 ++ b :: l3)
    by (rewrite <- app_assoc; reflexivity).
  rewrite update_app_r.
  replace (length l2) with (length l2 + 0)%nat by lia.
  rewrite update_app_r. simpl. rewrite <- app_assoc. reflexivity.
Qed.

(** *** Swap mutation *)

Lemma same_identity_refl (g : Entry) : same_identity g g.
Proof. unfold same_identity. auto 7. Qed.

Lemma same_identity_trans (a b c : Entry) :
  same_identity a b -> same_identity b c -> same_identity a c.
Proof. unfold same_identity. intuition congruence. Qed.

Lemma Forall2_refl (A : Type) (R : A -> A -> Prop) (l : list A) :
  (forall x, R x x) -> Forall2 R l l.
Proof. intros H. induction l; constructor; auto. Qed.

Lemma Forall2_trans (A : Type) (R S T : A -> A -> Prop) (l1 l2 l3 : list A) :
  (forall x y z, R x y -> S y z -> T x z) ->
  Forall2 R l1 l2 -> Forall2 S l2 l3 -> Forall2 T l1 l3.
Proof.
  intros H F. revert l3. induction F as [|x y l1 l2 Hxy _ IH]; intros l3 G;
    inversion G; subst; constructor; eauto.
Qed.

Lemma Forall2_nth_error_l (A B : Type) (R : A -> B -> Prop) (l : list A)
    (l' : list B) (i : nat) (a : A) :
  Forall2 R l l' -> nth_error l i = Some a ->
  exists b, nth_error l' i = Some b /\ R a b.
Proof.
  intros F. revert i. induction F as [|x y l l' Hxy _ IH]; intros [|i]; simpl;
    try discriminate.
  - intros E; inversion E; subst. eauto.
  - apply IH.
Qed.

Lemma mutation_of_refl (tt : list Entry) : mutation_of tt tt.
Proof.
  unfold mutation_of. repeat split.
  - apply Forall2_refl. apply same_identity_refl.
  - apply Forall2_refl. auto.
  - apply Permutation_refl.
Qed.

Lemma mutation_of_trans (a b c : list Entry) :
  mutation_of a b -> mutation_of b c -> mutation_of a c.
Proof.
  intros (L1 & I1 & F1 & P1) (L2 & I2 & F2 & P2). unfold mutation_of.
  repeat split.
  - congruence.
  - eapply Forall2_trans; [|exact I1|exact I2]. apply same_identity_trans.
  - assert (Forall2 (fun g g' => same_identity g g'
                                 /\ (is_fixed g = true -> g' = g)) a b) as F1'.
    { clear - I1 F1. induction I1; inversion F1; subst; constructor; auto. }
    eapply Forall2_trans; [|exact F1'|exact F2].
    intros x y z [Hi Hxy] Hyz Hx. simpl in *.
    rewrite <- (Hxy Hx). apply Hyz. rewrite (Hxy Hx). exact Hx.
  - eapply Permutation_trans; eauto.
Qed.

Lemma with_day_time_self (g : Entry) :
  with_day_time g (day g) (time_slot g) = g.
Proof. destruct g; reflexivity. Qed.

(** The effect of one swap on a timetable split at the two positions. *)
Lemma swap_shape (l1 l2 l3 : list Entry) (g1 g2 : Entry) :
  is_fixed g1 = false -> is_fixed g2 = false ->
  mutation_of (l1 ++ g1 :: l2 ++ g2 :: l3)
              (l1 ++ with_day_time g1 (day g2) (time_slot g2)
                  :: l2 ++ with_day_time g2 (day g1) (time_slot g1) :: l3).
Proof.
  intros H1 H2. unfold mutation_of. repeat split.
  - rewrite !length_app. simpl. rewrite !length_app. reflexivity.
  - apply Forall2_app; [apply Forall2_refl, same_identity_refl|].
    constructor; [unfold same_identity; simpl; auto 7|].
    apply Forall2_app; [apply Forall2_refl, same_identity_refl|].
    constructor; [unfold same_identity; simpl; auto 7|].
    apply Forall2_refl, same_identity_refl.
  - apply Forall2_app; [apply Forall2_refl; auto|].
    constructor; [congruence|].
    apply Forall2_app; [apply Forall2_refl; auto|].
    constructor; [congruence|]. apply Forall2_refl; auto.
  - unfold nonfixed_genes. rewrite !filter_app. simpl.
    rewrite !filter_app. simpl. rewrite H1, H2. simpl.
    rewrite !map_app. simpl. rewrite !map_app. simpl.
    apply Permutation_app_head. unfold day_time at 2 4 6 8. simpl.
    set (k1 := (day g1, time_slot g1)). set (k2 := (day g2, time_slot g2)).
    set (B := map day_time (filter (fun s => negb (is_fixed s)) l2)).
    set (C := map day_time (filter (fun s => negb (is_fixed s)) l3)).
    apply Permutation_trans with (k1 :: k2 :: B ++ C).
    + constructor. apply Permutation_sym, Permutation_middle.
    + apply Permutation_trans with (k2 :: k1 :: B ++ C); [apply perm_swap|].
      constructor. apply Permutation_middle.
Qed.

Lemma swap_mutation_of (m : list Entry) (i j : nat) (g1 g2 : Entry) :
  nth_error m i = Some g1 -> nth_error m j = Some g2 ->
  is_fixed g1 = false -> is_fixed g2 = false ->
  mutation_of m (swap_day_time m i j).
Proof.
  intros E1 E2 H1 H2. unfold swap_day_time. rewrite E1, E2.
  destruct (Nat.lt_trichotomy i j) as [Hlt|[Heq|Hgt]].
  - destruct (two_positions _ Hlt E1 E2) as (l1 & l2 & l3 & -> & U).
    rewrite U. apply swap_shape; assumption.
  - subst j. rewrite E1 in E2. inversion E2; subst g2.
    rewrite with_day_time_self, update_twice, update_same by exact E1.
    apply mutation_of_refl.
  - destruct (two_positions _ Hgt E2 E1) as (l1 & l2 & l3 & -> & U).
    rewrite update_comm by lia. rewrite U. apply swap_shape; assumption.
Qed.

Lemma in_combine_seq (A : Type) (l : list A) (s i : nat) (x : A) :
  In (i, x) (combine (seq s (length l)) l) ->
  (s <= i)%nat /\ nth_error l (i - s) = Some x.
Proof.
  revert s. induction l as [|y l IH]; intros s; simpl; [contradiction|].
  intros [E|H].
  - inversion E; subst. rewrite Nat.sub_diag. auto.
  - destruct (IH _ H) as [Hs Hn]. split; [lia|].
    replace (i - s)%nat with (S (i - S s)) by lia. exact Hn.
Qed.

Lemma non_fixed_indices_spec (tt : list Entry) (i : nat) :
  In i (non_fixed_indices tt) ->
  exists g, nth_error tt i = Some g /\ is_fixed g = false.
Proof.
  unfold non_fixed_indices. intros H. apply in_map_iff in H.
  destruct H as ([k g] & <- & H). apply filter_In in H. destruct H as [Hc Hf].
  apply in_combine_seq in Hc. destruct Hc as [_ Hn].
  rewrite Nat.sub_0_r in Hn. exists g. simpl in *. split; [exact Hn|].
  destruct (is_fixed g); [discriminate|reflexivity].
Qed.

(** Mutation always returns, and what it returns is the individual with
    the placements of its non-fixed genes rearranged. *)
Lemma mutate_mutation_of (self : t) (tt : list Entry) :
  total (_mutate self tt) (mutation_of tt).
Proof.
  unfold _mutate.
  destruct (length (non_fixed_indices tt) <? 2)%nat eqn:El.
  - apply total_ret, mutation_of_refl.
  - apply Nat.ltb_ge in El.
    apply (@total_foldM _ _ _ (fun _ m => mutation_of tt m));
      [apply mutation_of_refl|].
    intros _ _ m _ Hm.
    eapply total_bind; [apply total_random|]. intros u _.
    destruct (negb (Qle_bool (mutation_rate self) u)); [|apply total_ret; exact Hm].
    eapply total_bind; [apply total_sample; lia|].
    intros picked [Hl Hf].
    destruct picked as [|a [|b [|c rest]]]; try discriminate.
    apply total_ret.
    inversion Hf as [|? ? Ha Hf']; subst. inversion Hf' as [|? ? Hb _]; subst.
    destruct (non_fixed_indices_spec _ _ Ha) as (ta & Ea & Fa).
    destruct (non_fixed_indices_spec _ _ Hb) as (tb & Eb & Fb).
    destruct Hm as (L & I & F & P).
    destruct (Forall2_nth_error_l _ I Ea) as (ga & Ega & Ia).
    destruct (Forall2_nth_error_l _ I Eb) as (gb & Egb & Ib).
    apply mutation_of_trans with m; [unfold mutation_of; auto|].
    eapply swap_mutation_of; eauto.
    + destruct Ia as (_ & _ & _ & _ & _ & Hx). congruence.
    + destruct Ib as (_ & _ & _ & _ & _ & Hx). congruence.
Qed.

(** *** Uniform crossover *)

Lemma crossover_mix_picks (pairs : list (Entry * Entry)) (F : list Entry) :
  total (crossover_mix pairs (F, F))
        (fun c => exists xs ys,
                    fst c = F ++ xs /\ snd c = F ++ ys
                    /\ Forall2 pick pairs xs /\ Forall2 pick pairs ys).
Proof.
  unfold crossover_mix.
  apply (@total_foldM _ _ _
           (fun done c => exists xs ys,
                            fst c = F ++ xs /\ snd c = F ++ ys
                            /\ Forall2 pick done xs /\ Forall2 pick done ys)).
  - exists [], []. rewrite app_nil_r. repeat split; constructor.
  - intros done g acc Hin (xs & ys & E1 & E2 & F1 & F2).
    eapply total_bind; [apply total_random|]. intros u _.
    destruct (negb (Qle_bool (1 # 2) u)); apply total_ret; simpl.
    + exists (xs ++ [fst g]), (ys ++ [snd g]).
      rewrite E1, E2, <- !app_assoc. repeat split;
        apply Forall2_app; auto; constructor; unfold pick; auto.
    + exists (xs ++ [snd g]), (ys ++ [fst g]).
      rewrite E1, E2, <- !app_assoc. repeat split;
        apply Forall2_app; auto; constructor; unfold pick; auto.
Qed.

Lemma pick_Forall (P : Entry -> Prop) (pairs : list (Entry * Entry))
    (xs : list Entry) :
  Forall (fun pr => P (fst pr) /\ P (snd pr)) pairs ->
  Forall2 pick pairs xs -> Forall P xs.
Proof.
  intros HP F. induction F as [|pr x pairs xs Hp _ IH]; [constructor|].
  inversion HP as [|? ? [Pa Pb] HP']; subst.
  constructor; [destruct Hp as [->| ->]; assumption|auto].
Qed.

Lemma crossover_mix_shape (P : Entry -> Prop) (pairs : list (Entry * Entry))
    (F : list Entry) :
  Forall (fun pr => P (fst pr) /\ P (snd pr)) pairs ->
  total (crossover_mix pairs (F, F))
        (fun c => exists xs ys,
                    fst c = F ++ xs /\ snd c = F ++ ys
                    /\ length xs = length pairs /\ length ys = length pairs
                    /\ Forall P xs /\ Forall P ys).
Proof.
  intros HP. eapply total_weaken; [|apply crossover_mix_picks].
  intros c (xs & ys & E1 & E2 & F1 & F2). exists xs, ys.
  repeat split; auto.
  - symmetry. eapply Forall2_length; eauto.
  - symmetry. eapply Forall2_length; eauto.
  - eapply pick_Forall; eauto.
  - eapply pick_Forall; eauto.
Qed.

Lemma nonfixed_genes_spec (tt : list Entry) :
  Forall (fun g => is_fixed g = false) (nonfixed_genes tt).
Proof.
  apply Forall_forall. intros g H. apply filter_In in H.
  destruct H as [_ H]. destruct (is_fixed g); [discriminate|reflexivity].
Qed.

Lemma Forall_skipn (A : Type) (P : A -> Prop) (n : nat) (l : list A) :
  Forall P l -> Forall P (skipn n l).
Proof.
  revert n. induction l as [|x l IH]; intros [|n] H; simpl; auto.
  inversion H; auto.
Qed.

(** Either the children are the parents, or both are the fixed genes of
    the first parent followed by as many non-fixed genes as the
    corresponding parent has. *)
Lemma crossover_shape (self : t) (p1 p2 : list Entry) :
  total (_crossover self p1 p2)
        (fun c => c = (p1, p2)
                  \/ exists xs ys,
                       fst c = fixed_genes p1 ++ xs
                       /\ snd c = fixed_genes p1 ++ ys
                       /\ Forall (fun g => is_fixed g = false) xs
                       /\ Forall (fun g => is_fixed g = false) ys
                       /\ length xs = length (nonfixed_genes p1)
                       /\ length ys = length (nonfixed_genes p2)).
Proof.
  unfold _crossover.
  eapply total_bind; [apply total_random|]. intros u _.
  destruct (negb (Qle_bool u (crossover_rate self)));
    [apply total_ret; left; reflexivity|].
  eapply total_bind.
  - apply (crossover_mix_shape (fun g => is_fixed g = false)).
    apply Forall_forall. intros [a b] Hin. simpl.
    pose proof (nonfixed_genes_spec p1) as N1.
    pose proof (nonfixed_genes_spec p2) as N2.
    rewrite Forall_forall in N1, N2. split.
    + apply N1. eapply in_combine_l; eauto.
    + apply N2. eapply in_combine_r; eauto.
  - intros [c1 c2] (xs & ys & E1 & E2 & L1 & L2 & F1 & F2). simpl in *.
    apply total_ret. right.
    exists (xs ++ skipn (Nat.min (length (nonfixed_genes p1))
                                  (length (nonfixed_genes p2)))
                        (nonfixed_genes p1)),
           (ys ++ skipn (Nat.min (length (nonfixed_genes p1))
                                  (length (nonfixed_genes p2)))
                        (nonfixed_genes p2)).
    subst c1 c2. simpl. rewrite <- !app_assoc.
    rewrite length_combine in L1, L2.
    repeat split.
    + apply Forall_app. split; [exact F1|].
      apply Forall_skipn, nonfixed_genes_spec.
    + apply Forall_app. split; [exact F2|].
      apply Forall_skipn, nonfixed_genes_spec.
    + rewrite length_app, length_skipn. lia.
    + rewrite length_app, length_skipn. lia.
Qed.

Lemma filter_all_false (A : Type) (f : A -> bool) (l : list A) :
  Forall (fun x => f x = false) l -> filter f l = [].
Proof.
  induction 1 as [|x l Hx _ IH]; simpl; [reflexivity|]. rewrite Hx. exact IH.
Qed.

Lemma filter_all_true (A : Type) (f : A -> bool) (l : list A) :
  Forall (fun x => f x = true) l -> filter f l = l.
Proof.
  induction 1 as [|x l Hx _ IH]; simpl; [reflexivity|]. rewrite Hx, IH.
  reflexivity.
Qed.

Lemma fixed_genes_of_child (p xs : list Entry) :
  Forall (fun g => is_fixed g = false) xs ->
  fixed_genes (fixed_genes p ++ xs) = fixed_genes p
  /\ nonfixed_genes (fixed_genes p ++ xs) = xs.
Proof.
  intros H. unfold fixed_genes, nonfixed_genes. rewrite !filter_app.
  assert (Forall (fun g => is_fixed g = true) (filter is_fixed p)) as Hf.
  { apply Forall_forall. intros g Hg. apply filter_In in Hg. tauto. }
  split.
  - rewrite (filter_all_true _ Hf), (filter_all_false _ H), app_nil_r.
    reflexivity.
  - rewrite filter_all_false, filter_all_true; [reflexivity| |].
    + eapply Forall_impl; [|exact H]. intros g Hg. simpl in *. rewrite Hg.
      reflexivity.
    + eapply Forall_impl; [|exact Hf]. intros g Hg. simpl in *. rewrite Hg.
      reflexivity.
Qed.

(** C9.  For parents with the same fixed genes and equally many non-fixed
    genes, crossover always returns two children with as many fixed and as
    many non-fixed genes as the parents; and mutation always returns the
    individual with the same length, where every gene keeps its batch,
    subject, faculty, room, room type and fixed flag, every fixed gene is
    unchanged, and the (day, time slot) pairs of the non-fixed genes are
    those of the individual, exchanged between positions. *)
Theorem crossover_mutation_closure
    (self : t) (parent1 parent2 timetable : list Entry) :
  fixed_genes parent1 = fixed_genes parent2 ->
  length (nonfixed_genes parent1) = length (nonfixed_genes parent2) ->
  total (_crossover self parent1 parent2)
        (fun c =>
           length (fixed_genes (fst c)) = length (fixed_genes parent1)
           /\ length (nonfixed_genes (fst c)) = length (nonfixed_genes parent1)
           /\ length (fixed_genes (snd c)) = length (fixed_genes parent2)
           /\ length (nonfixed_genes (snd c)) = length (nonfixed_genes parent2))
  /\ total (_mutate self timetable) (mutation_of timetable).
Proof.
  intros Hf Hn. split; [|apply mutate_mutation_of].
  eapply total_weaken; [|apply crossover_shape].
  intros [c1 c2] [E|(xs & ys & E1 & E2 & F1 & F2 & L1 & L2)]; simpl in *.
  - inversion E; subst. auto.
  - subst c1 c2.
    destruct (fixed_genes_of_child parent1 F1) as [A1 B1].
    destruct (fixed_genes_of_child parent1 F2) as [A2 B2].
    rewrite A1, B1, A2, B2, <- Hf. auto.
Qed.

Lemma crossover_mutation_closure_witness :
  fixed_genes parent_a = fixed_genes parent_b
  /\ length (nonfixed_genes parent_a) = length (nonfixed_genes parent_b)
  /\ (total (_crossover (built CSPSpec.db_all_off [1%Z] default_params)
                        parent_a parent_b)
         (fun c =>
            length (fixed_genes (fst c)) = length (fixed_genes parent_a)
            /\ length (nonfixed_genes (fst c)) = length (nonfixed_genes parent_a)
            /\ length (fixed_genes (snd c)) = length (fixed_genes parent_b)
            /\ length (nonfixed_genes (snd c)) = length (nonfixed_genes parent_b))
      /\ total (_mutate (built CSPSpec.db_all_off [1%Z] default_params) parent_a)
               (mutation_of parent_a)).
Proof.
  split; [reflexivity|]. split; [reflexivity|].
  apply (@crossover_mutation_closure
           (built CSPSpec.db_all_off [1%Z] default_params)
           parent_a parent_b parent_a); reflexivity.
Defined.

(** *** Properties kept by every generation *)

Lemma Forall_firstn_of (A : Type) (P : A -> Prop) (n : nat) (l : list A) :
  Forall P l -> Forall P (firstn n l).
Proof.
  revert n. induction l as [|x l IH]; intros [|n] H; simpl; auto.
  inversion H; subst. constructor; auto.
Qed.

Lemma Forall_slice_to (A : Type) (P : A -> Prop) (k : Z) (l : list A) :
  Forall P l -> Forall P (Py.slice_to k l).
Proof.
  intros H. unfold Py.slice_to. destruct (k <? 0)%Z; apply Forall_firstn_of, H.
Qed.

Lemma returns_item (A : Type) (l : list A) (i : nat) :
  returns (item l i) (fun x => In x l).
Proof.
  unfold item. destruct (nth_error l i) eqn:E; [|apply returns_raise].
  apply returns_ret. eapply nth_error_In; eauto.
Qed.

Lemma tournament_in (self : t) (population : list (list Entry))
    (fitnesses : list Q) :
  returns (_tournament_selection self population fitnesses)
          (fun x => In x population).
Proof.
  unfold _tournament_selection.
  eapply returns_bind with (P := fun _ => True);
    [intros g a g' _; exact I|]. intros indices _.
  eapply returns_bind with (P := fun _ => True);
    [intros g a g' _; exact I|]. intros fits _.
  eapply returns_bind with (P := fun _ => True);
    [intros g a g' _; exact I|]. intros k _.
  eapply returns_bind with (P := fun _ => True);
    [intros g a g' _; exact I|]. intros w _.
  apply returns_item.
Qed.

Section Invariant.

Variable self : t.
Variable P : list Entry -> Prop.
Hypothesis P_crossover :
  forall p1 p2, P p1 -> P p2 ->
                returns (_crossover self p1 p2) (fun c => P (fst c) /\ P (snd c)).
Hypothesis P_mutate : forall tt, P tt -> returns (_mutate self tt) P.

Lemma select_parents_inv fuel population fitnesses n_new pairs :
  Forall P population -> Forall (both P) pairs ->
  returns (select_parents self fuel population fitnesses n_new pairs)
          (Forall (both P)).
Proof using Type.
  intros Hpop. revert pairs. induction fuel as [|fuel IH]; intros pairs Hp; simpl.
  - destruct (_ <? _)%Z; apply returns_ret; exact Hp.
  - destruct (_ <? _)%Z; [|apply returns_ret; exact Hp].
    rewrite Forall_forall in Hpop.
    eapply returns_bind; [apply tournament_in|]. intros p1 H1.
    eapply returns_bind; [apply tournament_in|]. intros p2 H2.
    apply IH. apply Forall_app. split; [exact Hp|].
    constructor; [|constructor]. split; simpl; auto.
Qed.

Lemma children_inv parents :
  Forall (both P) parents ->
  returns (_parallel_crossover_mutation self parents) (Forall P).
Proof using P_crossover P_mutate.
  intros Hp. unfold _parallel_crossover_mutation.
  apply (@returns_foldM _ _ _ (fun _ children => Forall P children));
    [constructor|].
  intros _ pair children Hin Hc.
  rewrite Forall_forall in Hp. destruct (Hp _ Hin) as [H1 H2].
  eapply returns_bind; [apply P_crossover; eassumption|].
  intros [c1 c2] [Hc1 Hc2]. simpl in *.
  eapply returns_bind; [apply P_mutate; exact Hc1|]. intros m1 Hm1.
  assert (Forall P (children ++ [m1])) as Hc'.
  { apply Forall_app. split; [exact Hc|]. constructor; [exact Hm1|constructor]. }
  destruct (_ <? _)%nat; [|apply returns_ret; exact Hc'].
  eapply returns_bind; [apply P_mutate; exact Hc2|]. intros m2 Hm2.
  apply returns_ret. apply Forall_app. split; [exact Hc'|].
  constructor; [exact Hm2|constructor].
Qed.

Lemma next_generation_inv population fitnesses :
  Forall P population ->
  returns (next_generation self population fitnesses) (Forall P).
Proof using P_crossover P_mutate.
  intros Hpop. unfold next_generation.
  eapply returns_bind.
  - apply (@returns_foldM _ _ _ (fun _ acc => Forall P acc)); [constructor|].
    intros _ idx acc _ Hacc.
    eapply returns_bind; [apply returns_item|]. intros ind Hin.
    apply returns_ret. apply Forall_app. split; [exact Hacc|].
    constructor; [|constructor]. rewrite Forall_forall in Hpop. auto.
  - intros new_population Hnew.
    eapply returns_bind; [apply select_parents_inv; [exact Hpop|constructor]|].
    intros pairs Hpairs.
    eapply returns_bind; [apply children_inv; exact Hpairs|].
    intros children Hch. apply returns_ret.
    apply Forall_app. split; [exact Hnew|]. apply Forall_slice_to. exact Hch.
Qed.

Lemma generations_inv gens :
  forall population st,
    Forall P population ->
    (forall b, best_overall_timetable st = Some b -> P b) ->
    returns (generations self gens population st)
            (fun out => forall b, fst out = Some b -> P b).
Proof using P_crossover P_mutate.
  induction gens as [|generation0 gens IH]; intros population st Hpop Hst; simpl.
  - apply returns_ret. exact Hst.
  - eapply returns_bind with (P := fun _ => True);
      [intros g a g' _; exact I|]. intros fitnesses _.
    destruct fitnesses as [|f0 fs]; [apply returns_raise|].
    eapply returns_bind with (P := fun _ => True);
      [intros g a g' _; exact I|]. intros best_idx _.
    eapply returns_bind
      with (P := fun st' => forall b, best_overall_timetable st' = Some b -> P b).
    + destruct (negb _).
      * eapply returns_bind; [apply returns_item|]. intros ind Hin.
        apply returns_ret. simpl. intros b E. inversion E; subst.
        rewrite Forall_forall in Hpop. auto.
      * apply returns_ret. exact Hst.
    + intros st' Hst'. destruct (Qle_bool 999 _).
      * apply returns_ret. exact Hst'.
      * eapply returns_bind; [apply next_generation_inv; exact Hpop|].
        intros new_population Hnew. apply IH; assumption.
Qed.

Hypothesis P_create : returns (_create_random_timetable self) P.

Lemma initialize_population_inv :
  returns (_initialize_population_parallel self) (Forall P).
Proof using P_create.
  unfold _initialize_population_parallel.
  apply (@returns_foldM _ _ _ (fun _ population => Forall P population));
    [constructor|].
  intros _ _ population _ Hpop.
  eapply returns_bind; [apply P_create|]. intros individual Hi.
  apply returns_ret. apply Forall_app. split; [exact Hpop|].
  constructor; [exact Hi|constructor].
Qed.

Lemma run_inv :
  returns (run self) (fun out => forall b, fst out = Some b -> P b).
Proof using P_crossover P_mutate P_create.
  unfold run.
  eapply returns_bind; [apply initialize_population_inv|].
  intros population Hpop. apply generations_inv; [exact Hpop|].
  simpl. discriminate.
Qed.

End Invariant.

(** *** Fixed genes *)

Lemma create_keeps_fixed (self : t) (fx : Fixed.t) :
  In fx (fixed_slots self) ->
  returns (_create_random_timetable self) (In (entry_of_fixed fx)).
Proof.
  intros Hin. unfold _create_random_timetable.
  apply (@returns_foldM _ _ _ (fun _ timetable => In (entry_of_fixed fx) timetable)).
  - apply in_map. exact Hin.
  - intros _ req timetable _ Ht.
    eapply returns_bind with (P := fun _ => True);
      [intros g a g' _; exact I|]. intros genes _.
    apply returns_ret. apply in_or_app. left. exact Ht.
Qed.

Lemma crossover_keeps_fixed (self : t) (e : Entry) (p1 p2 : list Entry) :
  is_fixed e = true -> In e p1 -> In e p2 ->
  total (_crossover self p1 p2) (fun c => In e (fst c) /\ In e (snd c)).
Proof.
  intros He H1 H2. eapply total_weaken; [|apply crossover_shape].
  intros [c1 c2] [E|(xs & ys & E1 & E2 & _)]; simpl in *.
  - inversion E; subst. auto.
  - subst c1 c2. assert (In e (fixed_genes p1)) as Hf
      by (apply filter_In; auto).
    split; apply in_or_app; left; exact Hf.
Qed.

Lemma mutate_keeps_fixed (self : t) (e : Entry) (tt : list Entry) :
  is_fixed e = true -> In e tt -> total (_mutate self tt) (In e).
Proof.
  intros He Hin. eapply total_weaken; [|apply mutate_mutation_of].
  intros m (_ & _ & F & _).
  destruct (In_nth_error _ _ Hin) as [i Hi].
  destruct (Forall2_nth_error_l _ F Hi) as (e' & Hi' & Heq).
  rewrite (Heq He) in Hi'. eapply nth_error_In; eauto.
Qed.

(** *** The operators always return *)

Lemma total_item (A : Type) (l : list A) (i : nat) :
  (i < length l)%nat -> total (item l i) (fun x => In x l).
Proof.
  intros H. unfold item. destruct (nth_error l i) eqn:E.
  - apply total_ret. eapply nth_error_In; eauto.
  - apply nth_error_None in E. lia.
Qed.

Lemma qmax_in (x : Q) (xs : list Q) : In (Py.qmax x xs) (x :: xs).
Proof.
  unfold Py.qmax. revert x. induction xs as [|y xs IH]; intros x; simpl.
  - left. reflexivity.
  - specialize (IH (Py.qmax2 x y)). destruct IH as [H|H].
    + rewrite <- H. unfold Py.qmax2. destruct (Qle_bool x y); auto.
    + right. right. exact H.
Qed.

Lemma total_index_of_max (l : list Q) :
  l <> [] -> total (index_of_max l) (fun i => (i < length l)%nat).
Proof.
  intros Hne. destruct l as [|x xs]; [congruence|]. unfold index_of_max.
  destruct (find _ _) as [i|] eqn:E.
  - apply total_ret. apply find_some in E. destruct E as [Hin _].
    apply in_seq in Hin. lia.
  - exfalso. destruct (In_nth _ _ 0%Q (qmax_in x xs)) as (i & Hi & Hn).
    assert (In i (seq 0 (length (x :: xs)))) as Hs by (apply in_seq; lia).
    pose proof (find_none _ _ E i Hs) as Hnone. cbv beta in Hnone.
    rewrite Hn in Hnone.
    assert (Qeq_bool (Py.qmax x xs) (Py.qmax x xs) = true) as R
      by (apply Qeq_bool_iff; reflexivity).
    congruence.
Qed.

Lemma length_slice_to (A : Type) (k : Z) (l : list A) :
  (length (Py.slice_to k l) <= length l)%nat
  /\ ((0 <= k)%Z -> length (Py.slice_to k l) = Nat.min (Z.to_nat k) (length l)).
Proof.
  unfold Py.slice_to. destruct (k <? 0)%Z eqn:E; rewrite length_firstn.
  - split; [lia|]. lia.
  - split; [lia|]. reflexivity.
Qed.

Lemma elite_indices_bound (self : t) (fitnesses : list Q) :
  Forall (fun i => (i < length fitnesses)%nat) (elite_indices self fitnesses)
  /\ (length (elite_indices self fitnesses) <= length fitnesses)%nat.
Proof.
  unfold elite_indices. split.
  - apply Forall_slice_to. apply Forall_forall. intros i Hi.
    apply PyFacts.in_sorted in Hi. apply in_seq in Hi. lia.
  - eapply Nat.le_trans; [apply length_slice_to|].
    rewrite PyFacts.length_sorted, length_seq. lia.
Qed.




(** *** The fitness function *)














(** *** The run always returns *)

Section Totality.

Variable self : t.
Hypothesis population_positive : (1 <= population_size self)%Z.
Hypothesis tournament_fits : (1 <= tournament_size self <= population_size self)%Z.

Lemma tournament_total population fitnesses :
  Z.of_nat (length population) = population_size self ->
  length fitnesses = length population ->
  total (_tournament_selection self population fitnesses) (fun _ => True).
Proof using population_positive tournament_fits.
  intros Hn Hf. unfold _tournament_selection.
  eapply total_bind.
  { apply total_sample. rewrite length_seq. lia. }
  intros indices [Hl Hin].
  assert (Forall (fun i => (i < length population)%nat) indices) as Hb.
  { eapply Forall_impl; [|exact Hin]. intros i Hi. apply in_seq in Hi. lia. }
  eapply total_bind.
  { apply (@total_foldM _ _ _ (fun done (acc : list Q) => length acc = length done));
      [reflexivity|].
    intros done i acc Hi Ha. rewrite Forall_forall in Hb.
    eapply total_bind; [apply total_item; rewrite Hf; auto|].
    intros f _. apply total_ret. rewrite !length_app, Ha. reflexivity. }
  intros fits Hfl. cbv beta in Hfl.
  eapply total_bind.
  { apply total_index_of_max. destruct fits; [simpl in Hfl; lia|discriminate]. }
  intros k Hk. cbv beta in Hk.
  eapply total_bind; [apply total_item; lia|].
  intros w Hw. rewrite Forall_forall in Hb.
  eapply total_weaken; [|apply total_item; auto]. auto.
Qed.

Lemma select_parents_total fuel population fitnesses n_new :
  Z.of_nat (length population) = population_size self ->
  length fitnesses = length population ->
  forall pairs,
    total (select_parents self fuel population fitnesses n_new pairs)
          (fun res =>
             (population_size self
              <= Z.of_nat n_new + Z.of_nat (length pairs) * 2 + Z.of_nat fuel * 2)%Z ->
             (population_size self <= Z.of_nat n_new + Z.of_nat (length res) * 2)%Z).
Proof using population_positive tournament_fits.
  intros Hn Hf. induction fuel as [|fuel IH]; intros pairs; simpl.
  - destruct (_ <? _)%Z eqn:E; apply total_ret; lia.
  - destruct (_ <? _)%Z eqn:E; [|apply total_ret; lia].
    eapply total_bind; [apply tournament_total; assumption|]. intros p1 _.
    eapply total_bind; [apply tournament_total; assumption|]. intros p2 _.
    eapply total_weaken; [|apply IH]. cbv beta.
    intros res H Hpre. apply H. rewrite length_app. simpl. lia.
Qed.

Lemma children_total parents :
  total (_parallel_crossover_mutation self parents)
        (fun children => length children = (2 * length parents)%nat).
Proof using Type.
  unfold _parallel_crossover_mutation.
  apply (@total_foldM_split _ _ _
           (fun done (children : list (list Entry)) =>
              length children = (2 * length done)%nat)); [reflexivity|].
  intros done pair rest children El Hc.
  eapply total_bind; [apply crossover_shape|]. intros [c1 c2] _.
  eapply total_bind; [apply mutate_mutation_of|]. intros m1 _.
  assert ((length (children ++ [m1]) <? length parents * 2)%nat = true) as Hlt.
  { apply Nat.ltb_lt. rewrite El, !length_app. simpl. lia. }
  rewrite Hlt.
  eapply total_bind; [apply mutate_mutation_of|]. intros m2 _.
  apply total_ret. rewrite !length_app. simpl. lia.
Qed.

Lemma next_generation_total population fitnesses :
  Z.of_nat (length population) = population_size self ->
  length fitnesses = length population ->
  total (next_generation self population fitnesses)
        (fun new_population =>
           Z.of_nat (length new_population) = population_size self).
Proof using population_positive tournament_fits.
  intros Hn Hf. unfold next_generation.
  destruct (elite_indices_bound self fitnesses) as [Hb Hl].
  eapply total_bind.
  { apply (@total_foldM _ _ _
             (fun done (acc : list (list Entry)) => length acc = length done));
      [reflexivity|].
    intros done idx acc Hin Ha. rewrite Forall_forall in Hb.
    eapply total_bind; [apply total_item; rewrite <- Hf; auto|].
    intros ind _. apply total_ret. rewrite !length_app, Ha. reflexivity. }
  intros new_population Hnew. cbv beta in Hnew.
  eapply total_bind; [apply select_parents_total; assumption|].
  intros pairs Hp. cbv beta in Hp.
  eapply total_bind; [apply children_total|].
  intros children Hc. cbv beta in Hc.
  apply total_ret. rewrite length_app.
  destruct (length_slice_to
              (population_size self - Z.of_nat (length new_population)) children)
    as [_ Hs].
  rewrite Hs by lia. simpl in Hp. lia.
Qed.

Hypothesis weights_nonneg :
  Forall (fun kv => 0 <= weight (snd kv))%Q (constraints self).



Hypothesis calendar_days : working_days self <> [].
Hypothesis calendar_periods : time_slots self <> [].
Hypothesis some_classroom : classrooms self <> [].
Hypothesis generations_positive : (1 <= max_generations self)%Z.


End Totality.

(** *** Parents that agree, placements that agree *)











(** *** Lab blocks *)


End GAFacts.

Module InvarianceFacts.
Import GeneticAlgorithmCPUOptimized GASpec RandomSpec RandomFacts GAFacts.

(** C1.  Every fixed slot the solver loaded appears, as the entry built
    from it with [is_fixed] set, in the schedule the CSP returns; in every
    individual [_create_random_timetable] returns, hence in every individual
    of the initial population; in both children of crossover and in the
    result of mutation whenever the individuals they start from contain it;
    in every individual of the next generation whenever the current ones
    contain it; and in the best individual [run] returns. *)
Theorem fixed_slot_invariance
    (csp : TimetableCSP.t) (ga : t) (fx : Fixed.t) :
  In fx (TimetableCSP.fixed_slots csp) ->
  In fx (fixed_slots ga) ->
  (forall sol hist, TimetableCSP.run csp = Ok (sol, hist) ->
                    In (entry_of_fixed fx) sol)
  /\ returns (_create_random_timetable ga) (In (entry_of_fixed fx))
  /\ returns (_initialize_population_parallel ga)
             (Forall (In (entry_of_fixed fx)))
  /\ (forall p1 p2,
        In (entry_of_fixed fx) p1 -> In (entry_of_fixed fx) p2 ->
        total (_crossover ga p1 p2)
              (fun c => In (entry_of_fixed fx) (fst c)
                        /\ In (entry_of_fixed fx) (snd c)))
  /\ (forall tt,
        In (entry_of_fixed fx) tt ->
        total (_mutate ga tt) (In (entry_of_fixed fx)))
  /\ (forall population fitnesses,
        Forall (In (entry_of_fixed fx)) population ->
        returns (next_generation ga population fitnesses)
                (Forall (In (entry_of_fixed fx))))
  /\ returns (run ga)
             (fun out => forall best, fst out = Some best ->
                                      In (entry_of_fixed fx) best).
Proof.
  intros Hcsp Hga.
  assert (forall p1 p2,
             In (entry_of_fixed fx) p1 -> In (entry_of_fixed fx) p2 ->
             returns (_crossover ga p1 p2)
                     (fun c => In (entry_of_fixed fx) (fst c)
                               /\ In (entry_of_fixed fx) (snd c))) as Hc.
  { intros p1 p2 H1 H2. apply total_returns.
    apply crossover_keeps_fixed; auto. }
  assert (forall tt, In (entry_of_fixed fx) tt ->
                     returns (_mutate ga tt) (In (entry_of_fixed fx))) as Hm.
  { intros tt H. apply total_returns. apply mutate_keeps_fixed; auto. }
  pose proof (create_keeps_fixed ga fx Hga) as Hi.
  repeat split.
  - intros sol hist Hrun. eapply CSPFacts.run_keeps_fixed; eauto.
  - exact Hi.
  - apply initialize_population_inv. exact Hi.
  - intros p1 p2 H1 H2. apply crossover_keeps_fixed; auto.
  - intros tt H. apply mutate_keeps_fixed; auto.
  - intros population fitnesses Hpop. apply next_generation_inv; auto.
  - apply run_inv; auto.
Qed.

Lemma fixed_slot_invariance_witness :
  In pinned_slot
     (TimetableCSP.fixed_slots (CSPSpec.built CSPSpec.db_all_off [1%Z]))
  /\ In pinned_slot (fixed_slots (built CSPSpec.db_all_off [1%Z] default_params))
  /\ ((forall sol hist,
         TimetableCSP.run (CSPSpec.built CSPSpec.db_all_off [1%Z]) = Ok (sol, hist) ->
         In (entry_of_fixed pinned_slot) sol)
      /\ returns (_create_random_timetable
                    (built CSPSpec.db_all_off [1%Z] default_params))
                 (In (entry_of_fixed pinned_slot))
      /\ returns (_initialize_population_parallel
                    (built CSPSpec.db_all_off [1%Z] default_params))
                 (Forall (In (entry_of_fixed pinned_slot)))
      /\ (forall p1 p2,
            In (entry_of_fixed pinned_slot) p1 ->
            In (entry_of_fixed pinned_slot) p2 ->
            total (_crossover (built CSPSpec.db_all_off [1%Z] default_params) p1 p2)
                  (fun c => In (entry_of_fixed pinned_slot) (fst c)
                            /\ In (entry_of_fixed pinned_slot) (snd c)))
      /\ (forall tt,
            In (entry_of_fixed pinned_slot) tt ->
            total (_mutate (built CSPSpec.db_all_off [1%Z] default_params) tt)
                  (In (entry_of_fixed pinned_slot)))
      /\ (forall population fitnesses,
            Forall (In (entry_of_fixed pinned_slot)) population ->
            returns (next_generation
                       (built CSPSpec.db_all_off [1%Z] default_params)
                       population fitnesses)
                    (Forall (In (entry_of_fixed pinned_slot))))
      /\ returns (run (built CSPSpec.db_all_off [1%Z] default_params))
                 (fun out => forall best, fst out = Some best ->
                                          In (entry_of_fixed pinned_slot) best)).
Proof.
  split; [left; reflexivity|]. split; [left; reflexivity|].
  apply (@fixed_slot_invariance
           (CSPSpec.built CSPSpec.db_all_off [1%Z])
           (built CSPSpec.db_all_off [1%Z] default_params)
           pinned_slot); left; reflexivity.
Defined.

End InvarianceFacts.

Module ExpansionFacts.
Import CSPSpec GASpec.

(** C6 (the code departs from the claim).  On [db_zero_hours] the
    requirement expansion of both solvers is empty.  The constructor of the
    GA raises its [ValueError]; the constructor of the CSP accepts the
    catalogue with an empty [assignments], and [run] returns an empty
    schedule instead of failing. *)
Theorem csp_runs_on_empty_requirements :
  GeneticAlgorithmCPUOptimized.init db_zero_hours [1%Z] true default_params
    = Raise (ValueError "No slot requirements generated.")
  /\ TimetableCSP.init db_zero_hours [1%Z] true 10000 false
     = Ok (CSPSpec.built db_zero_hours [1%Z])
  /\ TimetableCSP.assignments (CSPSpec.built db_zero_hours [1%Z]) = []
  /\ TimetableCSP.run (CSPSpec.built db_zero_hours [1%Z])
     = Ok ([], [ {| TimetableCSP.iteration := 0; TimetableCSP.conflicts := 0;
                    TimetableCSP.method :=
                      "Enhanced CSP with Soft Subject Distribution" |} ]).
Proof. repeat split; reflexivity. Qed.

End ExpansionFacts.

(* ================================================================== *)
(** * Further properties of the CSP solver *)
(* ================================================================== *)

Module CSPLaws.
Import TimetableCSP CSPSpec CSPTerms.

(** ** Lists and dictionaries *)

Lemma mem_nat_iff (i : nat) (l : list nat) : Py.mem i l = true <-> In i l.
Proof.
  unfold Py.mem. rewrite existsb_exists. split.
  - intros (y & Hy & E). apply Nat.eqb_eq in E. subst. exact Hy.
  - intros H. exists i. split; [exact H|apply Nat.eqb_refl].
Qed.

Lemma index_string_spec (x : string) (l : list string) (i : nat) :
  Py.index x l = Some i ->
  nth_error l i = Some x /\ (i < length l)%nat
  /\ forall j, (j < i)%nat -> nth_error l j <> Some x.
Proof.
  revert i. induction l as [|y l IH]; intros i; simpl; [discriminate|].
  change (eqb y x) with (String.eqb y x).
  destruct (String.eqb_spec y x) as [->|Hne].
  - intros E; inversion E; subst. simpl. repeat split; [lia|]. intros j Hj; lia.
  - destruct (Py.index x l) as [k|]; [|discriminate]. simpl.
    intros E; inversion E; subst. destruct (IH k eq_refl) as (Hn & Hl & Hf).
    simpl. repeat split; [exact Hn|lia|].
    intros [|j] Hj; simpl; [congruence|apply Hf; lia].
Qed.

Lemma index_string_none (x : string) (l : list string) :
  Py.index x l = None <-> ~ In x l.
Proof.
  induction l as [|y l IH]; simpl; [tauto|].
  change (eqb y x) with (String.eqb y x).
  destruct (String.eqb_spec y x) as [->|Hne].
  - split; [discriminate|]. intros H. exfalso. apply H. left. reflexivity.
  - destruct (Py.index x l) as [k|] eqn:E; simpl.
    + split; [discriminate|]. intros H. exfalso.
      destruct IH as [_ IH']. assert (~ In x l) as N by tauto.
      specialize (IH' N). discriminate.
    + split; [|reflexivity]. intros _ [H|H]; [congruence|].
      destruct IH as [IH' _]. apply (IH' eq_refl). exact H.
Qed.

(** ** The three divisions of the day *)

Lemma define_day_slots_division (self : t) (label : string) :
  _get_time_slot_division (_define_day_slots self) label
  = match Py.index label (time_slots self) with
    | Some i => division_of_index (length (time_slots self)) i
    | None => "unknown"
    end.
Proof.
  unfold _get_time_slot_division, _define_day_slots, set_slot_divisions.
  cbn [slot_divisions time_slots].
  destruct (Py.index label (time_slots self)) as [i|] eqn:Ei; [|reflexivity].
  destruct (index_string_spec _ _ Ei) as (_ & Hlt & _).
  set (n := length (time_slots self)) in *.
  unfold division_of_index, range2. cbn [find snd].
  assert (n / 3 <= n * 2 / 3)%nat as H1
    by (apply Nat.Div0.div_le_mono; lia).
  assert (n * 2 / 3 <= n)%nat as H2
    by (apply Nat.Div0.div_le_upper_bound; lia).
  destruct (Nat.ltb_spec i (n / 3)) as [Ha|Ha].
  - assert (Py.mem i (seq 0 (n / 3 - 0)) = true) as ->
      by (apply mem_nat_iff, in_seq; lia).
    reflexivity.
  - assert (Py.mem i (seq 0 (n / 3 - 0)) = false) as ->.
    { destruct (Py.mem i (seq 0 (n / 3 - 0))) eqn:E; [|reflexivity].
      apply mem_nat_iff, in_seq in E. lia. }
    destruct (Nat.ltb_spec i (n * 2 / 3)) as [Hb|Hb].
    + assert (Py.mem i (seq (n / 3) (n * 2 / 3 - n / 3)) = true) as ->
        by (apply mem_nat_iff, in_seq; lia).
      reflexivity.
    + assert (Py.mem i (seq (n / 3) (n * 2 / 3 - n / 3)) = false) as ->.
      { destruct (Py.mem i (seq (n / 3) (n * 2 / 3 - n / 3))) eqn:E; [|reflexivity].
        apply mem_nat_iff, in_seq in E. lia. }
      assert (Py.mem i (seq (n * 2 / 3) (n - n * 2 / 3)) = true) as ->
        by (apply mem_nat_iff, in_seq; lia).
      reflexivity.
Qed.

(** X1.  In a solver built from a catalogue, the division of a period
    label is decided by the position [i] of its first occurrence in the
    calendar of [n] periods: morning for [i < n / 3], noon for
    [n / 3 <= i < 2 n / 3], late noon after that; a label that is not in the
    calendar is in division ['unknown'].  So every period of the calendar
    lies in exactly one division, and a day of one or two periods has no
    morning. *)
Theorem division_by_period_index
    (db : Database) (selected : list Z) (use_fixed : bool) (max_iter : Z)
    (min_conflicts : bool) (self : t) (label : string) :
  init db selected use_fixed max_iter min_conflicts = Ok self ->
  _get_time_slot_division self label
  = match Py.index label (time_slots self) with
    | Some i => division_of_index (length (time_slots self)) i
    | None => "unknown"
    end.
Proof.
  intros Hinit. unfold init in Hinit.
  destruct (_load_data db selected use_fixed max_iter min_conflicts) as [s0|];
    [|discriminate].
  inversion Hinit; subst self.
  exact (define_day_slots_division s0 label).
Qed.

Lemma division_by_period_index_witness :
  init db_three_hours [1%Z] true 10000 false = Ok (built db_three_hours [1%Z])
  /\ _get_time_slot_division (built db_three_hours [1%Z]) "P3"
     = match Py.index "P3" (time_slots (built db_three_hours [1%Z])) with
       | Some i =>
         division_of_index (length (time_slots (built db_three_hours [1%Z]))) i
       | None => "unknown"
       end.
Proof.
  split; [reflexivity|].
  apply (@division_by_period_index db_three_hours [1%Z] true 10000%Z false
           (built db_three_hours [1%Z]) "P3"); reflexivity.
Defined.

(** ** The slots of the calendar *)

Lemma insert_by_permutation (A : Type) (leb : A -> A -> bool) (x : A) (l : list A) :
  Permutation (Py.insert_by leb x l) (x :: l).
Proof.
  induction l as [|y l IH]; simpl; [apply Permutation_refl|].
  destruct (leb x y); [apply Permutation_refl|].
  apply Permutation_trans with (y :: x :: l); [|apply perm_swap].
  constructor. exact IH.
Qed.

Lemma sorted_permutation (A : Type) (leb : A -> A -> bool) (l : list A) :
  Permutation (Py.sorted leb l) l.
Proof.
  induction l as [|x l IH]; simpl; [constructor|].
  eapply Permutation_trans; [apply insert_by_permutation|].
  constructor. exact IH.
Qed.

(** Sorting a list that is already in order changes nothing. *)
Lemma sorted_of_sorted (A : Type) (leb : A -> A -> bool) (l : list A) :
  StronglySorted (fun a b => leb a b = true) l -> Py.sorted leb l = l.
Proof.
  induction 1 as [|x l Hs IH Hx]; simpl; [reflexivity|].
  rewrite IH. destruct l as [|y l]; [reflexivity|]. simpl.
  inversion Hx as [|? ? Hxy _]; subst. rewrite Hxy. reflexivity.
Qed.

Lemma flat_map_list_prod (A B : Type) (l : list A) (l' : list B) :
  flat_map (fun a => map (fun b => (a, b)) l') l = list_prod l l'.
Proof.
  induction l as [|a l IH]; simpl; [reflexivity|]. rewrite IH. reflexivity.
Qed.

Lemma get_set_string (V : Type) (d : Py.dict string V) (k k' : string) (v : V) :
  Py.get (Py.set d k v) k' = if String.eqb k k' then Some v else Py.get d k'.
Proof.
  induction d as [|[k0 v0] d IH]; simpl.
  - change (eqb k k') with (String.eqb k k'). reflexivity.
  - change (eqb k0 k) with (String.eqb k0 k).
    destruct (String.eqb_spec k0 k) as [->|Hne]; simpl.
    + change (eqb k k') with (String.eqb k k').
      destruct (String.eqb k k'); reflexivity.
    + change (eqb k0 k') with (String.eqb k0 k').
      destruct (String.eqb_spec k0 k') as [->|Hne'].
      * destruct (String.eqb_spec k k'); [congruence|reflexivity].
      * exact IH.
Qed.

(** The dictionary [{label: idx for idx, label in enumerate(l)}] of a list
    without repetition maps each label to its position. *)
Lemma enumerate_lookup (l : list string) :
  NoDup l ->
  forall (acc : Py.dict string nat) (a : nat) (x : string),
    (forall y, In y l -> Py.get acc y = None) ->
    Py.get (fold_left (fun d p => Py.set d (snd p) (fst p))
                      (combine (seq a (length l)) l) acc) x
    = match Py.get acc x with
      | Some v => Some v
      | None => option_map (Nat.add a) (Py.index x l)
      end.
Proof.
  induction 1 as [|y l Hy Hnd IH]; intros acc a x Hacc; simpl.
  - destruct (Py.get acc x); reflexivity.
  - rewrite IH.
    + rewrite get_set_string. change (eqb y x) with (String.eqb y x).
      destruct (String.eqb_spec y x) as [->|Hne].
      * rewrite (Hacc x) by (left; reflexivity). simpl. f_equal. lia.
      * destruct (Py.get acc x); [reflexivity|].
        destruct (Py.index x l); simpl; [f_equal; lia|reflexivity].
    + intros z Hz. rewrite get_set_string.
      destruct (String.eqb_spec y z) as [->|Hne]; [contradiction|].
      apply Hacc. right. exact Hz.
Qed.

Lemma index_nodup_positions (l : list string) :
  NoDup l ->
  forall pre x post, l = pre ++ x :: post -> Py.index x l = Some (length pre).
Proof.
  intros Hnd pre. revert l Hnd. induction pre as [|y pre IH]; intros l Hnd x post ->; simpl.
  - change (eqb x x) with (String.eqb x x). rewrite String.eqb_refl. reflexivity.
  - change (eqb y x) with (String.eqb y x).
    inversion Hnd as [|? ? Hy Hnd']; subst.
    destruct (String.eqb_spec y x) as [->|Hne].
    + exfalso. apply Hy. apply in_or_app. right. left. reflexivity.
    + rewrite (IH _ Hnd' x post eq_refl). reflexivity.
Qed.

Lemma map_index_nodup (l : list string) :
  NoDup l ->
  forall pre post, l = pre ++ post ->
    map (fun x => match Py.index x l with Some i => i | None => 999%nat end) post
    = seq (length pre) (length post).
Proof.
  intros Hnd pre post. revert pre. induction post as [|x post IH]; intros pre E;
    simpl; [reflexivity|].
  rewrite (index_nodup_positions Hnd pre x post E). f_equal.
  specialize (IH (pre ++ [x])). rewrite length_app in IH. simpl in IH.
  replace (length pre + 1)%nat with (S (length pre)) in IH by lia.
  apply IH. rewrite <- app_assoc. exact E.
Qed.

Lemma list_prod_map (A B C D : Type) (f : A -> C) (g : B -> D)
    (l : list A) (l' : list B) :
  map (fun p => (f (fst p), g (snd p))) (list_prod l l')
  = list_prod (map f l) (map g l').
Proof.
  induction l as [|a l IH]; simpl; [reflexivity|].
  rewrite map_app, IH, !map_map. reflexivity.
Qed.

Lemma list_prod_seq_sorted (a n m : nat) :
  StronglySorted (fun x y => Py.nat_pair_leb x y = true)
                 (list_prod (seq a n) (seq 0 m)).
Proof.
  revert a. induction n as [|n IH]; intros a; simpl; [constructor|].
  assert (forall b k,
             StronglySorted (fun x y => Py.nat_pair_leb x y = true)
               (map (fun y => (a, y)) (seq b k) ++ list_prod (seq (S a) n) (seq 0 m)))
    as G.
  { intros b k. revert b. induction k as [|k IHk]; intros b; simpl; [apply IH|].
    constructor; [apply IHk|].
    apply Forall_forall. intros [c d] Hin. apply in_app_or in Hin.
    unfold Py.nat_pair_leb, Py.lex_leb. simpl. destruct Hin as [Hin|Hin].
    - apply in_map_iff in Hin. destruct Hin as (y & E & Hy). inversion E; subst.
      apply in_seq in Hy. rewrite Nat.eqb_refl. simpl.
      destruct (Nat.ltb c c); simpl; [reflexivity|]. apply Nat.leb_le. lia.
    - apply in_prod_iff in Hin. destruct Hin as [Hc _]. apply in_seq in Hc.
      assert ((a <? c)%nat = true) as -> by (apply Nat.ltb_lt; lia). reflexivity. }
  apply G.
Qed.

Lemma StronglySorted_map (A B : Type) (R : B -> B -> Prop) (f : A -> B)
    (l : list A) :
  StronglySorted R (map f l) -> StronglySorted (fun x y => R (f x) (f y)) l.
Proof.
  induction l as [|x l IH]; simpl; intros H; [constructor|].
  inversion H as [|? ? Hs Hf]; subst. constructor; [apply IH; exact Hs|].
  rewrite Forall_map in Hf. exact Hf.
Qed.

Lemma prepare_slots_identity (self : t) :
  NoDup (working_days self) -> NoDup (time_slots self) ->
  slots (_prepare_slots self) = list_prod (working_days self) (time_slots self).
Proof.
  intros Hd Ht. unfold _prepare_slots. cbn [slots set_slots].
  rewrite flat_map_list_prod. apply sorted_of_sorted.
  apply (@StronglySorted_map _ _ (fun x y => Py.nat_pair_leb x y = true)
           (slot_key self)).
  assert (forall x, slot_key self x
                    = (match Py.index (fst x) (working_days self) with
                       | Some i => i | None => 999%nat end,
                       match Py.index (snd x) (time_slots self) with
                       | Some i => i | None => 999%nat end)) as Hk.
  { intros x. unfold slot_key. f_equal. unfold Py.comprehension.
    rewrite (enumerate_lookup Hd) by (intros; reflexivity). simpl.
    destruct (Py.index (fst x) (working_days self)); reflexivity. }
  rewrite (map_ext _ _ Hk).
  rewrite (list_prod_map
             (fun d => match Py.index d (working_days self) with
                       | Some i => i | None => 999%nat end)
             (fun t => match Py.index t (time_slots self) with
                       | Some i => i | None => 999%nat end)).
  rewrite (map_index_nodup Hd [] (working_days self) eq_refl).
  rewrite (map_index_nodup Ht [] (time_slots self) eq_refl).
  apply list_prod_seq_sorted.
Qed.

(** X2.  The slots of a solver built from a catalogue are the (day, period)
    pairs of the calendar, each as often as the calendar lists it: none is
    lost and none is invented; and when no day and no period label is
    repeated they are exactly the pairs in calendar order, days first. *)
Theorem slots_cover_calendar
    (db : Database) (selected : list Z) (use_fixed : bool) (max_iter : Z)
    (min_conflicts : bool) (self : t) :
  init db selected use_fixed max_iter min_conflicts = Ok self ->
  Permutation (slots self) (list_prod (working_days self) (time_slots self))
  /\ length (slots self)
     = (length (working_days self) * length (time_slots self))%nat
  /\ (NoDup (working_days self) -> NoDup (time_slots self) ->
      slots self = list_prod (working_days self) (time_slots self)).
Proof.
  intros Hinit. unfold init in Hinit.
  destruct (_load_data db selected use_fixed max_iter min_conflicts) as [s0|];
    [|discriminate].
  inversion Hinit; subst self. clear Hinit.
  assert (Permutation
            (slots (_prepare_assignments (_prepare_slots (_define_day_slots s0))))
            (list_prod (working_days s0) (time_slots s0))) as HP.
  { cbn [slots _prepare_assignments set_assignments _prepare_slots set_slots].
    eapply Permutation_trans; [apply sorted_permutation|].
    rewrite flat_map_list_prod. apply Permutation_refl. }
  split; [exact HP|]. split.
  - rewrite (Permutation_length HP). apply length_prod.
  - intros Hd Ht. exact (prepare_slots_identity (_define_day_slots s0) Hd Ht).
Qed.

Lemma slots_cover_calendar_witness :
  init db_three_hours [1%Z] true 10000 false = Ok (built db_three_hours [1%Z])
  /\ (Permutation (slots (built db_three_hours [1%Z]))
                  (list_prod (working_days (built db_three_hours [1%Z]))
                             (time_slots (built db_three_hours [1%Z])))
      /\ length (slots (built db_three_hours [1%Z]))
         = (length (working_days (built db_three_hours [1%Z]))
            * length (time_slots (built db_three_hours [1%Z])))%nat
      /\ (NoDup (working_days (built db_three_hours [1%Z])) ->
          NoDup (time_slots (built db_three_hours [1%Z])) ->
          slots (built db_three_hours [1%Z])
          = list_prod (working_days (built db_three_hours [1%Z]))
                      (time_slots (built db_three_hours [1%Z])))).
Proof.
  split; [reflexivity|].
  apply (@slots_cover_calendar db_three_hours [1%Z] true 10000%Z false
           (built db_three_hours [1%Z])); reflexivity.
Defined.

(** ** No double booking *)

Lemma mem_slot_iff (x : string * string) (l : list (string * string)) :
  Py.mem x l = true <-> In x l.
Proof.
  unfold Py.mem. rewrite existsb_exists. split.
  - intros ([d t] & Hin & E). unfold eqb, Eqb_pair in E. simpl in E.
    apply andb_true_iff in E. destruct E as [E1 E2].
    apply String.eqb_eq in E1, E2. destruct x as [d' t']. simpl in *.
    subst. exact Hin.
  - intros Hin. exists x. split; [exact Hin|].
    unfold eqb, Eqb_pair. apply andb_true_iff.
    split; apply String.eqb_eq; reflexivity.
Qed.

Lemma overlap_reason_none self a room occ sol :
  overlap_reason self a room occ sol = None ->
  forall e, In e sol -> In (day e, time_slot e) occ ->
    (config_enabled self "no_faculty_conflict" = true ->
     Asg.faculty_id a <> faculty_id e)
    /\ (config_enabled self "no_batch_conflict" = true ->
        Asg.batch_id a <> batch_id e)
    /\ (config_enabled self "no_room_conflict" = true -> room <> room_id e).
Proof.
  induction sol as [|e0 sol IH]; simpl; intros Hnone e Hin Hocc; [contradiction|].
  destruct (Py.mem (day e0, time_slot e0) occ) eqn:Em.
  - destruct (config_enabled self "no_faculty_conflict"
              && Z.eqb (Asg.faculty_id a) (faculty_id e0)) eqn:Ef; [discriminate|].
    destruct (config_enabled self "no_batch_conflict"
              && Z.eqb (Asg.batch_id a) (batch_id e0)) eqn:Eb; [discriminate|].
    destruct (config_enabled self "no_room_conflict"
              && Z.eqb room (room_id e0)) eqn:Er; [discriminate|].
    destruct Hin as [<-|Hin]; [|exact (IH Hnone e Hin Hocc)].
    apply andb_false_iff in Ef, Eb, Er.
    repeat split; intros Hflag Heq.
    + destruct Ef as [Ef|Ef]; [congruence|]. apply Z.eqb_neq in Ef. contradiction.
    + destruct Eb as [Eb|Eb]; [congruence|]. apply Z.eqb_neq in Eb. contradiction.
    + destruct Er as [Er|Er]; [congruence|]. apply Z.eqb_neq in Er. contradiction.
  - destruct Hin as [<-|Hin]; [|exact (IH Hnone e Hin Hocc)].
    apply mem_slot_iff in Hocc. congruence.
Qed.

Lemma ForallOrdPairs_app (A : Type) (R : A -> A -> Prop) (l1 l2 : list A) :
  ForallOrdPairs R l1 -> ForallOrdPairs R l2 ->
  (forall x y, In x l1 -> In y l2 -> R x y) ->
  ForallOrdPairs R (l1 ++ l2).
Proof.
  induction 1 as [|x l1 Hx H1 IH]; intros H2 Hc; simpl; [exact H2|].
  constructor.
  - apply Forall_app. split; [exact Hx|].
    apply Forall_forall. intros y Hy. apply Hc; [left; reflexivity|exact Hy].
  - apply IH; [exact H2|]. intros a b Ha Hb. apply Hc; [right; exact Ha|exact Hb].
Qed.

Lemma NoDup_firstn (A : Type) (n : nat) (l : list A) :
  NoDup l -> NoDup (firstn n l).
Proof.
  intros H. revert n. induction H as [|x l Hx H IH]; intros [|n]; simpl;
    try constructor.
  - intros Hin. apply Hx. rewrite <- (firstn_skipn n l).
    apply in_or_app. left. exact Hin.
  - apply IH.
Qed.

Lemma NoDup_skipn (A : Type) (n : nat) (l : list A) :
  NoDup l -> NoDup (skipn n l).
Proof.
  intros H. revert n. induction H as [|x l Hx H IH]; intros [|n]; simpl;
    try constructor; auto.
Qed.

(** What a candidate that passes the hard check will occupy, and that it
    overlaps nothing already placed. *)
Lemma hard_reason_block self size a slot (room : Room) sol :
  NoDup (time_slots self) ->
  hard_reason self size a slot (r_id room) sol = None ->
  exists occ,
    _assign_slot self a slot room = map (assigned_entry a room) occ
    /\ occ <> []
    /\ NoDup (map snd occ)
    /\ overlap_reason self a (r_id room) occ sol = None
    /\ capacity_reason self (r_id room) size = None.
Proof.
  intros Hnd. unfold hard_reason, _assign_slot.
  destruct (Z.eqb (Asg.duration a) 1).
  - destruct (overlap_reason self a (r_id room) [slot] sol) eqn:Eo; [discriminate|].
    destruct (capacity_reason self (r_id room) size) eqn:Ec; [discriminate|].
    intros _. exists [slot]. repeat split; try assumption; try discriminate.
    simpl. constructor; [intros []|constructor].
  - destruct (_find_consecutive_slots self (fst slot) (snd slot) (Asg.duration a))
      as [|o occ] eqn:Ef; [discriminate|].
    destruct (overlap_reason self a (r_id room) (o :: occ) sol) eqn:Eo;
      [discriminate|].
    destruct (capacity_reason self (r_id room) size) eqn:Ec; [discriminate|].
    intros _. exists (o :: occ). repeat split; try assumption; try discriminate.
    assert (_find_consecutive_slots self (fst slot) (snd slot) (Asg.duration a)
            <> []) as Hne by (rewrite Ef; discriminate).
    destruct (CSPFacts.find_consecutive_slots_spec _ _ _ _ Hne)
      as (_ & _ & k & _ & Hmap).
    rewrite Ef in Hmap. rewrite Hmap.
    apply NoDup_firstn, NoDup_skipn. exact Hnd.
Qed.

Lemma block_clash_free self a (room : Room) occ :
  NoDup (map snd occ) -> clash_free self (map (assigned_entry a room) occ).
Proof.
  unfold clash_free. induction occ as [|o occ IH]; simpl; intros Hnd;
    [constructor|].
  inversion Hnd as [|? ? Ho Hnd']; subst. constructor; [|apply IH; exact Hnd'].
  apply Forall_forall. intros e He (_ & Ht & _).
  apply in_map_iff in He. destruct He as (o' & <- & Ho').
  simpl in Ht. apply Ho. rewrite Ht. apply in_map. exact Ho'.
Qed.

Lemma solve_step_clash_free self a sol new :
  NoDup (time_slots self) ->
  clash_free self sol ->
  solve_step self a sol = Ok (Some new) ->
  clash_free self (sol ++ new).
Proof.
  intros Hnd Hsol Hstep.
  destruct (CSPFacts.solve_step_assigned _ _ _ Hstep)
    as (slot & room & b & _ & _ & Hhard & ->).
  destruct (@hard_reason_block _ _ _ _ _ _ Hnd Hhard)
    as (occ & -> & _ & Hocc & Hover & _).
  apply ForallOrdPairs_app; [exact Hsol|apply block_clash_free; exact Hocc|].
  intros x y Hx Hy (Hd & Ht & Hc).
  apply in_map_iff in Hy. destruct Hy as (o & <- & Ho). simpl in Hd, Ht, Hc.
  assert (In (day x, time_slot x) occ) as Hin
    by (rewrite Hd, Ht; destruct o; exact Ho).
  destruct (@overlap_reason_none _ _ _ _ _ Hover x Hx Hin) as (Hf & Hb & Hr).
  destruct Hc as [[F E]|[[F E]|[F E]]]; [apply (Hf F)|apply (Hb F)|apply (Hr F)];
    symmetry; exact E.
Qed.

Lemma solve_from_clash_free self todo :
  NoDup (time_slots self) ->
  forall s sol,
    clash_free self s -> solve_from self todo s = Ok (Some sol) ->
    clash_free self sol.
Proof.
  intros Hnd. induction todo as [|a todo IH]; intros s sol Hs; simpl.
  - intros E; inversion E; subst; exact Hs.
  - destruct (solve_step self a s) as [[new|]|] eqn:Estep; try discriminate.
    apply IH. exact (@solve_step_clash_free _ _ _ _ Hnd Hs Estep).
Qed.

(** X3.  When the period labels are distinct and the fixed slots do not
    double book one another, the schedule [run] returns has no double
    booking: no two of its entries share a day and period together with a
    faculty member, a batch or a room whose conflict rule is enabled. *)
Theorem run_no_double_booking
    (self : t) (sol : list Entry) (hist : list History) :
  NoDup (time_slots self) ->
  clash_free self (_apply_fixed_slots self) ->
  run self = Ok (sol, hist) ->
  clash_free self sol.
Proof.
  intros Hnd Hfixed Hrun. unfold run, _smart_solve in Hrun.
  destruct (solve_from self (assignments self) (_apply_fixed_slots self))
    as [[sol'|]|] eqn:E; try discriminate.
  inversion Hrun; subst sol'.
  exact (@solve_from_clash_free _ _ Hnd _ _ Hfixed E).
Qed.

Lemma run_no_double_booking_witness :
  NoDup (time_slots two_batches)
  /\ clash_free two_batches (_apply_fixed_slots two_batches)
  /\ run two_batches = Ok (two_batches_schedule, csp_history)
  /\ clash_free two_batches two_batches_schedule.
Proof.
  assert (NoDup (time_slots two_batches)) as Hnd.
  { change (time_slots two_batches) with ["P1"; "P2"; "P3"; "P4"].
    repeat constructor; simpl; intuition discriminate. }
  assert (clash_free two_batches (_apply_fixed_slots two_batches)) as Hfx.
  { unfold clash_free. constructor; [constructor|constructor]. }
  assert (run two_batches = Ok (two_batches_schedule, csp_history)) as Hrun
    by (vm_compute; reflexivity).
  split; [exact Hnd|]. split; [exact Hfx|]. split; [exact Hrun|].
  exact (@run_no_double_booking two_batches two_batches_schedule csp_history
           Hnd Hfx Hrun).
Defined.

(** ** What the solver places *)

Lemma solve_step_chosen self a sol new :
  solve_step self a sol = Ok (Some new) ->
  exists slot room b,
    In slot (slots self)
    /\ Py.get (batches self) (Asg.batch_id a) = Some b
    /\ In room (_get_available_rooms self (Asg.type a) (number_of_students b))
    /\ hard_reason self (number_of_students b) a slot (r_id room) sol = None
    /\ new = _assign_slot self a slot room.
Proof.
  unfold solve_step.
  destruct (Py.get (batches self) (Asg.batch_id a)) as [b|] eqn:Eb; [|discriminate].
  destruct (valid_combinations self a _ sol) as [[|c cs]|] eqn:Ev; try discriminate.
  destruct (_select_best_slot_lcv self a (c :: cs) sol) as [[[slot room]|]|] eqn:Es;
    try discriminate.
  intros E. inversion E; subst new. clear E.
  apply CSPFacts.select_best_In in Es.
  destruct (CSPFacts.valid_combinations_In _ _ _ _ _ _ Ev Es) as (Hs & Hr & Hc).
  exists slot, room, b. repeat split; try assumption.
  unfold _check_hard_constraints, check_hard_constraints_reason in Hc.
  rewrite Eb in Hc.
  destruct (hard_reason self (number_of_students b) a slot (r_id room) sol)
    eqn:Eh; [discriminate|reflexivity].
Qed.

Lemma assign_slot_forall self a slot room (Q : Entry -> Prop) :
  (forall o, Q (assigned_entry a room o)) ->
  Forall Q (_assign_slot self a slot room).
Proof.
  intros H. unfold _assign_slot. destruct (Z.eqb (Asg.duration a) 1).
  - constructor; [apply H|constructor].
  - apply Forall_forall. intros e He. apply in_map_iff in He.
    destruct He as (o & <- & _). apply H.
Qed.

(** A property that every accepted placement gives to its entries holds of
    everything the loop of [_smart_solve] appends. *)
Lemma solve_from_placed self (A : Asg.t -> Prop) (Q : Entry -> Prop) :
  (forall a sol slot room b,
      A a ->
      Py.get (batches self) (Asg.batch_id a) = Some b ->
      In room (_get_available_rooms self (Asg.type a) (number_of_students b)) ->
      hard_reason self (number_of_students b) a slot (r_id room) sol = None ->
      forall o, Q (assigned_entry a room o)) ->
  forall todo, Forall A todo ->
  forall s sol, solve_from self todo s = Ok (Some sol) ->
  exists placed, sol = s ++ placed /\ Forall Q placed.
Proof.
  intros Hstep todo Htodo. induction Htodo as [|a todo Ha Htodo IH];
    intros s sol; simpl.
  - intros E; inversion E; subst. exists []. rewrite app_nil_r. split; constructor.
  - destruct (solve_step self a s) as [[new|]|] eqn:Es; try discriminate.
    intros E. destruct (IH _ _ E) as (placed & -> & HQ).
    destruct (solve_step_chosen _ _ _ Es) as (slot & room & b & _ & Hb & Hr & Hh & ->).
    exists (_assign_slot self a slot room ++ placed).
    rewrite app_assoc. split; [reflexivity|].
    apply Forall_app. split; [|exact HQ].
    apply assign_slot_forall. exact (Hstep a s slot room b Ha Hb Hr Hh).
Qed.

Lemma run_placed self (A : Asg.t -> Prop) (Q : Entry -> Prop) sol hist :
  (forall a sol slot room b,
      A a ->
      Py.get (batches self) (Asg.batch_id a) = Some b ->
      In room (_get_available_rooms self (Asg.type a) (number_of_students b)) ->
      hard_reason self (number_of_students b) a slot (r_id room) sol = None ->
      forall o, Q (assigned_entry a room o)) ->
  Forall A (assignments self) ->
  run self = Ok (sol, hist) ->
  exists placed, sol = _apply_fixed_slots self ++ placed /\ Forall Q placed.
Proof.
  intros Hstep HA Hrun. unfold run, _smart_solve in Hrun.
  destruct (solve_from self (assignments self) (_apply_fixed_slots self))
    as [[sol'|]|] eqn:E; try discriminate.
  inversion Hrun; subst sol'.
  exact (@solve_from_placed self A Q Hstep _ HA _ _ E).
Qed.

Lemma available_rooms_catalogue self ty size room :
  In room (_get_available_rooms self ty size) ->
  In room (match ty with
           | lab => match labs self with [] => classrooms self | _ :: _ => labs self end
           | theory => classrooms self
           end).
Proof.
  unfold _get_available_rooms.
  destruct (config_enabled self "room_capacity"); [|exact (fun H => H)].
  intros H. apply filter_In in H. exact (proj1 H).
Qed.

Lemma available_rooms_known self ty size room :
  In room (_get_available_rooms self ty size) ->
  In room (classrooms self ++ labs self).
Proof.
  intros H. apply available_rooms_catalogue in H. apply in_or_app.
  destruct ty; [left; exact H|].
  destruct (labs self); [left; exact H|right; exact H].
Qed.

Lemma find_first_some (A : Type) (p : A -> bool) (l : list A) (x : A) :
  In x l -> p x = true -> exists y, find p l = Some y.
Proof.
  induction l as [|z l IH]; simpl; [contradiction|].
  intros [->|Hin] Hp.
  - rewrite Hp. eauto.
  - destruct (p z); eauto.
Qed.

(** X4.  With the [room_capacity] rule on, every entry the solver places
    (everything after the fixed slots) sits in a room whose catalogue row,
    looked up by id as the check does, seats the whole batch. *)
Theorem placed_rooms_seat_the_batch
    (self : t) (sol : list Entry) (hist : list History) :
  config_enabled self "room_capacity" = true ->
  run self = Ok (sol, hist) ->
  exists placed,
    sol = _apply_fixed_slots self ++ placed
    /\ Forall (fun e => exists b room,
                  Py.get (batches self) (batch_id e) = Some b
                  /\ room_of_id self (room_id e) = Some room
                  /\ (number_of_students b <= seats room)%Z) placed.
Proof.
  intros Hflag Hrun.
  apply (@run_placed self (fun _ => True) _ sol hist); [| |exact Hrun].
  - intros a s slot room b _ Hb Hr Hh o. simpl.
    apply available_rooms_known in Hr.
    assert (capacity_reason self (r_id room) (number_of_students b) = None) as Hc.
    { unfold hard_reason in Hh.
      destruct (if Z.eqb (Asg.duration a) 1 then _ else _); [discriminate|].
      destruct (overlap_reason _ _ _ _ _); [discriminate|].
      destruct (capacity_reason _ _ _); [discriminate|reflexivity]. }
    unfold capacity_reason in Hc. rewrite Hflag in Hc.
    destruct (find_first_some (fun r => Z.eqb (r_id r) (r_id room)) _ _ Hr
                (Z.eqb_refl _)) as (room' & Ef).
    exists b, room'. split; [exact Hb|]. unfold room_of_id. split; [exact Ef|].
    rewrite Ef in Hc. unfold seats.
    destruct (_ <? _)%Z eqn:El in Hc; [discriminate|].
    apply Z.ltb_ge in El. exact El.
  - apply Forall_forall. intros; exact I.
Qed.

Lemma placed_rooms_seat_the_batch_witness :
  config_enabled two_batches "room_capacity" = true
  /\ run two_batches = Ok (two_batches_schedule, csp_history)
  /\ exists placed,
       two_batches_schedule = _apply_fixed_slots two_batches ++ placed
       /\ Forall (fun e => exists b room,
                     Py.get (batches two_batches) (batch_id e) = Some b
                     /\ room_of_id two_batches (room_id e) = Some room
                     /\ (number_of_students b <= seats room)%Z) placed.
Proof.
  assert (run two_batches = Ok (two_batches_schedule, csp_history)) as Hrun
    by (vm_compute; reflexivity).
  split; [reflexivity|]. split; [exact Hrun|].
  exact (@placed_rooms_seat_the_batch two_batches two_batches_schedule
           csp_history eq_refl Hrun).
Defined.

(** X5.  Every entry the solver places is marked as not fixed and carries
    the id of a catalogue room of the right kind: a theory hour is typed
    [classroom] and sits in a classroom; a lab block is typed [lab] and sits
    in a computer lab, or in a classroom when the catalogue has no lab. *)
Theorem placed_rooms_by_kind
    (self : t) (sol : list Entry) (hist : list History) :
  run self = Ok (sol, hist) ->
  exists placed,
    sol = _apply_fixed_slots self ++ placed
    /\ Forall (fun e =>
                 is_fixed e = false
                 /\ exists room,
                      r_id room = room_id e
                      /\ ((room_type e = "classroom" /\ In room (classrooms self))
                          \/ (room_type e = "lab"
                              /\ In room (match labs self with
                                          | [] => classrooms self
                                          | _ :: _ => labs self
                                          end)))) placed.
Proof.
  intros Hrun.
  apply (@run_placed self (fun _ => True) _ sol hist); [| |exact Hrun].
  - intros a s slot room b _ _ Hr _ o. simpl. split; [reflexivity|].
    exists room. split; [reflexivity|].
    apply available_rooms_catalogue in Hr.
    destruct (Asg.type a); [left|right]; split; (reflexivity || exact Hr).
  - apply Forall_forall. intros; exact I.
Qed.

Lemma expand_allocation_not_pinned self alloc a :
  In a (expand_allocation self alloc) ->
  forall fs, In fs (fixed_slots self) ->
    ~ (Fixed.batch_id fs = Asg.batch_id a
       /\ Fixed.subject_id fs = Asg.subject_id a
       /\ Fixed.faculty_id fs = Asg.faculty_id a).
Proof.
  unfold expand_allocation.
  destruct (Py.get (subjects self) (Alloc.subject_id alloc)); [|contradiction].
  destruct (Py.get (batches self) (Alloc.batch_id alloc)); [|contradiction].
  destruct (alloc_is_fixed self alloc) eqn:Ef; [contradiction|].
  intros Hin fs Hfs (Hb & Hs & Hf).
  assert (Asg.batch_id a = Alloc.batch_id alloc
          /\ Asg.subject_id a = Alloc.subject_id alloc
          /\ Asg.faculty_id a = Alloc.faculty_id alloc) as (Eb & Es & Efa).
  { apply in_app_or in Hin. destruct Hin as [Hin|Hin].
    - apply in_map_iff in Hin. destruct Hin as (i & <- & _). simpl. auto.
    - destruct (lab_hours _ >? 0)%Z; [|contradiction].
      destruct Hin as [<-|[]]. simpl. auto. }
  unfold alloc_is_fixed in Ef.
  assert (existsb
            (fun fs0 => Z.eqb (Fixed.batch_id fs0) (Alloc.batch_id alloc)
                        && Z.eqb (Fixed.subject_id fs0) (Alloc.subject_id alloc)
                        && Z.eqb (Fixed.faculty_id fs0) (Alloc.faculty_id alloc))
            (fixed_slots self) = true) as Ht.
  { apply existsb_exists. exists fs. split; [exact Hfs|].
    rewrite Hb, Hs, Hf, Eb, Es, Efa, !Z.eqb_refl. reflexivity. }
  congruence.
Qed.

Lemma placed_rooms_by_kind_witness :
  run two_batches = Ok (two_batches_schedule, csp_history)
  /\ exists placed,
       two_batches_schedule = _apply_fixed_slots two_batches ++ placed
       /\ Forall (fun e =>
                    is_fixed e = false
                    /\ exists room,
                         r_id room = room_id e
                         /\ ((room_type e = "classroom"
                              /\ In room (classrooms two_batches))
                             \/ (room_type e = "lab"
                                 /\ In room (match labs two_batches with
                                             | [] => classrooms two_batches
                                             | _ :: _ => labs two_batches
                                             end)))) placed.
Proof.
  assert (run two_batches = Ok (two_batches_schedule, csp_history)) as Hrun
    by (vm_compute; reflexivity).
  split; [exact Hrun|].
  exact (@placed_rooms_by_kind two_batches two_batches_schedule csp_history Hrun).
Defined.

(** X6.  A (batch, subject, faculty) allocation that has a fixed slot is
    left entirely to its fixed slots: in the schedule of a solver built
    from a catalogue, no entry placed by the solver has the triple of any
    fixed slot, however many weekly hours the subject asks for. *)
Theorem pinned_allocations_are_not_scheduled
    (db : Database) (selected : list Z) (use_fixed : bool) (max_iter : Z)
    (min_conflicts : bool) (self : t) (sol : list Entry) (hist : list History) :
  init db selected use_fixed max_iter min_conflicts = Ok self ->
  run self = Ok (sol, hist) ->
  exists placed,
    sol = _apply_fixed_slots self ++ placed
    /\ Forall (fun e => forall fs, In fs (fixed_slots self) -> ~ pins fs e) placed.
Proof.
  intros Hinit Hrun.
  apply (@run_placed self
           (fun a => forall fs, In fs (fixed_slots self) ->
                       ~ (Fixed.batch_id fs = Asg.batch_id a
                          /\ Fixed.subject_id fs = Asg.subject_id a
                          /\ Fixed.faculty_id fs = Asg.faculty_id a))
           _ sol hist); [| |exact Hrun].
  - intros a s slot room b Ha _ _ _ o fs Hfs. unfold pins. simpl.
    exact (Ha fs Hfs).
  - unfold init in Hinit.
    destruct (_load_data db selected use_fixed max_iter min_conflicts) as [s0|];
      [|discriminate].
    inversion Hinit; subst self. clear Hinit Hrun.
    apply Forall_forall. intros a Ha.
    unfold _prepare_assignments in Ha. cbn [assignments set_assignments] in Ha.
    apply PyFacts.in_sorted in Ha. apply in_flat_map in Ha.
    destruct Ha as (alloc & _ & Ha).
    exact (expand_allocation_not_pinned _ _ _ Ha).
Qed.

Lemma pinned_allocations_are_not_scheduled_witness :
  init db_two_batches [1%Z; 2%Z] true 10000 false = Ok two_batches
  /\ run two_batches = Ok (two_batches_schedule, csp_history)
  /\ exists placed,
       two_batches_schedule = _apply_fixed_slots two_batches ++ placed
       /\ Forall (fun e => forall fs, In fs (fixed_slots two_batches) ->
                              ~ pins fs e) placed.
Proof.
  assert (init db_two_batches [1%Z; 2%Z] true 10000 false = Ok two_batches)
    as Hinit by (vm_compute; reflexivity).
  assert (run two_batches = Ok (two_batches_schedule, csp_history)) as Hrun
    by (vm_compute; reflexivity).
  split; [exact Hinit|]. split; [exact Hrun|].
  exact (@pinned_allocations_are_not_scheduled db_two_batches [1%Z; 2%Z] true
           10000%Z false two_batches two_batches_schedule csp_history
           Hinit Hrun).
Defined.

(** ** The order of the requirements *)

Lemma Z_pair_leb_total (x y : Z * Z) :
  Py.Z_pair_leb x y = true \/ Py.Z_pair_leb y x = true.
Proof.
  unfold Py.Z_pair_leb, Py.lex_leb. destruct x as [a b], y as [c d]; simpl.
  destruct (Z.ltb_spec a c), (Z.ltb_spec c a), (Z.eqb_spec a c),
    (Z.eqb_spec c a), (Z.leb_spec b d), (Z.leb_spec d b);
    simpl; auto; lia.
Qed.

Lemma Z_pair_leb_trans (x y z : Z * Z) :
  Py.Z_pair_leb x y = true -> Py.Z_pair_leb y z = true ->
  Py.Z_pair_leb x z = true.
Proof.
  unfold Py.Z_pair_leb, Py.lex_leb.
  destruct x as [a b], y as [c d], z as [e f]; simpl.
  destruct (Z.ltb_spec a c), (Z.ltb_spec c e), (Z.ltb_spec a e),
    (Z.eqb_spec a c), (Z.eqb_spec c e), (Z.eqb_spec a e),
    (Z.leb_spec b d), (Z.leb_spec d f), (Z.leb_spec b f);
    simpl; auto; try lia; discriminate.
Qed.

Lemma StronglySorted_weaken (A : Type) (R R' : A -> A -> Prop) (l : list A) :
  (forall x y, R x y -> R' x y) -> StronglySorted R l -> StronglySorted R' l.
Proof.
  intros HR. induction 1 as [|x l Hs IH Hx]; constructor; [exact IH|].
  eapply Forall_impl; [|exact Hx]. intros y. apply HR.
Qed.

Lemma assignment_key_order (a b : Asg.t) :
  Py.Z_pair_leb (assignment_key a) (assignment_key b) = true ->
  scheduled_before a b.
Proof.
  unfold Py.Z_pair_leb, Py.lex_leb, assignment_key, scheduled_before. simpl.
  intros H. apply orb_true_iff in H. destruct H as [H|H].
  - apply Z.ltb_lt in H. left. lia.
  - apply andb_true_iff in H. destruct H as [H1 H2].
    apply Z.eqb_eq in H1. apply Z.leb_le in H2. right. lia.
Qed.

(** X7.  The requirements of a built solver are the expansions of its
    allocations, none lost or duplicated, arranged so that a requirement of
    higher priority comes before one of lower priority and, at equal
    priority, a longer block before a shorter one. *)
Theorem assignments_by_priority
    (db : Database) (selected : list Z) (use_fixed : bool) (max_iter : Z)
    (min_conflicts : bool) (self : t) :
  init db selected use_fixed max_iter min_conflicts = Ok self ->
  Permutation (assignments self)
              (flat_map (expand_allocation self) (allocations self))
  /\ StronglySorted scheduled_before (assignments self).
Proof.
  intros Hinit. unfold init in Hinit.
  destruct (_load_data db selected use_fixed max_iter min_conflicts) as [s0|];
    [|discriminate].
  inversion Hinit; subst self. clear Hinit.
  set (s1 := _prepare_slots (_define_day_slots s0)).
  unfold _prepare_assignments. cbn [assignments set_assignments allocations].
  split.
  - eapply Permutation_trans; [apply sorted_permutation|].
    apply Permutation_refl.
  - eapply StronglySorted_weaken;
      [|apply (@PyFacts.sorted_is_sorted _
                 (fun x y => Py.Z_pair_leb (assignment_key x) (assignment_key y)))].
    + intros a b. apply assignment_key_order.
    + intros x y. apply Z_pair_leb_total.
    + intros x y z. apply Z_pair_leb_trans.
Qed.

Lemma assignments_by_priority_witness :
  init db_two_batches [1%Z; 2%Z] true 10000 false = Ok two_batches
  /\ Permutation (assignments two_batches)
                 (flat_map (expand_allocation two_batches)
                           (allocations two_batches))
  /\ StronglySorted scheduled_before (assignments two_batches).
Proof.
  assert (init db_two_batches [1%Z; 2%Z] true 10000 false = Ok two_batches)
    as Hinit by (vm_compute; reflexivity).
  split; [exact Hinit|].
  exact (@assignments_by_priority db_two_batches [1%Z; 2%Z] true 10000%Z false
           two_batches Hinit).
Defined.

(** ** No free period inside a batch's day *)

Lemma has_gap_sorted (l : list nat) :
  StronglySorted (fun a b => Nat.leb a b = true) l ->
  has_gap l = false -> no_free_period l.
Proof.
  induction 1 as [|a l Hs IH Ha]; intros Hg i j k Hi Hj Hk; [contradiction|].
  destruct l as [|b l].
  - destruct Hi as [<-|[]], Hj as [<-|[]]. left. lia.
  - cbn [has_gap] in Hg. apply orb_false_iff in Hg. destruct Hg as [Hab Hg].
    rewrite Forall_forall in Ha.
    assert (forall x, In x (b :: l) -> (a <= x)%nat) as Hge
      by (intros x Hx; apply Nat.leb_le, Ha, Hx).
    assert (b <= a + 1)%nat as Hb.
    { destruct (Z.gtb_spec (Z.of_nat b - Z.of_nat a) 1); [discriminate|lia]. }
    destruct (Nat.eq_dec k a) as [->|Hne]; [left; reflexivity|]. right.
    assert (a <= i)%nat by (destruct Hi as [<-|Hi]; [lia|exact (Hge _ Hi)]).
    assert (In j (b :: l)) as Hj' by (destruct Hj as [<-|Hj]; [lia|exact Hj]).
    apply (IH Hg b j k); [left; reflexivity|exact Hj'|lia].
Qed.

Lemma no_free_period_ext (l l' : list nat) :
  (forall x, In x l <-> In x l') -> no_free_period l -> no_free_period l'.
Proof.
  intros E H i j k Hi Hj Hk. apply E. apply (H i j k); [apply E, Hi|apply E, Hj|exact Hk].
Qed.

Lemma in_sorted_iff (A : Type) (leb : A -> A -> bool) (l : list A) (x : A) :
  In x (Py.sorted leb l) <-> In x l.
Proof.
  split; apply Permutation_in;
    [|apply Permutation_sym]; apply sorted_permutation.
Qed.

Lemma nat_leb_total (x y : nat) : Nat.leb x y = true \/ Nat.leb y x = true.
Proof. destruct (Nat.leb_spec x y); [left; reflexivity|right; apply Nat.leb_le; lia]. Qed.

Lemma nat_leb_trans (x y z : nat) :
  Nat.leb x y = true -> Nat.leb y z = true -> Nat.leb x z = true.
Proof. rewrite !Nat.leb_le. lia. Qed.

(** What the free-period test accepts. *)
Lemma free_period_accepts self a d time sol k :
  Py.index time (time_slots self) = Some k ->
  _check_consecutive_free_period self a (d, time) sol = false ->
  batch_day_times self (Asg.batch_id a) d sol = []
  \/ no_free_period (batch_day_times self (Asg.batch_id a) d sol ++ [k]).
Proof.
  intros Ek. unfold _check_consecutive_free_period. rewrite Ek.
  fold (batch_day_times self (Asg.batch_id a) d sol).
  destruct (batch_day_times self (Asg.batch_id a) d sol) as [|t ts] eqn:E;
    [left; reflexivity|].
  intros Hg. right.
  apply has_gap_sorted in Hg;
    [|apply (@PyFacts.sorted_is_sorted _ Nat.leb nat_leb_total nat_leb_trans)].
  revert Hg. apply no_free_period_ext. intros x.
  rewrite in_sorted_iff, !in_app_iff, in_sorted_iff. reflexivity.
Qed.

(** Adding a run of positions that starts at an accepted position keeps
    the day free of gaps. *)
Lemma no_free_period_block (E : list nat) (k n : nat) :
  (1 <= n)%nat ->
  no_free_period E ->
  E = [] \/ no_free_period (E ++ [k]) ->
  no_free_period (E ++ seq k n).
Proof.
  intros Hn HE [->|H] i j m Hi Hj Hm.
  - simpl in *. apply in_seq in Hi, Hj. apply in_seq. lia.
  - apply in_app_iff. rewrite in_seq.
    destruct (Nat.lt_ge_cases m k) as [Hlt|Hge].
    + left. apply in_app_iff in Hi. destruct Hi as [Hi|Hi];
        [|apply in_seq in Hi; lia].
      assert (In m (E ++ [k])) as Hin.
      { apply (H i k m); [apply in_app_iff; left; exact Hi
                         |apply in_app_iff; right; left; reflexivity|lia]. }
      apply in_app_iff in Hin. destruct Hin as [Hin|[Hin|[]]]; [exact Hin|lia].
    + destruct (Nat.lt_ge_cases m (k + n)) as [Hin|Hout]; [right; lia|]. left.
      apply in_app_iff in Hj. destruct Hj as [Hj|Hj];
        [|apply in_seq in Hj; lia].
      assert (In m (E ++ [k])) as Hin.
      { apply (H k j m); [apply in_app_iff; right; left; reflexivity
                         |apply in_app_iff; left; exact Hj|lia]. }
      apply in_app_iff in Hin. destruct Hin as [Hin|[Hin|[]]]; [exact Hin|lia].
Qed.

Lemma index_of_position (l : list string) (i : nat) (x : string) :
  NoDup l -> nth_error l i = Some x -> Py.index x l = Some i.
Proof.
  intros Hnd Hn. destruct (nth_error_split _ _ Hn) as (l1 & l2 & -> & <-).
  exact (index_nodup_positions Hnd l1 x l2 eq_refl).
Qed.

Lemma positions_of_run (times : list string) :
  NoDup times ->
  forall n k,
    (k + n <= length times)%nat ->
    flat_map (fun label => match Py.index label times with
                           | Some t_idx => [t_idx]
                           | None => []
                           end)
             (firstn n (skipn k times))
    = seq k n.
Proof.
  intros Hnd. induction n as [|n IH]; intros k Hk; [reflexivity|].
  destruct (nth_error times k) as [x|] eqn:Ex;
    [|apply nth_error_None in Ex; lia].
  rewrite (CSPFacts.skipn_nth_error _ _ Ex). cbn [firstn flat_map seq].
  rewrite (index_of_position _ Hnd Ex). cbn [app]. f_equal.
  apply IH. lia.
Qed.

Lemma find_consecutive_start self d time n o occ :
  _find_consecutive_slots self d time n = o :: occ ->
  exists k,
    Py.index time (time_slots self) = Some k
    /\ Forall (fun p => fst p = d) (o :: occ)
    /\ map snd (o :: occ)
       = firstn (length (o :: occ)) (skipn k (time_slots self))
    /\ (k + length (o :: occ) <= length (time_slots self))%nat.
Proof.
  unfold _find_consecutive_slots.
  destruct (Py.index d (working_days self)); [|discriminate].
  destruct (Py.index time (time_slots self)) as [k|]; [|discriminate].
  unfold Py.range.
  destruct (consecutive_from self d k (seq 0 (Z.to_nat n))) as [l|] eqn:E;
    [|discriminate].
  intros ->. destruct (CSPFacts.consecutive_from_spec _ _ _ _ _ E) as (L & F & M & B).
  rewrite Nat.add_0_r in M, B. exists k. rewrite L.
  repeat split; try assumption.
  destruct B as [B|B]; [lia|]. rewrite B in L. discriminate.
Qed.

Lemma block_times self a (room : Room) b d dd occ :
  Forall (fun p => fst p = dd) occ ->
  batch_day_times self b d (map (assigned_entry a room) occ)
  = if Z.eqb (Asg.batch_id a) b && String.eqb dd d
    then flat_map (fun label => match Py.index label (time_slots self) with
                                | Some t_idx => [t_idx]
                                | None => []
                                end)
                  (map snd occ)
    else [].
Proof.
  unfold batch_day_times.
  induction 1 as [|o occ Ho _ IH]; cbn [map flat_map].
  - destruct (_ && _); reflexivity.
  - rewrite IH. cbn [assigned_entry batch_id day time_slot]. rewrite Ho.
    destruct (Z.eqb (Asg.batch_id a) b && String.eqb dd d); reflexivity.
Qed.

Lemma hard_reason_free_period self size a slot room sol :
  hard_reason self size a slot room sol = None ->
  _check_consecutive_free_period self a slot sol = false.
Proof.
  unfold hard_reason.
  destruct (if Z.eqb (Asg.duration a) 1 then _ else _); [discriminate|].
  destruct (overlap_reason _ _ _ _ _); [discriminate|].
  destruct (capacity_reason _ _ _); [discriminate|].
  destruct (_check_slot_type_constraint _ _ _ _); [discriminate|].
  destruct (_check_consecutive_free_period _ _ _ _); [discriminate|reflexivity].
Qed.

Lemma assign_keeps_no_free_period self size a slot (room : Room) sol b d :
  NoDup (time_slots self) ->
  hard_reason self size a slot (r_id room) sol = None ->
  no_free_period (batch_day_times self b d sol) ->
  no_free_period (batch_day_times self b d (sol ++ _assign_slot self a slot room)).
Proof.
  intros Hnd Hhard HE.
  pose proof (hard_reason_free_period _ _ _ _ _ _ Hhard) as Hfree.
  destruct slot as [d0 time].
  assert (exists occ,
             _assign_slot self a (d0, time) room = map (assigned_entry a room) occ
             /\ Forall (fun p => fst p = d0) occ
             /\ (flat_map (fun label => match Py.index label (time_slots self) with
                                        | Some t_idx => [t_idx]
                                        | None => []
                                        end) (map snd occ) = []
                 \/ exists k n,
                      Py.index time (time_slots self) = Some k
                      /\ (1 <= n)%nat
                      /\ flat_map (fun label =>
                                     match Py.index label (time_slots self) with
                                     | Some t_idx => [t_idx]
                                     | None => []
                                     end) (map snd occ) = seq k n))
    as (occ & -> & Hday & Htimes).
  { unfold hard_reason, _assign_slot in *. cbn [fst snd] in *.
    destruct (Z.eqb (Asg.duration a) 1).
    - exists [(d0, time)]. split; [reflexivity|].
      split; [constructor; [reflexivity|constructor]|]. cbn [map flat_map snd].
      destruct (Py.index time (time_slots self)) as [k|]; [right|left; reflexivity].
      exists k, 1%nat. repeat split. lia.
    - destruct (_find_consecutive_slots self d0 time (Asg.duration a))
        as [|o occ] eqn:Ef; [discriminate|].
      destruct (find_consecutive_start _ _ _ _ Ef) as (k & Ek & Hd & Hm & Hl).
      exists (o :: occ). split; [reflexivity|]. split; [exact Hd|]. right.
      exists k, (length (o :: occ)). split; [exact Ek|].
      split; [simpl; lia|]. rewrite Hm. apply positions_of_run; assumption. }
  unfold batch_day_times at 1. rewrite flat_map_app.
  fold (batch_day_times self b d sol).
  fold (batch_day_times self b d (map (assigned_entry a room) occ)).
  rewrite (block_times self a room b d Hday).
  destruct (Z.eqb (Asg.batch_id a) b && String.eqb d0 d) eqn:Et;
    [|rewrite app_nil_r; exact HE].
  apply andb_true_iff in Et. destruct Et as [Eb Ed].
  apply Z.eqb_eq in Eb. apply String.eqb_eq in Ed. subst b d.
  destruct Htimes as [->|(k & n & Ek & Hn & ->)]; [rewrite app_nil_r; exact HE|].
  apply no_free_period_block; [exact Hn|exact HE|].
  exact (free_period_accepts _ _ _ _ _ Ek Hfree).
Qed.

Lemma solve_from_no_free_period self todo :
  NoDup (time_slots self) ->
  forall s sol,
    (forall b d, no_free_period (batch_day_times self b d s)) ->
    solve_from self todo s = Ok (Some sol) ->
    forall b d, no_free_period (batch_day_times self b d sol).
Proof.
  intros Hnd. induction todo as [|a todo IH]; intros s sol Hs; simpl.
  - intros E; inversion E; subst; exact Hs.
  - destruct (solve_step self a s) as [[new|]|] eqn:Estep; try discriminate.
    apply IH. intros b d.
    destruct (solve_step_chosen _ _ _ Estep)
      as (slot & room & b0 & _ & _ & _ & Hh & ->).
    exact (@assign_keeps_no_free_period _ _ _ _ _ _ b d Hnd Hh (Hs b d)).
Qed.

(** X8.  When the period labels are distinct and no batch has a free
    period between its fixed slots on any day, no batch has one in the
    schedule [run] returns: on every day the periods a batch occupies are
    a run of consecutive positions of the calendar. *)
Theorem run_no_free_period
    (self : t) (sol : list Entry) (hist : list History) :
  NoDup (time_slots self) ->
  (forall b d, no_free_period (batch_day_times self b d (_apply_fixed_slots self))) ->
  run self = Ok (sol, hist) ->
  forall b d, no_free_period (batch_day_times self b d sol).
Proof.
  intros Hnd Hfixed Hrun. unfold run, _smart_solve in Hrun.
  destruct (solve_from self (assignments self) (_apply_fixed_slots self))
    as [[sol'|]|] eqn:E; try discriminate.
  inversion Hrun; subst sol'.
  exact (@solve_from_no_free_period _ _ Hnd _ _ Hfixed E).
Qed.

Lemma run_no_free_period_witness :
  NoDup (time_slots two_batches)
  /\ (forall b d, no_free_period
                    (batch_day_times two_batches b d
                                     (_apply_fixed_slots two_batches)))
  /\ run two_batches = Ok (two_batches_schedule, csp_history)
  /\ forall b d, no_free_period (batch_day_times two_batches b d two_batches_schedule).
Proof.
  assert (NoDup (time_slots two_batches)) as Hnd.
  { change (time_slots two_batches) with ["P1"; "P2"; "P3"; "P4"].
    repeat constructor; simpl; intuition discriminate. }
  assert (forall b d, no_free_period
                        (batch_day_times two_batches b d
                                         (_apply_fixed_slots two_batches))) as Hfx.
  { intros b d.
    change (_apply_fixed_slots two_batches)
      with [ {| batch_id := 2; day := "Mon"; time_slot := "P1"; subject_id := 1;
                faculty_id := 1; room_id := 1; room_type := "classroom";
                is_fixed := true |} ].
    unfold batch_day_times. cbn [flat_map batch_id day time_slot].
    destruct (Z.eqb 2 b && String.eqb "Mon" d).
    - change (Py.index "P1" (time_slots two_batches)) with (Some 0%nat).
      intros i j k [<-|[]] [<-|[]] Hk. left. lia.
    - intros i j k []. }
  assert (run two_batches = Ok (two_batches_schedule, csp_history)) as Hrun
    by (vm_compute; reflexivity).
  split; [exact Hnd|]. split; [exact Hfx|]. split; [exact Hrun|].
  exact (@run_no_free_period two_batches two_batches_schedule csp_history
           Hnd Hfx Hrun).
Defined.

(** ** What [run] can raise *)

Lemma mapM_total (A B : Type) (f : A -> result B) (l : list A) :
  Forall (fun x => exists y, f x = Ok y) l -> exists l', mapM f l = Ok l'.
Proof.
  induction 1 as [|x l (y & Ey) _ (l' & El)]; simpl; [eauto|].
  rewrite Ey, El. eauto.
Qed.

Lemma filterM_total (A : Type) (f : A -> result bool) (l : list A) :
  Forall (fun x => exists b, f x = Ok b) l -> exists l', filterM f l = Ok l'.
Proof.
  induction 1 as [|x l (b & Eb) _ (l' & El)]; simpl; [eauto|].
  rewrite Eb, El. eauto.
Qed.

Lemma index_known (x : string) (l : list string) :
  In x l -> exists i, Py.index x l = Some i.
Proof.
  intros H. destruct (Py.index x l) as [i|] eqn:E; [eauto|].
  apply index_string_none in E. contradiction.
Qed.

(** The soft penalty is defined as soon as the entries placed so far carry
    calendar labels. *)
Lemma soft_penalty_total self a slot sol :
  known_periods self sol ->
  exists q, _calculate_soft_constraint_penalty self a slot sol = Ok q.
Proof.
  intros Hk. unfold _calculate_soft_constraint_penalty. destruct slot as [d time].
  destruct (config_enabled self "minimize_faculty_gaps"); [|eauto].
  destruct (@mapM_total _ _ (fun e => index_or_raise self (time_slot e))
              (filter (fun e => String.eqb (day e) d
                                && Z.eqb (faculty_id e) (Asg.faculty_id a)) sol))
    as (l' & El).
  { apply Forall_forall. intros e He. apply filter_In in He.
    unfold known_periods in Hk. rewrite Forall_forall in Hk.
    destruct (index_known _ _ (Hk e (proj1 He))) as (i & Ei).
    exists i. unfold index_or_raise. rewrite Ei. reflexivity. }
  rewrite El. eauto.
Qed.

Lemma select_best_total self a c cs sol :
  known_periods self sol ->
  exists best, _select_best_slot_lcv self a (c :: cs) sol = Ok (Some best).
Proof.
  intros Hk. unfold _select_best_slot_lcv.
  destruct (@mapM_total _ _
              (fun sr => match _calculate_soft_constraint_penalty
                                 self a (fst sr) sol with
                         | Raise e => Raise e
                         | Ok penalty => Ok (penalty, sr)
                         end) (c :: cs)) as (scores & Es).
  { apply Forall_forall. intros sr _.
    destruct (@soft_penalty_total self a (fst sr) sol Hk) as (q & ->). eauto. }
  rewrite Es.
  assert (length (Py.sorted score_leb scores) = length (c :: cs)) as Hl.
  { rewrite PyFacts.length_sorted.
    apply PyFacts.mapM_Forall2 in Es. symmetry. exact (Forall2_length Es). }
  destruct (Py.sorted score_leb scores) as [|[p sr] rest]; [discriminate|].
  simpl. eauto.
Qed.

Lemma valid_combinations_total self a rooms sol b :
  Py.get (batches self) (Asg.batch_id a) = Some b ->
  exists valid, valid_combinations self a rooms sol = Ok valid.
Proof.
  intros Hb. unfold valid_combinations. apply filterM_total.
  apply Forall_forall. intros sr _.
  unfold _check_hard_constraints, check_hard_constraints_reason. rewrite Hb.
  destruct (hard_reason _ _ _ _ _ _); eauto.
Qed.

Lemma in_window (A : Type) (n k : nat) (l : list A) (x : A) :
  In x (firstn n (skipn k l)) -> In x l.
Proof.
  intros H. rewrite <- (firstn_skipn k l). apply in_or_app. right.
  rewrite <- (firstn_skipn n (skipn k l)). apply in_or_app. left. exact H.
Qed.

Lemma assign_slot_known self a slot room :
  In (snd slot) (time_slots self) ->
  known_periods self (_assign_slot self a slot room).
Proof.
  intros Hs. unfold _assign_slot, known_periods.
  destruct (Z.eqb (Asg.duration a) 1); [constructor; [exact Hs|constructor]|].
  destruct (_find_consecutive_slots self (fst slot) (snd slot) (Asg.duration a))
    as [|o occ] eqn:Ef; [constructor|].
  destruct (find_consecutive_start _ _ _ _ Ef) as (k & _ & _ & Hm & _).
  apply Forall_forall. intros e He. apply in_map_iff in He.
  destruct He as (o' & <- & Ho'). cbn [assigned_entry time_slot].
  assert (In (snd o') (map snd (o :: occ))) as Hin by (apply in_map; exact Ho').
  rewrite Hm in Hin. exact (in_window _ _ _ _ Hin).
Qed.

Lemma solve_from_total self todo :
  (forall slot, In slot (slots self) -> In (snd slot) (time_slots self)) ->
  Forall (fun a => exists b, Py.get (batches self) (Asg.batch_id a) = Some b) todo ->
  forall s, known_periods self s -> exists r, solve_from self todo s = Ok r.
Proof.
  intros Hslots. induction 1 as [|a todo (b & Hb) _ IH]; intros s Hs; simpl;
    [eauto|].
  destruct (solve_step self a s) as [[new|]|e] eqn:Estep; [|eauto|].
  - apply IH. apply Forall_app. split; [exact Hs|].
    destruct (solve_step_chosen _ _ _ Estep) as (slot & room & _ & Hin & _ & _ & _ & ->).
    apply assign_slot_known. apply Hslots. exact Hin.
  - exfalso. unfold solve_step in Estep. rewrite Hb in Estep.
    destruct (@valid_combinations_total self a
                (_get_available_rooms self (Asg.type a) (number_of_students b))
                s b Hb) as (valid & Ev).
    rewrite Ev in Estep. destruct valid as [|c cs]; [discriminate|].
    destruct (@select_best_total self a c cs s Hs) as ([slot room] & Eb).
    rewrite Eb in Estep. discriminate.
Qed.

Lemma expand_allocation_batch self alloc a :
  In a (expand_allocation self alloc) ->
  exists b, Py.get (batches self) (Asg.batch_id a) = Some b.
Proof.
  unfold expand_allocation.
  destruct (Py.get (subjects self) (Alloc.subject_id alloc)); [|contradiction].
  destruct (Py.get (batches self) (Alloc.batch_id alloc)) as [b|] eqn:Eb;
    [|contradiction].
  destruct (alloc_is_fixed self alloc); [contradiction|].
  intros Hin. exists b. apply in_app_or in Hin. destruct Hin as [Hin|Hin].
  - apply in_map_iff in Hin. destruct Hin as (i & <- & _). exact Eb.
  - destruct (lab_hours _ >? 0)%Z; [|contradiction].
    destruct Hin as [<-|[]]. exact Eb.
Qed.

(** X9.  For a solver built from a catalogue whose fixed slots carry period
    labels of the calendar, [run] has two outcomes only: a schedule with
    the single trace record, or the [ValueError] that no valid timetable
    was found.  No batch lookup and no period lookup of the soft penalty
    fails on the way. *)
Theorem run_raises_only_failure
    (db : Database) (selected : list Z) (use_fixed : bool) (max_iter : Z)
    (min_conflicts : bool) (self : t) :
  init db selected use_fixed max_iter min_conflicts = Ok self ->
  known_periods self (_apply_fixed_slots self) ->
  (exists sol, run self = Ok (sol, csp_history))
  \/ run self = Raise (ValueError failed_message).
Proof.
  intros Hinit Hfixed.
  assert ((forall slot, In slot (slots self) -> In (snd slot) (time_slots self))
          /\ Forall (fun a => exists b,
                         Py.get (batches self) (Asg.batch_id a) = Some b)
                    (assignments self)) as (Hslots & Hasg).
  { unfold init in Hinit.
    destruct (_load_data db selected use_fixed max_iter min_conflicts) as [s0|];
      [|discriminate].
    inversion Hinit; subst self. clear Hinit Hfixed. split.
    - intros slot Hin.
      exact (CSPFacts.prepare_slots_calendar (_define_day_slots s0) slot Hin).
    - apply Forall_forall. intros a Ha.
      unfold _prepare_assignments in Ha. cbn [assignments set_assignments] in Ha.
      apply PyFacts.in_sorted in Ha. apply in_flat_map in Ha.
      destruct Ha as (alloc & _ & Ha).
      exact (expand_allocation_batch _ _ _ Ha). }
  destruct (@solve_from_total self (assignments self) Hslots Hasg
              (_apply_fixed_slots self) Hfixed) as (r & Er).
  unfold run, _smart_solve. rewrite Er.
  destruct r as [sol|]; [left; exists sol; reflexivity|right; reflexivity].
Qed.

Lemma run_raises_only_failure_witness :
  init db_two_batches [1%Z; 2%Z] true 10000 false = Ok two_batches
  /\ known_periods two_batches (_apply_fixed_slots two_batches)
  /\ ((exists sol, run two_batches = Ok (sol, csp_history))
      \/ run two_batches = Raise (ValueError failed_message)).
Proof.
  assert (init db_two_batches [1%Z; 2%Z] true 10000 false = Ok two_batches)
    as Hinit by (vm_compute; reflexivity).
  assert (known_periods two_batches (_apply_fixed_slots two_batches)) as Hfx.
  { change (_apply_fixed_slots two_batches)
      with [ {| batch_id := 2; day := "Mon"; time_slot := "P1"; subject_id := 1;
                faculty_id := 1; room_id := 1; room_type := "classroom";
                is_fixed := true |} ].
    change (time_slots two_batches) with ["P1"; "P2"; "P3"; "P4"].
    constructor; [left; reflexivity|constructor]. }
  split; [exact Hinit|]. split; [exact Hfx|].
  exact (@run_raises_only_failure db_two_batches [1%Z; 2%Z] true 10000%Z false
           two_batches Hinit Hfx).
Defined.

Lemma solve_from_none self todo :
  forall s,
    solve_from self todo s = Ok None ->
    exists done a rest sol b,
      todo = done ++ a :: rest
      /\ solve_from self done s = Ok (Some sol)
      /\ Py.get (batches self) (Asg.batch_id a) = Some b
      /\ valid_combinations self a
           (_get_available_rooms self (Asg.type a) (number_of_students b)) sol
         = Ok [].
Proof.
  induction todo as [|a todo IH]; intros s; simpl; [discriminate|].
  destruct (solve_step self a s) as [[new|]|] eqn:Estep; try discriminate.
  - intros E. destruct (IH _ E) as (done & a' & rest & sol & b & -> & Hd & Hb & Hv).
    exists (a :: done), a', rest, sol, b. simpl. rewrite Estep.
    repeat split; assumption.
  - intros _. exists [], a, todo, s.
    unfold solve_step in Estep.
    destruct (Py.get (batches self) (Asg.batch_id a)) as [b|]; [|discriminate].
    exists b. simpl. repeat split.
    destruct (valid_combinations self a _ s) as [[|c cs]|] eqn:Ev;
      try discriminate; [reflexivity|].
    exfalso. unfold _select_best_slot_lcv in Estep.
    destruct (mapM _ (c :: cs)) as [scores|] eqn:Em; [|discriminate].
    assert (length (Py.sorted score_leb scores) = length (c :: cs)) as Hl.
    { rewrite PyFacts.length_sorted.
      apply PyFacts.mapM_Forall2 in Em. symmetry. exact (Forall2_length Em). }
    destruct (Py.sorted score_leb scores) as [|[p [sl rm]] rest'];
      [discriminate|]. simpl in Estep. discriminate.
Qed.

Lemma mapM_raise (A B : Type) (f : A -> result B) (l : list A) (e : exn) :
  mapM f l = Raise e -> exists x, In x l /\ f x = Raise e.
Proof.
  induction l as [|x l IH]; simpl; [discriminate|].
  destruct (f x) as [y|e'] eqn:Ex.
  - destruct (mapM f l) as [ys|e']; [discriminate|].
    intros H. destruct (IH H) as (x' & Hin & Hx'). eauto.
  - intros H. inversion H; subst. eauto.
Qed.

Lemma filterM_raise (A : Type) (f : A -> result bool) (l : list A) (e : exn) :
  filterM f l = Raise e -> exists x, In x l /\ f x = Raise e.
Proof.
  induction l as [|x l IH]; simpl; [discriminate|].
  destruct (f x) as [y|e'] eqn:Ex.
  - destruct (filterM f l) as [ys|e']; [discriminate|].
    intros H. destruct (IH H) as (x' & Hin & Hx'). eauto.
  - intros H. inversion H; subst. eauto.
Qed.

(** Whatever the loop of [_smart_solve] raises comes from a lookup. *)
Lemma solve_step_raises self a s e :
  solve_step self a s = Raise e -> lookup_error e.
Proof.
  unfold solve_step.
  destruct (Py.get (batches self) (Asg.batch_id a)) as [b|] eqn:Eb;
    [|intros H; inversion H; exact I].
  destruct (valid_combinations self a _ s) as [[|c cs]|e'] eqn:Ev.
  - discriminate.
  - destruct (_select_best_slot_lcv self a (c :: cs) s) as [[[sl rm]|]|e'] eqn:Es;
      try discriminate.
    intros H; inversion H; subst e'. clear H.
    unfold _select_best_slot_lcv in Es.
    destruct (mapM _ (c :: cs)) as [scores|e'] eqn:Em; [discriminate|].
    inversion Es; subst e'. clear Es.
    apply mapM_raise in Em. destruct Em as (x & _ & Ex).
    destruct (_calculate_soft_constraint_penalty self a (fst x) s)
      as [q|e'] eqn:Ep; [discriminate|].
    inversion Ex; subst e'. clear Ex.
    unfold _calculate_soft_constraint_penalty in Ep. destruct (fst x) as [d time].
    destruct (config_enabled self "minimize_faculty_gaps"); [|discriminate].
    destruct (mapM _ _) as [idx|e'] eqn:Ei; [discriminate|].
    inversion Ep; subst e'. clear Ep.
    apply mapM_raise in Ei. destruct Ei as (y & _ & Ey).
    unfold index_or_raise in Ey.
    destruct (Py.index (time_slot y) (time_slots self)); [discriminate|].
    inversion Ey. exact I.
  - intros H; inversion H; subst e'. clear H.
    unfold valid_combinations in Ev. apply filterM_raise in Ev.
    destruct Ev as (x & _ & Ex).
    unfold _check_hard_constraints, check_hard_constraints_reason in Ex.
    rewrite Eb in Ex. destruct (hard_reason _ _ _ _ _ _); discriminate.
Qed.

Lemma solve_from_raises self todo :
  forall s e, solve_from self todo s = Raise e -> lookup_error e.
Proof.
  induction todo as [|a todo IH]; intros s e; simpl; [discriminate|].
  destruct (solve_step self a s) as [[new|]|e'] eqn:Estep.
  - apply IH.
  - discriminate.
  - intros H; inversion H; subst e'. exact (solve_step_raises _ _ _ Estep).
Qed.

(** X10.  The failure of [run] has one cause only: if it raises the
    [ValueError] that no valid timetable was found, then some requirement,
    met after its predecessors were placed, had no (slot, room) that the
    hard constraints accept.  The second [return None] of [_smart_solve],
    after the selection, is never taken. *)
Theorem failure_means_no_candidate (self : t) :
  run self = Raise (ValueError failed_message) ->
  exists done a rest sol b,
    assignments self = done ++ a :: rest
    /\ solve_from self done (_apply_fixed_slots self) = Ok (Some sol)
    /\ Py.get (batches self) (Asg.batch_id a) = Some b
    /\ valid_combinations self a
         (_get_available_rooms self (Asg.type a) (number_of_students b)) sol
       = Ok [].
Proof.
  unfold run, _smart_solve.
  destruct (solve_from self (assignments self) (_apply_fixed_slots self))
    as [[sol|]|e] eqn:E.
  - discriminate.
  - intros _. exact (solve_from_none _ _ _ E).
  - intros H. inversion H; subst e. destruct (solve_from_raises _ _ _ E).
Qed.

Lemma failure_means_no_candidate_witness :
  run (built db_infeasible_theory [1%Z]) = Raise (ValueError failed_message)
  /\ exists done a rest sol b,
       assignments (built db_infeasible_theory [1%Z]) = done ++ a :: rest
       /\ solve_from (built db_infeasible_theory [1%Z]) done
            (_apply_fixed_slots (built db_infeasible_theory [1%Z]))
          = Ok (Some sol)
       /\ Py.get (batches (built db_infeasible_theory [1%Z])) (Asg.batch_id a)
          = Some b
       /\ valid_combinations (built db_infeasible_theory [1%Z]) a
            (_get_available_rooms (built db_infeasible_theory [1%Z])
                                  (Asg.type a) (number_of_students b)) sol
          = Ok [].
Proof.
  assert (run (built db_infeasible_theory [1%Z])
          = Raise (ValueError failed_message)) as Hrun
    by (vm_compute; reflexivity).
  split; [exact Hrun|].
  exact (@failure_means_no_candidate (built db_infeasible_theory [1%Z]) Hrun).
Defined.

(** ** The tuning options *)

Lemma init_options db selected use_fixed max_iter min_conflicts :
  init db selected use_fixed max_iter min_conflicts
  = match init db selected use_fixed 0 false with
    | Ok self => Ok (with_options max_iter min_conflicts self)
    | Raise e => Raise e
    end.
Proof.
  unfold init, _load_data.
  destruct (college db); [reflexivity|].
  destruct (Py.comprehension _ _ _); [reflexivity|].
  destruct (filter _ (tbl_subject_allocation db)); [reflexivity|].
  destruct (tbl_classrooms db); reflexivity.
Qed.

Lemma consecutive_from_options m c self d i steps :
  consecutive_from (with_options m c self) d i steps
  = consecutive_from self d i steps.
Proof.
  induction steps as [|k steps IH]; simpl; [reflexivity|].
  rewrite IH. reflexivity.
Qed.

Lemma find_consecutive_slots_options m c self d time n :
  _find_consecutive_slots (with_options m c self) d time n
  = _find_consecutive_slots self d time n.
Proof.
  unfold _find_consecutive_slots.
  change (working_days (with_options m c self)) with (working_days self).
  change (time_slots (with_options m c self)) with (time_slots self).
  destruct (Py.index d (working_days self)); [|reflexivity].
  destruct (Py.index time (time_slots self)); [|reflexivity].
  rewrite consecutive_from_options. reflexivity.
Qed.

Lemma overlap_reason_options m c self a room occ sol :
  overlap_reason (with_options m c self) a room occ sol
  = overlap_reason self a room occ sol.
Proof.
  induction sol as [|e sol IH]; simpl; [reflexivity|].
  rewrite IH. reflexivity.
Qed.

Lemma hard_reason_options m c self size a slot room sol :
  hard_reason (with_options m c self) size a slot room sol
  = hard_reason self size a slot room sol.
Proof.
  unfold hard_reason.
  rewrite find_consecutive_slots_options, overlap_reason_options. reflexivity.
Qed.

Lemma filterM_ext (A : Type) (f g : A -> result bool) (l : list A) :
  (forall x, f x = g x) -> filterM f l = filterM g l.
Proof.
  intros E. induction l as [|x l IH]; simpl; [reflexivity|].
  rewrite E, IH. reflexivity.
Qed.

Lemma solve_step_options m c self a sol :
  solve_step (with_options m c self) a sol
  = match solve_step self a sol with
    | Ok (Some new) => Ok (Some new)
    | other => other
    end.
Proof.
  unfold solve_step.
  change (batches (with_options m c self)) with (batches self).
  destruct (Py.get (batches self) (Asg.batch_id a)) as [b|] eqn:Eb; [|reflexivity].
  assert (valid_combinations (with_options m c self) a
            (_get_available_rooms (with_options m c self) (Asg.type a)
                                  (number_of_students b)) sol
          = valid_combinations self a
              (_get_available_rooms self (Asg.type a) (number_of_students b)) sol)
    as ->.
  { unfold valid_combinations. apply filterM_ext. intros sr.
    unfold _check_hard_constraints, check_hard_constraints_reason.
    change (batches (with_options m c self)) with (batches self).
    rewrite Eb, hard_reason_options. reflexivity. }
  destruct (valid_combinations self a _ sol) as [[|v vs]|]; try reflexivity.
  change (_select_best_slot_lcv (with_options m c self) a (v :: vs) sol)
    with (_select_best_slot_lcv self a (v :: vs) sol).
  destruct (_select_best_slot_lcv self a (v :: vs) sol) as [[[slot room]|]|];
    try reflexivity.
  unfold _assign_slot. rewrite find_consecutive_slots_options. reflexivity.
Qed.

Lemma solve_from_options m c self todo :
  forall s, solve_from (with_options m c self) todo s = solve_from self todo s.
Proof.
  induction todo as [|a todo IH]; intros s; simpl; [reflexivity|].
  rewrite solve_step_options.
  destruct (solve_step self a s) as [[new|]|]; try reflexivity. apply IH.
Qed.

Lemma run_options max_iter min_conflicts self :
  run (with_options max_iter min_conflicts self) = run self.
Proof.
  unfold run, _smart_solve.
  change (assignments (with_options max_iter min_conflicts self))
    with (assignments self).
  change (_apply_fixed_slots (with_options max_iter min_conflicts self))
    with (_apply_fixed_slots self).
  rewrite solve_from_options. reflexivity.
Qed.

(** X11.  The arguments [max_iterations] and [use_min_conflicts] are stored
    and never read: building the solver and running it gives the same
    schedule, or the same exception, whatever their values. *)
Theorem options_are_ignored
    (db : Database) (selected : list Z) (use_fixed : bool)
    (max_iter max_iter' : Z) (min_conflicts min_conflicts' : bool) :
  build_and_run db selected use_fixed max_iter min_conflicts
  = build_and_run db selected use_fixed max_iter' min_conflicts'.
Proof.
  unfold build_and_run.
  rewrite (init_options db selected use_fixed max_iter min_conflicts).
  rewrite (init_options db selected use_fixed max_iter' min_conflicts').
  destruct (init db selected use_fixed 0 false) as [self|e]; [|reflexivity].
  rewrite !run_options. reflexivity.
Qed.

(** ** Blocks of consecutive periods *)

Lemma consecutive_from_closed_form self d k m :
  forall s,
    consecutive_from self d k (seq s m)
    = if (m =? 0)%nat || (k + s + m <=? length (time_slots self))%nat
      then Some (map (pair d) (firstn m (skipn (k + s) (time_slots self))))
      else None.
Proof.
  induction m as [|m IH]; intros s; [reflexivity|].
  cbn [seq consecutive_from]. rewrite IH. cbn [Nat.eqb orb].
  destruct (nth_error (time_slots self) (k + s)) as [label|] eqn:En.
  - assert (k + s < length (time_slots self))%nat as Hlt
      by (apply nth_error_Some; congruence).
    rewrite (CSPFacts.skipn_nth_error _ _ En). cbn [firstn map].
    replace (k + S s)%nat with (S (k + s)) by lia.
    destruct m as [|m]; cbn [Nat.eqb orb option_map].
    + assert ((k + s + 1 <=? length (time_slots self))%nat = true) as ->
        by (apply Nat.leb_le; lia). reflexivity.
    + replace (S (k + s) + S m)%nat with (k + s + S (S m))%nat by lia.
      destruct (k + s + S (S m) <=? length (time_slots self))%nat; reflexivity.
  - apply nth_error_None in En.
    assert ((k + s + S m <=? length (time_slots self))%nat = false) as ->
      by (apply Nat.leb_gt; lia). reflexivity.
Qed.

(** X12.  [_find_consecutive_slots] in closed form: for a known day and a
    period label at position [k], the block is the [duration] labels from
    position [k] on, paired with the day; it is empty when the day or the
    label is unknown, when the duration is not positive, and when the
    block would run past the last period of the day. *)
Theorem find_consecutive_slots_closed_form
    (self : t) (d time : string) (duration : Z) :
  _find_consecutive_slots self d time duration
  = match Py.index d (working_days self), Py.index time (time_slots self) with
    | Some _, Some k =>
      if (k + Z.to_nat duration <=? length (time_slots self))%nat
      then map (pair d)
               (firstn (Z.to_nat duration) (skipn k (time_slots self)))
      else []
    | _, _ => []
    end.
Proof.
  unfold _find_consecutive_slots, Py.range.
  destruct (Py.index d (working_days self)); [|reflexivity].
  destruct (Py.index time (time_slots self)) as [k|] eqn:Ek; [|reflexivity].
  rewrite consecutive_from_closed_form, Nat.add_0_r.
  destruct (index_string_spec _ _ Ek) as (_ & Hlt & _).
  destruct (Z.to_nat duration) as [|m]; cbn [Nat.eqb orb].
  - rewrite Nat.add_0_r.
    assert ((k <=? length (time_slots self))%nat = true) as ->
      by (apply Nat.leb_le; lia). reflexivity.
  - destruct (k + S m <=? length (time_slots self))%nat; reflexivity.
Qed.

(** ** The capacity filter of the room list *)

Lemma filter_keeps_all (A : Type) (f : A -> bool) (l : list A) :
  Forall (fun x => f x = true) l -> filter f l = l.
Proof.
  induction 1 as [|x l Hx _ IH]; simpl; [reflexivity|].
  rewrite Hx, IH. reflexivity.
Qed.

(** X18.  For rooms shaped as the catalogue stores them (a classroom has a
    [capacity] and no [computer_capacity], a lab the reverse) and a batch
    of at most 999 students, the capacity filter of [_get_available_rooms]
    removes nothing: the missing column defaults to 999, so the list is
    all the classrooms for a theory hour and all the labs (all the
    classrooms when there is no lab) for a lab block, whatever the
    capacities and whether or not [room_capacity] is enabled. *)
Theorem capacity_filter_is_vacuous (self : t) (slot_type : Kind) (batch_size : Z) :
  Forall (fun r => computer_capacity r = None) (classrooms self) ->
  Forall (fun r => capacity r = None) (labs self) ->
  (batch_size <= 999)%Z ->
  _get_available_rooms self slot_type batch_size
  = match slot_type with
    | lab => match labs self with
             | [] => classrooms self
             | _ :: _ => labs self
             end
    | theory => classrooms self
    end.
Proof.
  intros Hc Hl Hs. unfold _get_available_rooms.
  destruct (config_enabled self "room_capacity"); [|reflexivity].
  apply filter_keeps_all.
  assert (Forall (fun r => computer_capacity r = None \/ capacity r = None)
                 (match slot_type with
                  | lab => match labs self with
                           | [] => classrooms self
                           | _ :: _ => labs self
                           end
                  | theory => classrooms self
                  end)) as H.
  { destruct slot_type.
    - eapply Forall_impl; [|exact Hc]. auto.
    - destruct (labs self) eqn:E.
      + eapply Forall_impl; [|exact Hc]. auto.
      + eapply Forall_impl; [|exact Hl]. auto. }
  eapply Forall_impl; [|exact H]. cbv beta. intros r [E|E]; rewrite E;
    apply orb_true_iff; [right|left]; unfold column_or; apply Z.geb_le; exact Hs.
Qed.

Lemma capacity_filter_is_vacuous_witness :
  Forall (fun r => computer_capacity r = None) (classrooms two_batches)
  /\ Forall (fun r => capacity r = None) (labs two_batches)
  /\ (30 <= 999)%Z
  /\ _get_available_rooms two_batches lab 30
     = match lab with
       | lab => match labs two_batches with
                | [] => classrooms two_batches
                | _ :: _ => labs two_batches
                end
       | theory => classrooms two_batches
       end.
Proof.
  assert (Forall (fun r => computer_capacity r = None) (classrooms two_batches))
    as Hc by (vm_compute; repeat constructor).
  assert (Forall (fun r => capacity r = None) (labs two_batches))
    as Hl by (vm_compute; repeat constructor).
  assert (30 <= 999)%Z as Hs by lia.
  split; [exact Hc|]. split; [exact Hl|]. split; [exact Hs|].
  exact (@capacity_filter_is_vacuous two_batches lab 30%Z Hc Hl Hs).
Defined.

End CSPLaws.

(* ================================================================== *)
(** * Further properties of the genetic solver *)
(* ================================================================== *)

Module GALaws.
Import GeneticAlgorithmCPUOptimized GASpec GATerms RandomSpec RandomFacts.

(** ** Crossover *)

Lemma perm_snoc2 (A : Type) (l1 l2 : list A) (a b : A) :
  Permutation ((l1 ++ [a]) ++ (l2 ++ [b])) (a :: b :: l1 ++ l2).
Proof.
  rewrite <- app_assoc. simpl.
  apply Permutation_sym.
  apply Permutation_trans with (a :: l1 ++ b :: l2).
  - constructor. apply Permutation_middle.
  - apply Permutation_trans with (l1 ++ a :: b :: l2);
      [apply Permutation_middle|].
    apply Permutation_app_head. constructor.
    apply Permutation_trans with (b :: l2 ++ []);
      [rewrite app_nil_r; apply Permutation_refl|].
    apply Permutation_middle.
Qed.

(** The coin loop hands every pair of genes to the two children, one gene
    each. *)
Lemma crossover_mix_conserves (pairs : list (Entry * Entry)) (F1 F2 : list Entry) :
  Forall (fun pr => is_fixed (fst pr) = false /\ is_fixed (snd pr) = false) pairs ->
  total (crossover_mix pairs (F1, F2))
        (fun c => exists xs ys,
                    fst c = F1 ++ xs /\ snd c = F2 ++ ys
                    /\ Forall (fun g => is_fixed g = false) xs
                    /\ Forall (fun g => is_fixed g = false) ys
                    /\ Permutation (xs ++ ys) (map fst pairs ++ map snd pairs)).
Proof.
  intros Hp. unfold crossover_mix.
  apply (@total_foldM _ _ _
           (fun done c => exists xs ys,
                fst c = F1 ++ xs /\ snd c = F2 ++ ys
                /\ Forall (fun g => is_fixed g = false) xs
                /\ Forall (fun g => is_fixed g = false) ys
                /\ Permutation (xs ++ ys) (map fst done ++ map snd done))).
  - exists [], []. rewrite !app_nil_r. repeat split; constructor.
  - intros done [a b] [c1 c2] Hin (xs & ys & E1 & E2 & N1 & N2 & HP).
    simpl in E1, E2. subst c1 c2.
    rewrite Forall_forall in Hp. destruct (Hp _ Hin) as [Ha Hb]. simpl in Ha, Hb.
    eapply total_bind; [apply total_random|]. intros u _.
    rewrite !map_app. cbn [map fst snd].
    assert (Permutation (a :: b :: xs ++ ys)
                        ((map fst done ++ [a]) ++ (map snd done ++ [b]))) as HQ.
    { apply Permutation_sym.
      eapply Permutation_trans; [apply perm_snoc2|].
      do 2 constructor. apply Permutation_sym. exact HP. }
    destruct (negb (Qle_bool (1 # 2) u)); apply total_ret.
    + exists (xs ++ [a]), (ys ++ [b]). cbn [fst snd].
      split; [rewrite app_assoc; reflexivity|].
      split; [rewrite app_assoc; reflexivity|].
      split; [apply Forall_app; split; [exact N1|constructor; auto]|].
      split; [apply Forall_app; split; [exact N2|constructor; auto]|].
      eapply Permutation_trans; [apply perm_snoc2|exact HQ].
    + exists (xs ++ [b]), (ys ++ [a]). cbn [fst snd].
      split; [rewrite app_assoc; reflexivity|].
      split; [rewrite app_assoc; reflexivity|].
      split; [apply Forall_app; split; [exact N1|constructor; auto]|].
      split; [apply Forall_app; split; [exact N2|constructor; auto]|].
      eapply Permutation_trans; [apply perm_snoc2|].
      eapply Permutation_trans; [apply perm_swap|exact HQ].
Qed.

Lemma combine_fst_firstn (A B : Type) (l1 : list A) (l2 : list B) :
  map fst (combine l1 l2) = firstn (Nat.min (length l1) (length l2)) l1.
Proof.
  revert l2. induction l1 as [|a l1 IH]; intros [|b l2]; simpl; try reflexivity.
  rewrite IH. reflexivity.
Qed.

Lemma combine_snd_firstn (A B : Type) (l1 : list A) (l2 : list B) :
  map snd (combine l1 l2) = firstn (Nat.min (length l1) (length l2)) l2.
Proof.
  revert l2. induction l1 as [|a l1 IH]; intros [|b l2]; simpl; try reflexivity.
  rewrite IH. reflexivity.
Qed.

Lemma perm_interleave (A : Type) (x1 t1 x2 t2 : list A) :
  Permutation ((x1 ++ t1) ++ (x2 ++ t2)) ((x1 ++ x2) ++ (t1 ++ t2)).
Proof.
  rewrite <- !app_assoc. apply Permutation_app_head.
  rewrite !app_assoc. apply Permutation_app_tail. apply Permutation_app_comm.
Qed.

(** X13.  Crossover loses and invents no gene.  Either it returns the two
    parents unchanged, or both children carry the fixed genes of the first
    parent, in front, and the non-fixed genes of the two children together
    are the non-fixed genes of the two parents together. *)
Theorem crossover_conserves_genes (self : t) (parent1 parent2 : list Entry) :
  total (_crossover self parent1 parent2)
        (fun c =>
           c = (parent1, parent2)
           \/ (fixed_genes (fst c) = fixed_genes parent1
               /\ fixed_genes (snd c) = fixed_genes parent1
               /\ (exists xs, fst c = fixed_genes parent1 ++ xs
                              /\ nonfixed_genes (fst c) = xs)
               /\ (exists ys, snd c = fixed_genes parent1 ++ ys
                              /\ nonfixed_genes (snd c) = ys)
               /\ Permutation
                    (nonfixed_genes (fst c) ++ nonfixed_genes (snd c))
                    (nonfixed_genes parent1 ++ nonfixed_genes parent2))).
Proof.
  unfold _crossover.
  eapply total_bind; [apply total_random|]. intros u _.
  destruct (negb (Qle_bool u (crossover_rate self)));
    [apply total_ret; left; reflexivity|].
  eapply total_bind.
  - apply (@crossover_mix_conserves _ (fixed_genes parent1) (fixed_genes parent1)).
    apply Forall_forall. intros [a b] Hin. simpl.
    pose proof (GAFacts.nonfixed_genes_spec parent1) as N1.
    pose proof (GAFacts.nonfixed_genes_spec parent2) as N2.
    rewrite Forall_forall in N1, N2. split.
    + apply N1. eapply in_combine_l; eauto.
    + apply N2. eapply in_combine_r; eauto.
  - intros [c1 c2] (xs & ys & E1 & E2 & F1 & F2 & HP). simpl in E1, E2.
    subst c1 c2. apply total_ret. right. cbn [fst snd].
    set (n := Nat.min (length (nonfixed_genes parent1))
                      (length (nonfixed_genes parent2))) in *.
    rewrite <- !app_assoc.
    assert (Forall (fun g => is_fixed g = false)
                   (xs ++ skipn n (nonfixed_genes parent1))) as G1.
    { apply Forall_app. split; [exact F1|].
      apply GAFacts.Forall_skipn, GAFacts.nonfixed_genes_spec. }
    assert (Forall (fun g => is_fixed g = false)
                   (ys ++ skipn n (nonfixed_genes parent2))) as G2.
    { apply Forall_app. split; [exact F2|].
      apply GAFacts.Forall_skipn, GAFacts.nonfixed_genes_spec. }
    destruct (GAFacts.fixed_genes_of_child parent1 G1) as [Hf1 Hn1].
    destruct (GAFacts.fixed_genes_of_child parent1 G2) as [Hf2 Hn2].
    rewrite Hf1, Hf2, Hn1, Hn2.
    split; [reflexivity|]. split; [reflexivity|].
    split; [eexists; split; reflexivity|].
    split; [eexists; split; reflexivity|].
    eapply Permutation_trans; [apply perm_interleave|].
    rewrite combine_fst_firstn, combine_snd_firstn in HP. fold n in HP.
    eapply Permutation_trans;
      [apply Permutation_app_tail; exact HP|].
    eapply Permutation_trans; [apply Permutation_sym, perm_interleave|].
    rewrite !firstn_skipn. apply Permutation_refl.
Qed.

(** ** Fresh individuals *)

Lemma window_genes (A B : Type) (f : A -> B) (l : list A) (s m : nat) :
  forall k,
    flat_map (fun i => match nth_error l (s + i) with
                       | Some x => [f x]
                       | None => []
                       end) (seq k m)
    = map f (firstn m (skipn (s + k) l)).
Proof.
  induction m as [|m IH]; intros k; [reflexivity|].
  cbn [seq flat_map]. rewrite IH.
  destruct (nth_error l (s + k)) as [x|] eqn:En.
  - rewrite (CSPFacts.skipn_nth_error _ _ En). cbn [firstn map app].
    replace (s + S k)%nat with (S (s + k)) by lia. reflexivity.
  - apply nth_error_None in En.
    rewrite !skipn_all2 by lia. rewrite !firstn_nil. reflexivity.
Qed.

Lemma random_genes_shape (self : t) (req : Requirement) :
  working_days self <> [] -> time_slots self <> [] -> classrooms self <> [] ->
  total (random_genes self req) (requirement_genes self req).
Proof.
  intros Hd Ht Hc. destruct req as [b s f|b s f duration]; simpl.
  - eapply total_bind; [apply total_choice; exact Hd|]. intros d Hd'.
    eapply total_bind; [apply total_choice; exact Ht|]. intros ts Hts.
    eapply total_bind; [apply total_choice; exact Hc|]. intros r Hr.
    apply total_ret. exists d, ts, r. repeat split; assumption.
  - eapply total_bind; [apply total_choice; exact Hd|]. intros d Hd'.
    eapply total_bind; [apply total_randint; lia|]. intros start Hs.
    eapply total_bind
      with (P := fun p =>
                   (exists room, In room (labs self)
                                 /\ fst p = r_id room /\ snd p = "lab")
                   \/ (labs self = []
                       /\ exists room, In room (classrooms self)
                                       /\ fst p = r_id room
                                       /\ snd p = "classroom")).
    + destruct (labs self) as [|l0 ls] eqn:El.
      * eapply total_bind; [apply total_choice; exact Hc|]. intros r Hr.
        apply total_ret. right. split; [reflexivity|]. exists r. auto.
      * eapply total_bind; [apply total_choice; discriminate|]. intros r Hr.
        apply total_ret. left. exists r. auto.
    + intros [rid rty] Hroom. cbn [fst snd] in Hroom. apply total_ret.
      exists d, (Z.to_nat start), rid, rty.
      split; [exact Hd'|]. split; [exact Hroom|].
      unfold Py.range.
      rewrite (window_genes (fun label => gene b d label s f rid rty)
                            (time_slots self) (Z.to_nat start)
                            (Z.to_nat duration) 0).
      rewrite Nat.add_0_r. split; [reflexivity|].
      rewrite length_map, length_firstn, length_skipn.
      cbv beta in Hs. lia.
Qed.

Lemma create_shape (self : t) :
  working_days self <> [] -> time_slots self <> [] -> classrooms self <> [] ->
  total (_create_random_timetable self) (fresh_individual self).
Proof.
  intros Hd Ht Hc. unfold _create_random_timetable, fresh_individual.
  apply (@total_foldM _ _ _
           (fun done timetable =>
              exists groups,
                timetable = map entry_of_fixed (fixed_slots self) ++ concat groups
                /\ Forall2 (requirement_genes self) done groups)).
  - exists []. rewrite app_nil_r. split; [reflexivity|constructor].
  - intros done req timetable _ (groups & -> & HF).
    eapply total_bind; [apply random_genes_shape; assumption|].
    intros genes Hg. apply total_ret. exists (groups ++ [genes]).
    rewrite concat_app. cbn [concat]. rewrite app_nil_r, app_assoc.
    split; [reflexivity|].
    apply Forall2_app; [exact HF|]. constructor; [exact Hg|constructor].
Qed.

(** X14.  With at least one working day, one period and one classroom,
    creating an individual always succeeds and gives the fixed slots
    followed, requirement by requirement, by one theory gene on a day, at
    a period and in a classroom of the catalogue, or by a whole lab block:
    consecutive periods of one day in one lab (one classroom when there
    is no lab), as many as the duration, or the whole day when the
    duration exceeds it.  The initial population holds [population_size]
    such individuals. *)
Theorem fresh_individuals_are_well_formed (self : t) :
  working_days self <> [] -> time_slots self <> [] -> classrooms self <> [] ->
  total (_create_random_timetable self) (fresh_individual self)
  /\ total (_initialize_population_parallel self)
           (fun population =>
              length population = Z.to_nat (population_size self)
              /\ Forall (fresh_individual self) population).
Proof.
  intros Hd Ht Hc. split; [apply create_shape; assumption|].
  unfold _initialize_population_parallel.
  eapply total_weaken;
    [|apply (@total_foldM _ _ _
               (fun done population =>
                  length population = length done
                  /\ Forall (fresh_individual self) population))].
  - intros population [H HF]. split; [|exact HF].
    rewrite H. unfold Py.range. apply length_seq.
  - split; [reflexivity|constructor].
  - intros done k population _ [H HF].
    eapply total_bind; [apply create_shape; assumption|].
    intros individual Hi. apply total_ret. split.
    + rewrite !length_app, H. reflexivity.
    + apply Forall_app. split; [exact HF|]. constructor; [exact Hi|constructor].
Qed.

Lemma fresh_individuals_are_well_formed_witness :
  working_days (built db_lab [1%Z] params_lab) <> []
  /\ time_slots (built db_lab [1%Z] params_lab) <> []
  /\ classrooms (built db_lab [1%Z] params_lab) <> []
  /\ total (_create_random_timetable (built db_lab [1%Z] params_lab))
           (fresh_individual (built db_lab [1%Z] params_lab))
  /\ total (_initialize_population_parallel (built db_lab [1%Z] params_lab))
           (fun population =>
              length population
              = Z.to_nat (population_size (built db_lab [1%Z] params_lab))
              /\ Forall (fresh_individual (built db_lab [1%Z] params_lab))
                        population).
Proof.
  assert (working_days (built db_lab [1%Z] params_lab) <> []) as Hd
    by (vm_compute; discriminate).
  assert (time_slots (built db_lab [1%Z] params_lab) <> []) as Ht
    by (vm_compute; discriminate).
  assert (classrooms (built db_lab [1%Z] params_lab) <> []) as Hc
    by (vm_compute; discriminate).
  split; [exact Hd|]. split; [exact Ht|]. split; [exact Hc|].
  exact (@fresh_individuals_are_well_formed (built db_lab [1%Z] params_lab)
           Hd Ht Hc).
Defined.

(** ** The generation loop *)

Lemma returns_true (A : Type) (m : Random.M A) : returns m (fun _ => True).
Proof. intros g a g' _. exact I. Qed.

Lemma returns_item_at (A : Type) (l : list A) (i : nat) :
  returns (item l i) (fun x => nth_error l i = Some x).
Proof.
  unfold item. destruct (nth_error l i) as [x|];
    [apply returns_ret; reflexivity|apply returns_raise].
Qed.











(** ** Elitism *)









(** ** The size of the population *)

Lemma next_generation_prefix (self : t) (population : list (list Entry))
    (fitnesses : list Q) :
  returns (next_generation self population fitnesses)
          (fun new_population =>
             exists elite rest,
               new_population = elite ++ rest
               /\ Forall2 (fun idx ind => nth_error population idx = Some ind)
                          (elite_indices self fitnesses) elite).
Proof.
  unfold next_generation. eapply returns_bind.
  - apply (@returns_foldM _ _ _
             (fun done acc =>
                Forall2 (fun idx ind => nth_error population idx = Some ind)
                        done acc)); [constructor|].
    intros done idx acc _ Hacc.
    eapply returns_bind; [apply returns_item_at|]. intros ind Hind.
    apply returns_ret. apply Forall2_app; [exact Hacc|].
    constructor; [exact Hind|constructor].
  - intros elite Helite. cbv beta in Helite.
    eapply returns_bind; [apply returns_true|]. intros pairs _.
    eapply returns_bind; [apply returns_true|]. intros children _.
    apply returns_ret. eexists _, _. split; [reflexivity|exact Helite].
Qed.

(** X19.  A generation step keeps the size of the population and copies
    the elite: from [population_size] individuals with their fitnesses,
    with a tournament that fits the population, [next_generation] always
    returns [population_size] individuals again, and they begin with the
    individuals at the elite positions, in elite order. *)
Theorem next_generation_keeps_size (self : t) (population : list (list Entry))
    (fitnesses : list Q) :
  (1 <= population_size self)%Z ->
  (1 <= tournament_size self <= population_size self)%Z ->
  Z.of_nat (length population) = population_size self ->
  length fitnesses = length population ->
  total (next_generation self population fitnesses)
        (fun new_population =>
           Z.of_nat (length new_population) = population_size self
           /\ exists elite rest,
                new_population = elite ++ rest
                /\ Forall2 (fun idx ind => nth_error population idx = Some ind)
                           (elite_indices self fitnesses) elite).
Proof.
  intros Hp Hts Hn Hf.
  exact (total_and_returns
           (@GAFacts.next_generation_total self Hp Hts population fitnesses Hn Hf)
           (next_generation_prefix self population fitnesses)).
Qed.

Lemma next_generation_keeps_size_witness :
  (1 <= population_size (built db_overbooked [1%Z; 2%Z] params_small))%Z
  /\ (1 <= tournament_size (built db_overbooked [1%Z; 2%Z] params_small)
       <= population_size (built db_overbooked [1%Z; 2%Z] params_small))%Z
  /\ Z.of_nat (length (repeat overbooked_timetable 4))
     = population_size (built db_overbooked [1%Z; 2%Z] params_small)
  /\ length (repeat (1000 # 21)%Q 4) = length (repeat overbooked_timetable 4)
  /\ total (next_generation (built db_overbooked [1%Z; 2%Z] params_small)
                            (repeat overbooked_timetable 4)
                            (repeat (1000 # 21)%Q 4))
           (fun new_population =>
              Z.of_nat (length new_population)
              = population_size (built db_overbooked [1%Z; 2%Z] params_small)
              /\ exists elite rest,
                   new_population = elite ++ rest
                   /\ Forall2
                        (fun idx ind =>
                           nth_error (repeat overbooked_timetable 4) idx = Some ind)
                        (elite_indices
                           (built db_overbooked [1%Z; 2%Z] params_small)
                           (repeat (1000 # 21)%Q 4)) elite).
Proof.
  assert (1 <= population_size (built db_overbooked [1%Z; 2%Z] params_small))%Z
    as Hp by (vm_compute; discriminate).
  assert (1 <= tournament_size (built db_overbooked [1%Z; 2%Z] params_small)
          <= population_size (built db_overbooked [1%Z; 2%Z] params_small))%Z
    as Hts by (vm_compute; split; discriminate).
  split; [exact Hp|]. split; [exact Hts|].
  split; [reflexivity|]. split; [reflexivity|].
  exact (@next_generation_keeps_size
           (built db_overbooked [1%Z; 2%Z] params_small)
           (repeat overbooked_timetable 4) (repeat (1000 # 21)%Q 4)
           Hp Hts eq_refl eq_refl).
Defined.

End GALaws.
